(** * ecs-fargate-ci-cd-pipeline: the pipeline stack and its build specification

    The repository declares a CodePipeline/CodeBuild pipeline with the AWS CDK
    ([lib/pipeline.stack.ts]) and an entry point that instantiates the stacks
    ([bin/infrastructure.ts]).  This development embeds

    - the configuration objects the stack constructor builds, as records;
    - the build specification returned by [getBuildSpec], as the abstract
      syntax of its shell commands together with a printer that gives back the
      command text of the source, and an interpreter for that shell fragment;
    - the entry point [start], as a program in a small state monad over the
      host it queries;
    - the sequencing of a pipeline run over the declared stages.                *)

From Stdlib Require Import Ascii String List Bool Arith Lia.
From stdpp Require Import base option list strings gmap.
Import ListNotations.

Local Open Scope list_scope.

(** ** Characters and strings *)

Module Chars.

Definition nl : ascii := "010"%char.
Definition tab : ascii := "009"%char.
Definition space : ascii := " "%char.
Definition dquote : ascii := "034"%char.
Definition backslash : ascii := "092"%char.

(** The one-character string holding a double quote. *)
Definition dq : string := String dquote "".
(** A double quote behind a backslash, as written between double quotes. *)
Definition esc_dq : string := String backslash dq.
(** The one-character string holding a newline. *)
Definition newline : string := String nl "".

(** The field separators of the shell (the default IFS). *)
Definition is_ifs (c : ascii) : bool :=
  Ascii.eqb c space || Ascii.eqb c tab || Ascii.eqb c nl.

(** The characters that start a pathname pattern. *)
Definition is_glob (c : ascii) : bool :=
  Ascii.eqb c "*"%char || Ascii.eqb c "?"%char || Ascii.eqb c "["%char.

Fixpoint all_chars (p : ascii -> bool) (s : string) : bool :=
  match s with
  | EmptyString => true
  | String c s' => p c && all_chars p s'
  end.

Definition has_char (p : ascii -> bool) (s : string) : bool :=
  negb (all_chars (fun c => negb (p c)) s).

Definition starts_with (c : ascii) (s : string) : bool :=
  match s with
  | EmptyString => false
  | String c' _ => Ascii.eqb c c'
  end.

Definition is_empty (s : string) : bool :=
  match s with EmptyString => true | _ => false end.

(** Characters that the shell, [echo] and [printf] hand on unchanged and that
    need no escape inside a JSON string: printable, not blank, and none of
    star, question mark, opening bracket, backslash, percent, double quote. *)
Definition is_plain_char (c : ascii) : bool :=
  (32 <? nat_of_ascii c)%nat && (nat_of_ascii c <? 127)%nat
  && negb (is_glob c)
  && negb (Ascii.eqb c backslash) && negb (Ascii.eqb c "%"%char)
  && negb (Ascii.eqb c dquote).

(** A plain word: plain characters only, and no leading dash (which [echo]
    would read as an option). *)
Definition plain (s : string) : bool :=
  all_chars is_plain_char s && negb (starts_with "-"%char s).

(** The lines of a text: every newline ends a line, and an unterminated last
    line counts as a line. *)
Fixpoint lines (s : string) : list string :=
  match s with
  | EmptyString => []
  | String c s' =>
      if Ascii.eqb c nl then EmptyString :: lines s'
      else match lines s' with
           | [] => [String c EmptyString]
           | l :: ls => String c l :: ls
           end
  end.

(** Removal of all trailing newlines, as command substitution does. *)
Fixpoint chomp (s : string) : string :=
  match s with
  | EmptyString => EmptyString
  | String c s' =>
      let r := chomp s' in
      if Ascii.eqb c nl && is_empty r then EmptyString else String c r
  end.

Fixpoint join (sep : string) (l : list string) : string :=
  match l with
  | [] => EmptyString
  | [x] => x
  | x :: l' => x +:+ sep +:+ join sep l'
  end.

Fixpoint concat (l : list string) : string :=
  match l with
  | [] => EmptyString
  | [x] => x
  | x :: l' => x +:+ concat l'
  end.

(** Decimal numerals. *)
Fixpoint parse_nat_from (acc : nat) (s : string) : option nat :=
  match s with
  | EmptyString => Some acc
  | String c s' =>
      match Ascii.is_nat c with
      | Some d => parse_nat_from (10 * acc + d) s'
      | None => None
      end
  end.

Definition parse_nat (s : string) : option nat :=
  if is_empty s then None else parse_nat_from 0 s.

(** [split_at c s] cuts [s] at the first occurrence of [c]. *)
Fixpoint split_at (c : ascii) (s : string) : option (string * string) :=
  match s with
  | EmptyString => None
  | String c' s' =>
      if Ascii.eqb c c' then Some (EmptyString, s')
      else match split_at c s' with
           | Some (a, b) => Some (String c' a, b)
           | None => None
           end
  end.

End Chars.

(** ** The shell fragment of the build specification *)

Module Sh.
Import Chars.

(** *** Syntax *)

(** Text between double quotes. *)
Inductive qpart : Type :=
| QText (s : string)          (* characters standing for themselves *)
| QEsc (c : ascii)            (* a backslash followed by [c] *)
| QVar (x : string)           (* $x *)
| QVarB (x : string).         (* ${x} *)

(** The parts of a word; [C] is the syntax of substituted commands. *)
Inductive part (C : Type) : Type :=
| Text (s : string)                       (* unquoted literal text *)
| Var (x : string)                        (* $x *)
| VarB (x : string)                       (* ${x} *)
| VarDefault (x : string) (d : string)    (* ${x:=d} *)
| DQuote (q : list qpart)                 (* text between double quotes *)
| Subst (c : C)                           (* $(c) *)
| Tick (c : C).                           (* `c` *)

Arguments Text {C} s.
Arguments Var {C} x.
Arguments VarB {C} x.
Arguments VarDefault {C} x d.
Arguments DQuote {C} q.
Arguments Subst {C} c.
Arguments Tick {C} c.

Definition word (C : Type) : Type := list (part C).

Inductive command (C : Type) : Type :=
| Assign (x : string) (w : word C)                     (* x=w *)
| Exec (ws : list (word C)) (out : option (word C))    (* w1 ... wn [> file] *)
| Pipe (c1 c2 : command C).                            (* c1 | c2 *)

Arguments Assign {C} x w.
Arguments Exec {C} ws out.
Arguments Pipe {C} c1 c2.

(** Commands inside a command substitution hold no further substitution;
    the commands of a phase may hold substitutions of such commands. *)
Definition inner : Type := command Empty_set.
Definition line : Type := command inner.
Definition line_word : Type := word inner.

(** *** Concrete syntax *)

Definition render_qpart (q : qpart) : string :=
  match q with
  | QText s => s
  | QEsc c => String backslash (String c "")
  | QVar x => "$" +:+ x
  | QVarB x => "${" +:+ x +:+ "}"
  end.

Definition render_part {C} (rc : C -> string) (p : part C) : string :=
  match p with
  | Text s => s
  | Var x => "$" +:+ x
  | VarB x => "${" +:+ x +:+ "}"
  | VarDefault x d => "${" +:+ x +:+ ":=" +:+ d +:+ "}"
  | DQuote q => dq +:+ concat (map render_qpart q) +:+ dq
  | Subst c => "$(" +:+ rc c +:+ ")"
  | Tick c => "`" +:+ rc c +:+ "`"
  end.

Definition render_word {C} (rc : C -> string) (w : word C) : string :=
  concat (map (render_part rc) w).

Fixpoint render_command {C} (rc : C -> string) (c : command C) : string :=
  match c with
  | Assign x w => x +:+ "=" +:+ render_word rc w
  | Exec ws out =>
      join " " (map (render_word rc) ws) +:+
      match out with
      | Some f => " > " +:+ render_word rc f
      | None => ""
      end
  | Pipe c1 c2 => render_command rc c1 +:+ " | " +:+ render_command rc c2
  end.

Definition render_inner : inner -> string :=
  render_command (fun e : Empty_set => match e with end).

Definition render : line -> string := render_command render_inner.

(** *** Semantics *)

(** What a build leaves behind, oldest first. *)
Inductive event : Type :=
| Stdout (text : string)          (* text written to the build log *)
| Spawn (argv : list string).     (* an external program was started *)

Record shell : Type := {
  vars : gmap string string;      (* shell variables *)
  files : gmap string string;     (* files written in the working directory *)
  log : list event
}.

(** The programs outside the shell ([aws], [docker], [date], ...): from the
    events so far, the argument vector and the standard input, whether the
    program exits with status zero and what it prints. *)
Record World : Type := {
  program : list event -> list string -> string -> bool * string
}.

Definition value (vs : gmap string string) (x : string) : string :=
  default "" (vs !! x).

Arguments value : simpl never.

Definition setvar (x v : string) (st : shell) : shell :=
  {| vars := <[x := v]> (vars st); files := files st; log := log st |}.

Definition write_file (name content : string) (st : shell) : shell :=
  {| vars := vars st; files := <[name := content]> (files st); log := log st |}.

Definition emit (e : event) (st : shell) : shell :=
  {| vars := vars st; files := files st; log := log st ++ [e] |}.

(** A subshell keeps what it did to the world and forgets its variables. *)
Definition subshell (parent child : shell) : shell :=
  {| vars := vars parent; files := files child; log := log child |}.

(** Expanded text, before field splitting. *)
Inductive piece : Type :=
| Lit (s : string)      (* literal text of the command *)
| Quo (s : string)      (* quoted text *)
| Exp (s : string).     (* the result of an unquoted expansion *)

(** Inside double quotes a backslash quotes only dollar, backquote, double
    quote and backslash, and is kept before any other character. *)
Definition expand_qpart (vs : gmap string string) (q : qpart) : string :=
  match q with
  | QText s => s
  | QEsc c =>
      if Ascii.eqb c dquote || Ascii.eqb c backslash
         || Ascii.eqb c "$"%char || Ascii.eqb c "`"%char
      then String c ""
      else String backslash (String c "")
  | QVar x | QVarB x => value vs x
  end.

Section Expansion.
Context {C : Type}.
(** How a substituted command runs: exit status, output, state after. *)
Variable sub : C -> shell -> option (bool * string * shell).

(** A part expands to a piece; a command substitution also leaves the exit
    status of its command. *)
Definition expand_part (p : part C) (st : shell)
  : option (piece * option bool * shell) :=
  match p with
  | Text s => Some (Lit s, None, st)
  | Var x | VarB x => Some (Exp (value (vars st) x), None, st)
  | VarDefault x d =>
      if is_empty (value (vars st) x)
      then Some (Exp d, None, setvar x d st)
      else Some (Exp (value (vars st) x), None, st)
  | DQuote q => Some (Quo (concat (map (expand_qpart (vars st)) q)), None, st)
  | Subst c | Tick c =>
      '(ok, out, st') ← sub c st;
      Some (Exp (chomp out), Some ok, subshell st st')
  end.

Fixpoint expand_word (w : word C) (st : shell)
  : option (list piece * option bool * shell) :=
  match w with
  | [] => Some ([], None, st)
  | p :: w' =>
      '(pc, s1, st1) ← expand_part p st;
      '(pcs, s2, st2) ← expand_word w' st1;
      Some (pc :: pcs, match s2 with Some b => Some b | None => s1 end, st2)
  end.
End Expansion.

(** Characters of literal command text that would need the parts of the shell
    left out here (pathname, tilde and brace expansion, quoting, operators). *)
Definition is_meta (c : ascii) : bool :=
  is_glob c || is_ifs c || Ascii.eqb c backslash || Ascii.eqb c dquote
  || Ascii.eqb c "'"%char || Ascii.eqb c "$"%char || Ascii.eqb c "`"%char
  || Ascii.eqb c "~"%char || Ascii.eqb c "{"%char || Ascii.eqb c "#"%char
  || Ascii.eqb c ";"%char || Ascii.eqb c "&"%char || Ascii.eqb c "|"%char
  || Ascii.eqb c "<"%char || Ascii.eqb c ">"%char || Ascii.eqb c "("%char
  || Ascii.eqb c ")"%char || Ascii.eqb c "!"%char.

Definition push_field (done : list string) (cur : option string) : list string :=
  match cur with
  | Some f => f :: done
  | None => done
  end.

(** Field splitting of the result of an unquoted expansion: [done] holds the
    finished fields, last first, and [cur] the field being built. *)
Fixpoint split_exp (s : string) (done : list string) (cur : option string)
  : list string * option string :=
  match s with
  | EmptyString => (done, cur)
  | String c s' =>
      if is_ifs c then split_exp s' (push_field done cur) None
      else split_exp s' done (Some (default "" cur +:+ String c ""))
  end.

(** The fields of an expanded word.  No result where pathname expansion would
    have to run. *)
Fixpoint fields_from (ps : list piece) (done : list string) (cur : option string)
  : option (list string) :=
  match ps with
  | [] => Some (rev (push_field done cur))
  | Lit s :: ps' =>
      if has_char is_meta s then None
      else fields_from ps' done (Some (default "" cur +:+ s))
  | Quo s :: ps' => fields_from ps' done (Some (default "" cur +:+ s))
  | Exp s :: ps' =>
      if has_char is_glob s then None
      else let '(d, c) := split_exp s done cur in fields_from ps' d c
  end.

Definition fields (ps : list piece) : option (list string) :=
  fields_from ps [] None.

(** The text of an expanded word where no splitting takes place (the value of
    an assignment). *)
Definition piece_text (p : piece) : string :=
  match p with Lit s | Quo s | Exp s => s end.

Definition unsplit (ps : list piece) : string := concat (map piece_text ps).

(** [cut -c lo-hi]: the characters [lo] to [hi] of every line. *)
Definition cut_line (lo hi : nat) (l : string) : string :=
  String.substring (lo - 1) (hi - lo + 1) l.

Definition cut_chars (range stdin : string) : option string :=
  '(a, b) ← split_at "-"%char range;
  lo ← parse_nat a;
  hi ← parse_nat b;
  if (1 <=? lo)%nat && (lo <=? hi)%nat
  then Some (concat (map (fun l => cut_line lo hi l +:+ newline) (lines stdin)))
  else None.

(** A command after expansion.  [echo], [printf] and [cut] are interpreted
    (without their options); every other program is left to the world. *)
Definition run_program (w : World) (argv : list string) (stdin : string)
    (st : shell) : option (bool * string * shell) :=
  match argv with
  | [] => Some (true, "", st)
  | prog :: args =>
      if String.eqb prog "echo" then
        match args with
        | [] => Some (true, newline, st)
        | a :: _ =>
            if starts_with "-"%char a then None
            else Some (true, join " " args +:+ newline, st)
        end
      else if String.eqb prog "printf" then
        match args with
        | [fmt] =>
            if starts_with "-"%char fmt
               || has_char (fun c => Ascii.eqb c "%"%char || Ascii.eqb c backslash) fmt
            then None
            else Some (true, fmt, st)
        | _ => None
        end
      else if String.eqb prog "cut" then
        match args with
        | [opt; range] =>
            if String.eqb opt "-c" then
              out ← cut_chars range stdin; Some (true, out, st)
            else None
        | _ => None
        end
      else
        let '(ok, out) := program w (log st) argv stdin in
        Some (ok, out, emit (Spawn argv) st)
  end.

Section Commands.
Context {C : Type}.
Variable w : World.
Variable sub : C -> shell -> option (bool * string * shell).

Fixpoint argv_of (ws : list (word C)) (st : shell)
  : option (list string * shell) :=
  match ws with
  | [] => Some ([], st)
  | wd :: ws' =>
      '(pcs, _, st1) ← expand_word sub wd st;
      fs ← fields pcs;
      '(rest, st2) ← argv_of ws' st1;
      Some (fs ++ rest, st2)
  end.

(** Exit status, output and state after a command that reads [stdin].  The
    two sides of a pipe run in subshells, and the status of a pipe is that
    of its right side. *)
Fixpoint run_command (c : command C) (stdin : string) (st : shell)
  : option (bool * string * shell) :=
  match c with
  | Assign x wd =>
      '(pcs, s, st1) ← expand_word sub wd st;
      Some (default true s, "", setvar x (unsplit pcs) st1)
  | Exec ws None =>
      '(argv, st1) ← argv_of ws st;
      run_program w argv stdin st1
  | Exec ws (Some f) =>
      '(argv, st1) ← argv_of ws st;
      '(pcs, _, st2) ← expand_word sub f st1;
      fs ← fields pcs;
      match fs with
      | [name] =>
          '(ok, out, st3) ← run_program w argv stdin st2;
          Some (ok, "", write_file name out st3)
      | _ => None
      end
  | Pipe c1 c2 =>
      '(_, out1, st1) ← run_command c1 stdin st;
      '(ok, out2, st2) ← run_command c2 out1 (subshell st st1);
      Some (ok, out2, subshell st st2)
  end.
End Commands.

(** *** Words whose expansion is plain concatenation

    A word without substitutions, whose literal text holds no special
    character and whose variables hold neither blanks nor pattern characters,
    is called quiet. *)

Definition tame_value (s : string) : bool :=
  all_chars (fun c => negb (is_ifs c) && negb (is_glob c)) s.

Definition quiet_part {C} (vs : gmap string string) (p : part C) : bool :=
  match p with
  | Text s => negb (has_char is_meta s)
  | Var x | VarB x => tame_value (value vs x)
  | DQuote _ => true
  | VarDefault _ _ | Subst _ | Tick _ => false
  end.

Definition quiet_piece {C} (vs : gmap string string) (p : part C) : piece :=
  match p with
  | Text s => Lit s
  | Var x | VarB x => Exp (value vs x)
  | DQuote q => Quo (concat (map (expand_qpart vs) q))
  | VarDefault _ _ | Subst _ | Tick _ => Lit ""
  end.

(** Literal and quoted parts make a field even when they are empty. *)
Definition solid {C} (p : part C) : bool :=
  match p with
  | Text _ | DQuote _ => true
  | _ => false
  end.

Definition word_text {C} (vs : gmap string string) (w : word C) : string :=
  unsplit (map (quiet_piece vs) w).

Definition word_fields {C} (vs : gmap string string) (w : word C) : list string :=
  if negb (existsb solid w) && is_empty (word_text vs w) then []
  else [word_text vs w].

Definition quiet_words {C} (vs : gmap string string) (ws : list (word C)) : bool :=
  forallb (forallb (quiet_part vs)) ws.

(** The arguments [echo] prints as they are: the first is no option. *)
Definition echo_plain (args : list string) : bool :=
  match args with
  | [] => true
  | a :: _ => negb (starts_with "-"%char a)
  end.

Definition is_builtin (prog : string) : bool :=
  String.eqb prog "echo" || String.eqb prog "printf" || String.eqb prog "cut".

(** The world in which every program succeeds. *)
Definition obliging (w : World) : Prop :=
  forall l argv stdin, fst (program w l argv stdin) = true.

(** The world in which [date] prints no pattern character. *)
Definition dated (w : World) : Prop :=
  forall l stdin, has_char is_glob (snd (program w l ["date"] stdin)) = false.

Definition no_sub (e : Empty_set) (st : shell) : option (bool * string * shell) :=
  match e with end.

Definition run_inner (w : World) (c : inner) (st : shell)
  : option (bool * string * shell) :=
  run_command w no_sub c "" st.

Definition run_line (w : World) (c : line) (st : shell)
  : option (bool * string * shell) :=
  run_command w (run_inner w) c "" st.

(** A command of a phase: what it prints goes to the build log. *)
Definition run_top (w : World) (c : line) (st : shell) : option (bool * shell) :=
  '(ok, out, st') ← run_line w c st;
  Some (ok, if is_empty out then st' else emit (Stdout out) st').

(** The commands of a phase run in order, in one shell, up to the first one
    that fails. *)
Fixpoint run_commands (w : World) (cs : list line) (st : shell)
  : option (bool * shell) :=
  match cs with
  | [] => Some (true, st)
  | c :: cs' =>
      '(ok, st') ← run_top w c st;
      if (ok : bool) then run_commands w cs' st' else Some (false, st')
  end.

(** The programs a build started, oldest first. *)
Definition spawned (l : list event) : list (list string) :=
  omap (fun ev => match ev with Spawn argv => Some argv | Stdout _ => None end) l.

(** The image references a build pushed, oldest first. *)
Definition pushed (l : list event) : list string :=
  omap (fun argv => match argv with
                    | [prog; verb; ref] =>
                        if String.eqb prog "docker" && String.eqb verb "push"
                        then Some ref else None
                    | _ => None
                    end) (spawned l).

(** A state with given variables, files and started programs. *)
Definition at_state (vs fs : gmap string string) (sp : list (list string))
    (st : shell) : Prop :=
  vars st = vs /\ files st = fs /\ spawned (log st) = sp.

(** A command runs, ends in a state with [Q] when it succeeds, and succeeds
    when every program does. *)
Definition steps (w : World) (c : line) (st : shell) (Q : shell -> Prop) : Prop :=
  exists ok st',
    run_top w c st = Some (ok, st')
    /\ (ok = true -> Q st') /\ (obliging w -> ok = true).

(** The same for the commands of a phase. *)
Definition runs (w : World) (cs : list line) (st : shell) (Q : shell -> Prop) : Prop :=
  exists ok st',
    run_commands w cs st = Some (ok, st')
    /\ (ok = true -> Q st') /\ (obliging w -> ok = true).

End Sh.

(** ** The constructs of the CDK, as the data the stack hands to them *)

Module Cdk.

Module SecretValue.
Inductive t : Type :=
| secretsManager (secretId : string)     (* a secret of the secret store, by name or ARN *)
| ssmSecure (parameterName : string)     (* a secure parameter, by name *)
| unsafePlainText (secret : string).     (* the secret itself, in the template *)
End SecretValue.

Inductive BuildEnvironmentVariableType : Type :=
| PLAINTEXT | PARAMETER_STORE | SECRETS_MANAGER.

(** An environment variable of a build project; without a type it is plain
    text. *)
Module BuildEnvironmentVariable.
Record t : Type := { type : option BuildEnvironmentVariableType; value : string }.
End BuildEnvironmentVariable.

Inductive EventAction : Type :=
| PUSH | PULL_REQUEST_CREATED | PULL_REQUEST_UPDATED
| PULL_REQUEST_MERGED | PULL_REQUEST_REOPENED.

(** A webhook filter group: the events it is for, and the conditions that
    must all hold.  [andBranchIs] adds a condition on the head reference. *)
Module FilterGroup.
Inductive condition : Type :=
| HeadRefIs (ref : string)
| HeadRefIsNot (ref : string).
Record t : Type := { actions : list EventAction; filters : list condition }.
Definition inEventOf (a : EventAction) : t :=
  {| actions := [a]; filters := [] |}.
Definition andBranchIs (branchName : string) (g : t) : t :=
  {| actions := actions g;
     filters := filters g ++ [HeadRefIs ("refs/heads/" +:+ branchName)] |}.
End FilterGroup.

(** [Source.gitHub] *)
Module Source.
Record gitHub : Type := {
  owner : string;
  repo : string;
  webhook : bool;
  webhookFilters : list FilterGroup.t
}.
End Source.

Module GitHubSourceCredentials.
Record t : Type := { accessToken : SecretValue.t }.
End GitHubSourceCredentials.

Inductive LinuxBuildImage : Type :=
| STANDARD_5_0 | AMAZON_LINUX_2_3 | AMAZON_LINUX_2_ARM | AMAZON_LINUX_2_ARM_2.

Module PolicyStatement.
Record t : Type := { actions : list string; resources : list string }.
End PolicyStatement.

Module BuildSpec.
(** The object given to [BuildSpec.fromObject]; the phases are keyed by
    their names, and their commands are kept as syntax. *)
Record t : Type := {
  version : string;
  env_shell : string;
  phases : gmap string (list Sh.line);
  artifacts_files : list string
}.
End BuildSpec.

Record IRepository : Type := { repositoryUri : string }.
Record ContainerDefinition : Type := { containerName : string }.
Record IBaseService : Type := { serviceName : string }.
Record ICluster : Type := { clusterName : string }.

Module Project.
Record environment_t : Type := { buildImage : LinuxBuildImage; privileged : bool }.
(** A build project: what it is created with, the statements added to the
    policy of its role, and the repositories it was granted pull and push
    on. *)
Record t : Type := {
  projectName : string;
  buildSpec : BuildSpec.t;
  source : Source.gitHub;
  environment : environment_t;
  environmentVariables : gmap string BuildEnvironmentVariable.t;
  rolePolicy : list PolicyStatement.t;
  pullPush : list IRepository
}.
Definition addToRolePolicy (s : PolicyStatement.t) (p : t) : t :=
  {| projectName := projectName p; buildSpec := buildSpec p; source := source p;
     environment := environment p; environmentVariables := environmentVariables p;
     rolePolicy := rolePolicy p ++ [s]; pullPush := pullPush p |}.
Definition grantedPullPush (r : IRepository) (p : t) : t :=
  {| projectName := projectName p; buildSpec := buildSpec p; source := source p;
     environment := environment p; environmentVariables := environmentVariables p;
     rolePolicy := rolePolicy p; pullPush := pullPush p ++ [r] |}.
End Project.

Module Artifact.
Record t : Type := { artifactName : string }.
End Artifact.

Module ArtifactPath.
Record t : Type := { artifact : Artifact.t; fileName : string }.
End ArtifactPath.

Inductive GitHubTrigger : Type := NONE | POLL | WEBHOOK.

Module GitHubSourceAction.
Record t : Type := {
  actionName : string;
  owner : string;
  repo : string;
  branch : string;
  oauthToken : SecretValue.t;
  output : Artifact.t;
  trigger : GitHubTrigger
}.
End GitHubSourceAction.

(** A build action refers to its project, a construct of the stack, by the id
    the stack holds it under. *)
Module CodeBuildAction.
Record t : Type := {
  actionName : string;
  project : string;
  input : Artifact.t;
  outputs : list Artifact.t
}.
End CodeBuildAction.

Module EcsDeployAction.
Record t : Type := {
  actionName : string;
  service : IBaseService;
  imageFile : ArtifactPath.t
}.
End EcsDeployAction.

Inductive Action : Type :=
| SourceAction (a : GitHubSourceAction.t)
| BuildAction (a : CodeBuildAction.t)
| DeployAction (a : EcsDeployAction.t).

Module Stage.
Record t : Type := { stageName : string; actions : list Action }.
End Stage.

Module Pipeline.
Record t : Type := { pipelineName : string; stages : list Stage.t }.
End Pipeline.

Inductive Construct : Type :=
| Credentials (c : GitHubSourceCredentials.t)
| BuildProject (p : Project.t)
| DeployPipeline (p : Pipeline.t).

Module Environment.
Record t : Type := { account : option string; region : option string }.
End Environment.

(** A stack of the app: the environment it was created for and the constructs
    created in it, by id. *)
Module Stack.
Record t : Type := {
  env : option Environment.t;
  children : gmap string Construct
}.
End Stack.

(** What [stack.account] and [stack.region] stand for in a stack without an
    environment. *)
Definition Aws_ACCOUNT_ID : string := "${AWS::AccountId}".
Definition Aws_REGION : string := "${AWS::Region}".

End Cdk.

(** ** The state of the program *)

Module Js.
Import Cdk.

(** The questions [start] puts to the host (through [@exanubes/cdk-utils]). *)
Inductive Query : Type :=
| resolveCurrentUserOwnerName | getAccountId | getRegion.

Definition Query_eqb (a b : Query) : bool :=
  match a, b with
  | resolveCurrentUserOwnerName, resolveCurrentUserOwnerName => true
  | getAccountId, getAccountId => true
  | getRegion, getRegion => true
  | _, _ => false
  end.

(** The host: the answer to the [n]-th asking of a question, if it answers. *)
Definition Host : Type := Query -> nat -> option string.

Module SecretConfig.
Record t : Type := { arn : string; id : string }.
End SecretConfig.

Module GithubConfig.
Record t : Type := { owner : string; repo : string; branch : string }.
End GithubConfig.

(** The memory of the program: the questions asked so far, the two objects
    bound at the top of [pipeline.stack.ts], and the app with its tags and
    stacks. *)
Record Mem : Type := {
  asked : list Query;
  secretConfig_obj : SecretConfig.t;
  githubConfig_obj : GithubConfig.t;
  tags : gmap string string;
  app : gmap string Stack.t
}.

(** A computation reads and writes the memory and may throw. *)
Definition Prog (A : Type) : Type := Mem -> option A * Mem.

Definition pure {A} (a : A) : Prog A := fun m => (Some a, m).

Definition bind {A B} (c : Prog A) (k : A -> Prog B) : Prog B :=
  fun m =>
    match c m with
    | (Some a, m') => k a m'
    | (None, m') => (None, m')
    end.

Definition throw {A} : Prog A := fun m => (None, m).

Definition read {A} (f : Mem -> A) : Prog A := fun m => (Some (f m), m).

Definition count_asked (q : Query) (m : Mem) : nat :=
  length (filter (fun q' => Query_eqb q q' = true) (asked m)).

(** Asking the host: the question is recorded, and no answer throws. *)
Definition ask (h : Host) (q : Query) : Prog string :=
  fun m =>
    (h q (count_asked q m),
     {| asked := asked m ++ [q];
        secretConfig_obj := secretConfig_obj m;
        githubConfig_obj := githubConfig_obj m;
        tags := tags m; app := app m |}).

Definition with_app (f : gmap string Stack.t -> gmap string Stack.t) : Prog unit :=
  fun m =>
    (Some tt,
     {| asked := asked m;
        secretConfig_obj := secretConfig_obj m;
        githubConfig_obj := githubConfig_obj m;
        tags := tags m; app := f (app m) |}).

(** [Tags.of(app).add(key, value)] *)
Definition add_tag (key val : string) : Prog unit :=
  fun m =>
    (Some tt,
     {| asked := asked m;
        secretConfig_obj := secretConfig_obj m;
        githubConfig_obj := githubConfig_obj m;
        tags := <[key := val]> (tags m); app := app m |}).

(** [super(scope, id, props)]: the stack enters the app.  The checks that
    [super] makes on the id (that it is free in the scope and well formed)
    are left out: the program creates every stack under a fixed id of its
    own.  Nothing said of a call that returns depends on them. *)
Definition new_stack (id : string) (env : option Environment.t) : Prog unit :=
  with_app (fun a => <[id := {| Stack.env := env; Stack.children := ∅ |}]> a).

(** [new C(this, id, ...)]: the construct enters the stack. *)
Definition new_child (stack id : string) (c : Construct) : Prog unit :=
  with_app (alter (fun s => {| Stack.env := Stack.env s;
                               Stack.children := <[id := c]> (Stack.children s) |}) stack).

(** A call of a method that changes a project held by the stack. *)
Definition on_project (stack id : string) (f : Project.t -> Project.t) : Prog unit :=
  with_app (alter (fun s =>
    {| Stack.env := Stack.env s;
       Stack.children :=
         alter (fun c => match c with
                         | BuildProject p => BuildProject (f p)
                         | _ => c
                         end) id (Stack.children s) |}) stack).

Definition stack_env (stack : string) (m : Mem) : option Environment.t :=
  s ← app m !! stack; Stack.env s.

(** [Stack.of(this).account] and [.region] *)
Definition stack_account (stack : string) : Prog string :=
  read (fun m => default Aws_ACCOUNT_ID (stack_env stack m ≫= Environment.account)).

Definition stack_region (stack : string) : Prog string :=
  read (fun m => default Aws_REGION (stack_env stack m ≫= Environment.region)).

End Js.

#[global] Instance Prog_ret : MRet Js.Prog := @Js.pure.
#[global] Instance Prog_bind : MBind Js.Prog := fun A B k c => Js.bind c k.

(** ** lib/pipeline.stack.ts *)

Module pipeline_stack.
Import Chars Sh Cdk Js.

Record Props : Type := {
  env : option Environment.t;
  repository : IRepository;
  service : IBaseService;
  cluster : ICluster;
  container : ContainerDefinition
}.

Definition secretConfig : SecretConfig.t :=
  {| SecretConfig.arn := "arn:aws:secretsmanager:eu-central-1:123456789012:secret:github/token";
     SecretConfig.id := "github/token" |}.

Definition githubConfig : GithubConfig.t :=
  {| GithubConfig.owner := "exanubes";
     GithubConfig.repo := "ecs-fargate-ci-cd-pipeline";
     GithubConfig.branch := "master" |}.

(** The two objects as they stand when the module has been loaded. *)
Definition loaded : Mem :=
  {| asked := []; secretConfig_obj := secretConfig; githubConfig_obj := githubConfig;
     tags := ∅; app := ∅ |}.

(** A word that is one piece of literal text. *)
Definition lit {C} (s : string) : word C := [Text s].

(** A command made of literal words only. *)
Definition plain_cmd {C} (ws : list string) : command C := Exec (map lit ws) None.

Definition pre_build_commands : list line :=
  [ plain_cmd ["echo"; "logging"; "in"; "to"; "AWS"; "ECR"];
    plain_cmd ["aws"; "--version"];
    Exec [lit "echo"; [Var "AWS_STACK_REGION"]] None;
    Exec [lit "echo"; [Var "CONTAINER_NAME"]] None;
    Pipe
      (Exec [lit "aws"; lit "ecr"; lit "get-login-password"; lit "--region";
             [VarB "AWS_STACK_REGION"]] None)
      (Exec [lit "docker"; lit "login"; lit "--username"; lit "AWS";
             lit "--password-stdin";
             [VarB "AWS_ACCOUNT_ID"; Text ".dkr.ecr."; VarB "AWS_STACK_REGION";
              Text ".amazonaws.com"]] None);
    Assign "COMMIT_HASH"
      [Subst (Pipe (Exec [lit "echo"; [Var "CODEBUILD_RESOLVED_SOURCE_VERSION"]] None)
                   (plain_cmd ["cut"; "-c"; "1-7"]))];
    Exec [lit "echo"; [Var "COMMIT_HASH"]] None;
    Assign "IMAGE_TAG" [VarDefault "COMMIT_HASH" "latest"];
    Exec [lit "echo"; [Var "IMAGE_TAG"]] None ].

Definition build_commands : list line :=
  [ Exec [lit "echo"; lit "Build"; lit "started"; lit "on";
          [Tick (plain_cmd ["date"])]] None;
    plain_cmd ["echo"; "Build"; "Docker"; "image"];
    Exec [lit "docker"; lit "build"; lit "-f";
          [VarB "CODEBUILD_SRC_DIR"; Text "/backend/Dockerfile"];
          lit "-t"; [VarB "REPOSITORY_URI"; Text ":latest"]; lit "./backend"] None;
    Exec [lit "echo"; lit "Running";
          [DQuote [QText "docker tag "; QVarB "REPOSITORY_URI"; QText ":latest ";
                   QVarB "REPOSITORY_URI"; QText ":"; QVarB "IMAGE_TAG"]]] None;
    Exec [lit "docker"; lit "tag"; [VarB "REPOSITORY_URI"; Text ":latest"];
          [VarB "REPOSITORY_URI"; Text ":"; VarB "IMAGE_TAG"]] None ].

Definition post_build_commands : list line :=
  [ Exec [lit "echo"; lit "Build"; lit "completed"; lit "on";
          [Tick (plain_cmd ["date"])]] None;
    plain_cmd ["echo"; "Push"; "Docker"; "image"];
    Exec [lit "docker"; lit "push"; [VarB "REPOSITORY_URI"; Text ":latest"]] None;
    Exec [lit "docker"; lit "push";
          [VarB "REPOSITORY_URI"; Text ":"; VarB "IMAGE_TAG"]] None;
    Exec [lit "printf";
          [DQuote [QText "[{"; QEsc dquote; QText "name"; QEsc dquote; QText ": ";
                   QEsc dquote; QVar "CONTAINER_NAME"; QEsc dquote; QText ", ";
                   QEsc dquote; QText "imageUri"; QEsc dquote; QText ": ";
                   QEsc dquote; QVar "REPOSITORY_URI"; QText ":"; QVar "IMAGE_TAG";
                   QEsc dquote; QText "}]"]]]
         (Some (lit "docker_image_definition.json")) ].

Definition getBuildSpec : BuildSpec.t :=
  {| BuildSpec.version := "0.2";
     BuildSpec.env_shell := "bash";
     BuildSpec.phases :=
       list_to_map [("pre_build", pre_build_commands);
                    ("build", build_commands);
                    ("post_build", post_build_commands)];
     BuildSpec.artifacts_files := ["docker_image_definition.json"] |}.

(** The command strings of [getBuildSpec] as the source file writes them. *)
Definition pre_build_text : list string :=
  [ "echo logging in to AWS ECR";
    "aws --version";
    "echo $AWS_STACK_REGION";
    "echo $CONTAINER_NAME";
    "aws ecr get-login-password --region ${AWS_STACK_REGION} | docker login --username AWS --password-stdin ${AWS_ACCOUNT_ID}.dkr.ecr.${AWS_STACK_REGION}.amazonaws.com";
    "COMMIT_HASH=$(echo $CODEBUILD_RESOLVED_SOURCE_VERSION | cut -c 1-7)";
    "echo $COMMIT_HASH";
    "IMAGE_TAG=${COMMIT_HASH:=latest}";
    "echo $IMAGE_TAG" ].

Definition build_text : list string :=
  [ "echo Build started on `date`";
    "echo Build Docker image";
    "docker build -f ${CODEBUILD_SRC_DIR}/backend/Dockerfile -t ${REPOSITORY_URI}:latest ./backend";
    "echo Running " +:+ dq +:+
      "docker tag ${REPOSITORY_URI}:latest ${REPOSITORY_URI}:${IMAGE_TAG}" +:+ dq;
    "docker tag ${REPOSITORY_URI}:latest ${REPOSITORY_URI}:${IMAGE_TAG}" ].

Definition post_build_text : list string :=
  [ "echo Build completed on `date`";
    "echo Push Docker image";
    "docker push ${REPOSITORY_URI}:latest";
    "docker push ${REPOSITORY_URI}:${IMAGE_TAG}";
    "printf " +:+ dq +:+ "[{" +:+ esc_dq +:+ "name" +:+ esc_dq +:+ ": " +:+ esc_dq
      +:+ "$CONTAINER_NAME" +:+ esc_dq +:+ ", " +:+ esc_dq +:+ "imageUri" +:+ esc_dq
      +:+ ": " +:+ esc_dq +:+ "$REPOSITORY_URI:$IMAGE_TAG" +:+ esc_dq +:+ "}]" +:+ dq
      +:+ " > docker_image_definition.json" ].

Definition artifacts_source : Artifact.t := {| Artifact.artifactName := "Source" |}.
Definition artifacts_build : Artifact.t := {| Artifact.artifactName := "BuildOutput" |}.

Definition credentials (sc : SecretConfig.t) : GitHubSourceCredentials.t :=
  {| GitHubSourceCredentials.accessToken :=
       SecretValue.secretsManager (SecretConfig.id sc) |}.

Definition source (gh : GithubConfig.t) : Source.gitHub :=
  {| Source.owner := GithubConfig.owner gh;
     Source.repo := GithubConfig.repo gh;
     Source.webhook := true;
     Source.webhookFilters :=
       [FilterGroup.andBranchIs (GithubConfig.branch gh) (FilterGroup.inEventOf PUSH)] |}.

(** The project as [new Project] is called; [account] and [region] are those
    of the stack. *)
Definition project (props : Props) (account region : string)
    (sc : SecretConfig.t) (gh : GithubConfig.t) : Project.t :=
  {| Project.projectName := "pipeline-project";
     Project.buildSpec := getBuildSpec;
     Project.source := source gh;
     Project.environment :=
       {| Project.buildImage := AMAZON_LINUX_2_ARM_2; Project.privileged := true |};
     Project.environmentVariables :=
       list_to_map
         [("REPOSITORY_URI",
           {| BuildEnvironmentVariable.type := None;
              BuildEnvironmentVariable.value := repositoryUri (repository props) |});
          ("AWS_ACCOUNT_ID",
           {| BuildEnvironmentVariable.type := None;
              BuildEnvironmentVariable.value := account |});
          ("AWS_STACK_REGION",
           {| BuildEnvironmentVariable.type := None;
              BuildEnvironmentVariable.value := region |});
          ("GITHUB_AUTH_TOKEN",
           {| BuildEnvironmentVariable.type := Some SECRETS_MANAGER;
              BuildEnvironmentVariable.value := SecretConfig.arn sc |});
          ("CONTAINER_NAME",
           {| BuildEnvironmentVariable.type := None;
              BuildEnvironmentVariable.value := containerName (container props) |})];
     Project.rolePolicy := [];
     Project.pullPush := [] |}.

Definition policy (sc : SecretConfig.t) : PolicyStatement.t :=
  {| PolicyStatement.actions := ["secretsmanager:GetSecretValue"];
     PolicyStatement.resources := [SecretConfig.arn sc] |}.

Definition pipelineActions_source (gh : GithubConfig.t) : GitHubSourceAction.t :=
  {| GitHubSourceAction.actionName := "Github";
     GitHubSourceAction.owner := GithubConfig.owner gh;
     GitHubSourceAction.repo := GithubConfig.repo gh;
     GitHubSourceAction.branch := GithubConfig.branch gh;
     GitHubSourceAction.oauthToken := SecretValue.secretsManager "github/cdk-pipeline";
     GitHubSourceAction.output := artifacts_source;
     GitHubSourceAction.trigger := WEBHOOK |}.

Definition pipelineActions_build : CodeBuildAction.t :=
  {| CodeBuildAction.actionName := "CodeBuild";
     CodeBuildAction.project := "project";
     CodeBuildAction.input := artifacts_source;
     CodeBuildAction.outputs := [artifacts_build] |}.

Definition pipelineActions_deploy (props : Props) : EcsDeployAction.t :=
  {| EcsDeployAction.actionName := "ECSDeploy";
     EcsDeployAction.service := service props;
     EcsDeployAction.imageFile :=
       {| ArtifactPath.artifact := artifacts_build;
          ArtifactPath.fileName := "docker_image_definition.json" |} |}.

Definition pipeline (props : Props) (gh : GithubConfig.t) : Pipeline.t :=
  {| Pipeline.pipelineName := "exanubes-pipeline";
     Pipeline.stages :=
       [ {| Stage.stageName := "Source";
            Stage.actions := [SourceAction (pipelineActions_source gh)] |};
         {| Stage.stageName := "Build";
            Stage.actions := [BuildAction pipelineActions_build] |};
         {| Stage.stageName := "Deploy";
            Stage.actions := [DeployAction (pipelineActions_deploy props)] |} ] |}.

(** The constructor of [PipelineStack]; [id] is the id of the stack, which is
    [this] in the source.  Every use of [secretConfig] and [githubConfig]
    reads the object in the memory. *)
Definition PipelineStack (id : string) (props : Props) : Prog unit :=
  new_stack id (env props);;
  c ← read (fun m => credentials (secretConfig_obj m));
  new_child id "code-build-credentials" (Credentials c);;
  account ← stack_account id;
  region ← stack_region id;
  p ← read (fun m => project props account region (secretConfig_obj m) (githubConfig_obj m));
  new_child id "project" (BuildProject p);;
  s ← read (fun m => policy (secretConfig_obj m));
  on_project id "project" (Project.addToRolePolicy s);;
  on_project id "project" (Project.grantedPullPush (repository props));;
  pl ← read (fun m => pipeline props (githubConfig_obj m));
  new_child id "DeployPipeline" (DeployPipeline pl).

(** What the constructor has made when it returns: the project with the
    statement and the grant added, and the stack with its three constructs. *)
Definition account_of (props : Props) : string :=
  default Aws_ACCOUNT_ID (env props ≫= Environment.account).

Definition region_of (props : Props) : string :=
  default Aws_REGION (env props ≫= Environment.region).

Definition built_project (props : Props) (sc : SecretConfig.t) (gh : GithubConfig.t)
  : Project.t :=
  Project.grantedPullPush (repository props)
    (Project.addToRolePolicy (policy sc)
       (project props (account_of props) (region_of props) sc gh)).

Definition built (props : Props) (sc : SecretConfig.t) (gh : GithubConfig.t)
  : Stack.t :=
  {| Stack.env := env props;
     Stack.children :=
       <["DeployPipeline" := DeployPipeline (pipeline props gh)]>
         (<["project" := BuildProject (built_project props sc gh)]>
            (<["code-build-credentials" := Credentials (credentials sc)]> ∅)) |}.

(** The stack that the constructor leaves in the app of a program that has
    just loaded the module. *)
Definition constructed (props : Props) : option Stack.t :=
  app (snd (PipelineStack "PipelineStack" props loaded)) !! "PipelineStack".

Definition project_of (s : Stack.t) : option Project.t :=
  match Stack.children s !! "project" with
  | Some (BuildProject p) => Some p
  | _ => None
  end.

Definition pipeline_of (s : Stack.t) : option Pipeline.t :=
  match Stack.children s !! "DeployPipeline" with
  | Some (DeployPipeline p) => Some p
  | _ => None
  end.

Definition credentials_of (s : Stack.t) : option GitHubSourceCredentials.t :=
  match Stack.children s !! "code-build-credentials" with
  | Some (Credentials c) => Some c
  | _ => None
  end.

(** The variables a build of the project reads are set to plain words, and
    the revision is a plain word or empty. *)
Definition set_plain (vs : gmap string string) (x : string) : bool :=
  plain (value vs x) && negb (is_empty (value vs x)).

Definition ready (vs : gmap string string) : bool :=
  set_plain vs "REPOSITORY_URI" && set_plain vs "AWS_ACCOUNT_ID"
  && set_plain vs "AWS_STACK_REGION" && set_plain vs "CONTAINER_NAME"
  && set_plain vs "CODEBUILD_SRC_DIR"
  && plain (value vs "CODEBUILD_RESOLVED_SOURCE_VERSION").

(** The tag of a revision: its first seven characters, and [latest] for none. *)
Definition revision_tag (rev : string) : string :=
  if is_empty rev then "latest" else String.substring 0 7 rev.

(** The variables after [pre_build]. *)
Definition tagged (vs : gmap string string) : gmap string string :=
  let t := revision_tag (value vs "CODEBUILD_RESOLVED_SOURCE_VERSION") in
  <["IMAGE_TAG" := t]> (<["COMMIT_HASH" := t]> vs).

(** The programs the three phases start. *)
Definition pre_build_programs (vs : gmap string string) : list (list string) :=
  [ ["aws"; "--version"];
    ["aws"; "ecr"; "get-login-password"; "--region"; value vs "AWS_STACK_REGION"];
    ["docker"; "login"; "--username"; "AWS"; "--password-stdin";
     value vs "AWS_ACCOUNT_ID" +:+ ".dkr.ecr." +:+ value vs "AWS_STACK_REGION"
     +:+ ".amazonaws.com"] ].

Definition build_programs (vs : gmap string string) : list (list string) :=
  [ ["date"];
    ["docker"; "build"; "-f"; value vs "CODEBUILD_SRC_DIR" +:+ "/backend/Dockerfile";
     "-t"; value vs "REPOSITORY_URI" +:+ ":latest"; "./backend"];
    ["docker"; "tag"; value vs "REPOSITORY_URI" +:+ ":latest";
     value vs "REPOSITORY_URI" +:+ ":" +:+ value vs "IMAGE_TAG"] ].

Definition post_build_programs (vs : gmap string string) : list (list string) :=
  [ ["date"];
    ["docker"; "push"; value vs "REPOSITORY_URI" +:+ ":latest"];
    ["docker"; "push"; value vs "REPOSITORY_URI" +:+ ":" +:+ value vs "IMAGE_TAG"] ].

(** The text [post_build] writes. *)
Definition image_definition_text (vs : gmap string string) : string :=
  "[{" +:+ dq +:+ "name" +:+ dq +:+ ": " +:+ dq +:+ value vs "CONTAINER_NAME" +:+ dq
  +:+ ", " +:+ dq +:+ "imageUri" +:+ dq +:+ ": " +:+ dq
  +:+ value vs "REPOSITORY_URI" +:+ ":" +:+ value vs "IMAGE_TAG" +:+ dq +:+ "}]".

End pipeline_stack.

(** ** bin/infrastructure.ts *)

Module infrastructure.
Import Cdk Js.

Record IVpc : Type := { vpcId : string }.
Record ILoadBalancer : Type := { loadBalancerName : string }.

(** What the container stack makes available to the other stacks. *)
Record EcsOutputs : Type := {
  loadBalancer : ILoadBalancer;
  service : IBaseService;
  cluster : ICluster;
  container : ContainerDefinition
}.

Section Start.
(** The stacks of [lib/ecr.stack], [lib/vpc.stack], [lib/elastic-container.stack]
    and [lib/route53.stack] are given by what they make of their props: the
    repository, the network, and the outputs of the container stack.  The
    fields of an environment are read-only, so a stack reads it and no more.
    Each of them enters the app under its id; the constructs it creates are
    left out. *)
Variable ecr_repository : Environment.t -> IRepository.
Variable vpc_vpc : Environment.t -> IVpc.
Variable ecs_outputs : IVpc -> IRepository -> Environment.t -> EcsOutputs.

Variable host : Host.

Definition EcrStack (id : string) (env : Environment.t) : Prog IRepository :=
  new_stack id (Some env);; mret (ecr_repository env).

Definition VpcStack (id : string) (env : Environment.t) : Prog IVpc :=
  new_stack id (Some env);; mret (vpc_vpc env).

Definition ElasticContainerStack (id : string) (vpc : IVpc)
    (repository : IRepository) (env : Environment.t) : Prog EcsOutputs :=
  new_stack id (Some env);; mret (ecs_outputs vpc repository env).

Definition Route53Stack (id : string) (lb : ILoadBalancer)
    (env : Environment.t) : Prog unit :=
  new_stack id (Some env).

Definition start : Prog unit :=
  owner ← ask host resolveCurrentUserOwnerName;
  account ← ask host getAccountId;
  region ← ask host getRegion;
  let env := {| Environment.account := Some account;
                Environment.region := Some region |} in
  with_app (fun _ => ∅);;
  ecr ← EcrStack "EcrStack" env;
  vpc ← VpcStack "VpcStack" env;
  ecs ← ElasticContainerStack "ElasticContainerStack" vpc ecr env;
  Route53Stack "Route53Stack" (loadBalancer ecs) env;;
  pipeline_stack.PipelineStack "PipelineStack"
    {| pipeline_stack.env := Some env;
       pipeline_stack.repository := ecr;
       pipeline_stack.service := service ecs;
       pipeline_stack.cluster := cluster ecs;
       pipeline_stack.container := container ecs |};;
  add_tag "owner" owner.

(** The program: [start], and [process.exit(1)] in the handler of [catch]
    when it throws.  When [start] returns the file ends the process nowhere:
    the exit status is then set by what runs afterwards, such as the
    synthesis of the app at exit, and is not given here. *)
Definition main (m : Mem) : option nat * Mem :=
  match start m with
  | (Some _, m') => (None, m')
  | (None, m') => (Some 1, m')
  end.
End Start.

End infrastructure.

(** ** The image definitions handed to the deploy step *)

Module ImageDefinition.
Import Chars.

Record t : Type := { name : string; imageUri : string }.

(** The JSON text of a list of image definitions, a backslash before every
    double quote and backslash of a string. *)
Fixpoint escape (s : string) : string :=
  match s with
  | EmptyString => EmptyString
  | String c s' =>
      if Ascii.eqb c dquote || Ascii.eqb c backslash
      then String backslash (String c (escape s'))
      else String c (escape s')
  end.

Definition json_string (s : string) : string := dq +:+ escape s +:+ dq.

Definition json_object (d : t) : string :=
  "{" +:+ json_string "name" +:+ ": " +:+ json_string (name d) +:+ ", "
  +:+ json_string "imageUri" +:+ ": " +:+ json_string (imageUri d) +:+ "}".

Definition json (l : list t) : string :=
  "[" +:+ join ", " (map json_object l) +:+ "]".

End ImageDefinition.

(** ** A run of the pipeline *)

Module Run.
Import Chars Sh Cdk.

(** A push event delivered by the webhook of the source repository. *)
Record PushEvent : Type := { branch : string; revisionId : string }.

(** The steps of a run. *)
Inductive Step : Type := Fetch | Build | Push | Deploy.

Inductive Mark : Type :=
| Started (s : Step)
| Finished (s : Step) (ok : bool).

(** What an artifact holds: the source at a revision (if resolved), or the
    files a build uploaded. *)
Inductive Content : Type :=
| Snapshot (revision : option string)
| Files (fs : gmap string string).

(** The services a run relies on: the programs of the build container, the
    retrieval of the source, the secret and parameter stores, the directory
    the build starts in, and the rollout of a service. *)
Record Services : Type := {
  world : World;
  fetch : PushEvent -> option (option string);
  secret : string -> string;
  parameter : string -> string;
  src_dir : string;
  rollout : IBaseService -> string -> bool
}.

Record RunState : Type := {
  marks : list Mark;
  store : gmap string Content;
  build_shell : option shell;
  handed : option (IBaseService * string)
}.

Definition mark (k : Mark) (r : RunState) : RunState :=
  {| marks := marks r ++ [k]; store := store r;
     build_shell := build_shell r; handed := handed r |}.

Definition put (a : Artifact.t) (c : Content) (r : RunState) : RunState :=
  {| marks := marks r; store := <[Artifact.artifactName a := c]> (store r);
     build_shell := build_shell r; handed := handed r |}.

Definition keep_shell (st : shell) (r : RunState) : RunState :=
  {| marks := marks r; store := store r;
     build_shell := Some st; handed := handed r |}.

Definition hand (s : IBaseService) (text : string) (r : RunState) : RunState :=
  {| marks := marks r; store := store r;
     build_shell := build_shell r; handed := Some (s, text) |}.

(** Modelled from the spec: the matching of push events, which the source
    leaves to the webhook of the pipeline service; only events matching the
    configured branch trigger a run. *)
Definition source_triggers (a : GitHubSourceAction.t) (e : PushEvent) : bool :=
  match GitHubSourceAction.trigger a with
  | WEBHOOK => String.eqb (branch e) (GitHubSourceAction.branch a)
  | _ => false
  end.

Definition first_actions (p : Pipeline.t) : list Action :=
  match Pipeline.stages p with
  | s :: _ => Stage.actions s
  | [] => []
  end.

(** Modelled from the spec: a push event starts a run when a source action of
    the first stage is triggered by it. *)
Definition triggered (p : Pipeline.t) (e : PushEvent) : bool :=
  existsb (fun a => match a with
                    | SourceAction s => source_triggers s e
                    | _ => false
                    end) (first_actions p).

Definition EventAction_eqb (a b : EventAction) : bool :=
  match a, b with
  | PUSH, PUSH | PULL_REQUEST_CREATED, PULL_REQUEST_CREATED
  | PULL_REQUEST_UPDATED, PULL_REQUEST_UPDATED
  | PULL_REQUEST_MERGED, PULL_REQUEST_MERGED
  | PULL_REQUEST_REOPENED, PULL_REQUEST_REOPENED => true
  | _, _ => false
  end.

(** Modelled from the spec: the matching of a filter group of the project's
    own webhook against an event on a head reference. *)
Definition group_matches (g : FilterGroup.t) (a : EventAction) (ref : string) : bool :=
  existsb (EventAction_eqb a) (FilterGroup.actions g)
  && forallb (fun c => match c with
                       | FilterGroup.HeadRefIs r => String.eqb ref r
                       | FilterGroup.HeadRefIsNot r => negb (String.eqb ref r)
                       end) (FilterGroup.filters g).

(** Modelled from the spec: the webhook of a project's source lets a push
    event through when some filter group matches it, or when there is none. *)
Definition webhook_builds (s : Source.gitHub) (e : PushEvent) : bool :=
  Source.webhook s
  && match Source.webhookFilters s with
     | [] => true
     | gs => existsb (fun g => group_matches g PUSH ("refs/heads/" +:+ branch e)) gs
     end.

(** The variables a build starts with: those declared for the project, the
    secret ones resolved, and those of the build service. *)
Definition resolve (sv : Services) (v : BuildEnvironmentVariable.t) : string :=
  match BuildEnvironmentVariable.type v with
  | Some SECRETS_MANAGER => secret sv (BuildEnvironmentVariable.value v)
  | Some PARAMETER_STORE => parameter sv (BuildEnvironmentVariable.value v)
  | Some PLAINTEXT | None => BuildEnvironmentVariable.value v
  end.

Definition build_vars (sv : Services) (p : Project.t) (rev : option string)
  : gmap string string :=
  let own : gmap string string :=
    <["CODEBUILD_SRC_DIR" := src_dir sv]>
      (match rev with
       | Some r => {["CODEBUILD_RESOLVED_SOURCE_VERSION" := r]}
       | None => ∅
       end) in
  own ∪ (resolve sv <$> Project.environmentVariables p).

Definition run_phase (w : World) (spec : BuildSpec.t) (phase : string) (st : shell)
  : option (bool * shell) :=
  match BuildSpec.phases spec !! phase with
  | Some cs => run_commands w cs st
  | None => Some (true, st)
  end.

(** The declared artifact files, if the build left all of them. *)
Fixpoint collect (names : list string) (fs : gmap string string)
  : option (gmap string string) :=
  match names with
  | [] => Some ∅
  | n :: names' =>
      c ← fs !! n;
      rest ← collect names' fs;
      Some (<[n := c]> rest)
  end.

(** Modelled from the spec: the phases of a build, which the source leaves to
    the build service, run in order, each only after the one before
    succeeded. *)
Fixpoint run_phases (w : World) (spec : BuildSpec.t) (names : list string)
    (st : shell) : option (bool * shell) :=
  match names with
  | [] => Some (true, st)
  | n :: names' =>
      '(ok, st') ← run_phase w spec n st;
      if (ok : bool) then run_phases w spec names' st' else Some (false, st')
  end.

(** Modelled from the spec: the execution of a build action, which the source
    leaves to the build service.  The image is built in the phases up to
    [build] and pushed in [post_build]; the push starts only after the build
    succeeded, and the declared files are uploaded after the push. *)
Definition run_build (sv : Services) (p : Project.t) (a : CodeBuildAction.t)
    (rev : option string) (r : RunState) : option (bool * RunState) :=
  let spec := Project.buildSpec p in
  let st0 := {| vars := build_vars sv p rev; files := ∅; log := [] |} in
  let r := mark (Started Build) r in
  '(ok, st1) ← run_phases (world sv) spec ["install"; "pre_build"; "build"] st0;
  if (ok : bool) then
    let r := mark (Started Push) (mark (Finished Build true) r) in
    '(ok', st2) ← run_phases (world sv) spec ["post_build"] st1;
    let r := keep_shell st2 r in
    if (ok' : bool) then
      match collect (BuildSpec.artifacts_files spec) (files st2) with
      | Some fs =>
          Some (true, mark (Finished Push true)
                        (foldr (fun o => put o (Files fs)) r (CodeBuildAction.outputs a)))
      | None => Some (false, mark (Finished Push false) r)
      end
    else Some (false, mark (Finished Push false) r)
  else Some (false, mark (Finished Build false) (keep_shell st1 r)).

(** Modelled from the spec: the execution of the actions of a pipeline, which
    the source leaves to the pipeline service.  A source action retrieves the
    source, a build action runs the project on the source it is given, and a
    deploy action hands the image file of its artifact to the rollout. *)
Definition run_action (stack : Stack.t) (sv : Services) (e : PushEvent)
    (a : Action) (r : RunState) : option (bool * RunState) :=
  match a with
  | SourceAction s =>
      let r := mark (Started Fetch) r in
      match fetch sv e with
      | Some rev =>
          Some (true, mark (Finished Fetch true)
                        (put (GitHubSourceAction.output s) (Snapshot rev) r))
      | None => Some (false, mark (Finished Fetch false) r)
      end
  | BuildAction b =>
      match store r !! Artifact.artifactName (CodeBuildAction.input b),
            Stack.children stack !! CodeBuildAction.project b with
      | Some (Snapshot rev), Some (BuildProject p) => run_build sv p b rev r
      | _, _ => Some (false, mark (Finished Build false) (mark (Started Build) r))
      end
  | DeployAction d =>
      let r := mark (Started Deploy) r in
      let file := EcsDeployAction.imageFile d in
      match store r !! Artifact.artifactName (ArtifactPath.artifact file) with
      | Some (Files fs) =>
          match fs !! ArtifactPath.fileName file with
          | Some text =>
              let ok := rollout sv (EcsDeployAction.service d) text in
              Some (ok, mark (Finished Deploy ok)
                          (hand (EcsDeployAction.service d) text r))
          | None => Some (false, mark (Finished Deploy false) r)
          end
      | _ => Some (false, mark (Finished Deploy false) r)
      end
  end.

(** Modelled from the spec: the sequencing of actions and stages, each gated
    on the success of the one before; a failure halts the run. *)
Fixpoint run_actions (stack : Stack.t) (sv : Services) (e : PushEvent)
    (acts : list Action) (r : RunState) : option (bool * RunState) :=
  match acts with
  | [] => Some (true, r)
  | a :: acts' =>
      '(ok, r') ← run_action stack sv e a r;
      if (ok : bool) then run_actions stack sv e acts' r' else Some (false, r')
  end.

(** Modelled from the spec: the stages of a pipeline run in the order they
    are declared in, a stage only after the one before succeeded. *)
Fixpoint run_stages (stack : Stack.t) (sv : Services) (e : PushEvent)
    (stages : list Stage.t) (r : RunState) : option (bool * RunState) :=
  match stages with
  | [] => Some (true, r)
  | s :: stages' =>
      '(ok, r') ← run_actions stack sv e (Stage.actions s) r;
      if (ok : bool) then run_stages stack sv e stages' r' else Some (false, r')
  end.

Definition fresh : RunState :=
  {| marks := []; store := ∅; build_shell := None; handed := None |}.

(** Modelled from the spec: the run of the pipeline a stack holds under [id],
    which the source leaves to the pipeline service. *)
Definition run_pipeline (stack : Stack.t) (id : string) (sv : Services)
    (e : PushEvent) : option (bool * RunState) :=
  match Stack.children stack !! id with
  | Some (DeployPipeline p) => run_stages stack sv e (Pipeline.stages p) fresh
  | _ => None
  end.

(** The steps that come before a step, in the order of a run. *)
Definition before (s : Step) : list Step :=
  match s with
  | Fetch => []
  | Build => [Fetch]
  | Push => [Fetch; Build]
  | Deploy => [Fetch; Build; Push]
  end.

(** The marks of a run that got as far as step [s] and ended it with [ok]:
    every step before [s] started and succeeded, in order, then [s] started. *)
Definition marks_upto (s : Step) (ok : bool) : list Mark :=
  flat_map (fun s' => [Started s'; Finished s' true]) (before s)
  ++ [Started s; Finished s ok].

(** The values the build of the pipeline stack reads are plain words: the
    repository URI, the account and region of the stack, the container name
    and the source directory are set, and the revision is plain or missing. *)
Definition word_set (s : string) : bool := plain s && negb (is_empty s).

Definition fit (props : pipeline_stack.Props) (sv : Services) (rev : option string)
  : bool :=
  word_set (repositoryUri (pipeline_stack.repository props))
  && word_set (pipeline_stack.account_of props)
  && word_set (pipeline_stack.region_of props)
  && word_set (containerName (pipeline_stack.container props))
  && word_set (src_dir sv)
  && plain (default "" rev).

(** The file of image definitions and the two references of a build. *)
Definition image_file : string := "docker_image_definition.json".

Definition image_ref (props : pipeline_stack.Props) (tag : string) : string :=
  repositoryUri (pipeline_stack.repository props) +:+ ":" +:+ tag.

Definition image_definitions (props : pipeline_stack.Props) (tag : string)
  : list ImageDefinition.t :=
  [ {| ImageDefinition.name := containerName (pipeline_stack.container props);
       ImageDefinition.imageUri := image_ref props tag |} ].

End Run.

(** ** What the stack is read for *)

Module Audit.
Import Chars Sh Cdk Js.

(** A secret given by reference, not by its text. *)
Definition is_reference (v : SecretValue.t) : bool :=
  match v with
  | SecretValue.secretsManager _ | SecretValue.ssmSecure _ => true
  | SecretValue.unsafePlainText _ => false
  end.

Definition source_actions (p : Pipeline.t) : list GitHubSourceAction.t :=
  flat_map (fun s => omap (fun a => match a with
                                    | SourceAction g => Some g
                                    | _ => None
                                    end) (Stage.actions s))
           (Pipeline.stages p).

Definition deploy_actions (p : Pipeline.t) : list EcsDeployAction.t :=
  flat_map (fun s => omap (fun a => match a with
                                    | DeployAction d => Some d
                                    | _ => None
                                    end) (Stage.actions s))
           (Pipeline.stages p).

Definition build_actions (p : Pipeline.t) : list CodeBuildAction.t :=
  flat_map (fun s => omap (fun a => match a with
                                    | BuildAction b => Some b
                                    | _ => None
                                    end) (Stage.actions s))
           (Pipeline.stages p).

(** The secret values that the constructs of a stack are given. *)
Definition secret_values_of (c : Construct) : list SecretValue.t :=
  match c with
  | Credentials g => [GitHubSourceCredentials.accessToken g]
  | BuildProject _ => []
  | DeployPipeline p => map GitHubSourceAction.oauthToken (source_actions p)
  end.

Definition secret_values (s : Stack.t) : list SecretValue.t :=
  flat_map (fun kv => secret_values_of (snd kv)) (map_to_list (Stack.children s)).

(** The variables of a project whose value stands in the template as it is. *)
Definition is_plaintext (v : BuildEnvironmentVariable.t) : bool :=
  match BuildEnvironmentVariable.type v with
  | None | Some PLAINTEXT => true
  | Some PARAMETER_STORE | Some SECRETS_MANAGER => false
  end.

Definition plaintext_names (p : Project.t) : gset string :=
  dom (filter (fun kv => is_plaintext (snd kv) = true) (Project.environmentVariables p)).

(** The commands of a phase, none for a phase the specification leaves out,
    and the commands of a whole build in the order of the phases. *)
Definition phase_commands (spec : BuildSpec.t) (phase : string) : list line :=
  default [] (BuildSpec.phases spec !! phase).

Definition build_commands_of (spec : BuildSpec.t) : list line :=
  flat_map (phase_commands spec) ["install"; "pre_build"; "build"; "post_build"].

(** The files the commands redirect their output to, as written. *)
Fixpoint redirects {C} (rc : C -> string) (c : command C) : list string :=
  match c with
  | Assign _ _ => []
  | Exec _ (Some f) => [render_word rc f]
  | Exec _ None => []
  | Pipe c1 c2 => redirects rc c1 ++ redirects rc c2
  end.

Definition redirect_targets (cs : list line) : list string :=
  flat_map (redirects render_inner) cs.

(** The state a build of a project starts in. *)
Definition build_start (sv : Run.Services) (p : Project.t) (rev : option string)
  : shell :=
  {| vars := Run.build_vars sv p rev; files := ∅; log := [] |}.

(** The values read at a push event are fit when those of the revision it
    fetches are. *)
Definition fit_event (props : pipeline_stack.Props) (sv : Run.Services)
    (e : Run.PushEvent) : bool :=
  match Run.fetch sv e with
  | Some rev => Run.fit props sv rev
  | None => true
  end.

End Audit.

(** ** An instance *)

Module Example.
Import Cdk Js.

Definition env : Environment.t :=
  {| Environment.account := Some "123456789012";
     Environment.region := Some "eu-central-1" |}.

Definition props : pipeline_stack.Props :=
  {| pipeline_stack.env := Some env;
     pipeline_stack.repository :=
       {| repositoryUri := "123456789012.dkr.ecr.eu-central-1.amazonaws.com/backend" |};
     pipeline_stack.service := {| serviceName := "backend-service" |};
     pipeline_stack.cluster := {| clusterName := "backend-cluster" |};
     pipeline_stack.container := {| containerName := "backend" |} |}.

(** Services in which every program succeeds and prints nothing. *)
Definition services : Run.Services :=
  {| Run.world := {| Sh.program := fun _ _ _ => (true, "") |};
     Run.fetch := fun e => Some (Some (Run.revisionId e));
     Run.secret := fun _ => "ghp-token";
     Run.parameter := fun _ => "";
     Run.src_dir := "/codebuild/output/src";
     Run.rollout := fun _ _ => true |}.

Definition push : Run.PushEvent :=
  {| Run.branch := "master"; Run.revisionId := "abcdef1234567" |}.

Definition host : Host :=
  fun q _ =>
    match q with
    | resolveCurrentUserOwnerName => Some "exanubes"
    | getAccountId => Some "123456789012"
    | getRegion => Some "eu-central-1"
    end.

Definition ecr_repository (e : Environment.t) : IRepository :=
  pipeline_stack.repository props.

Definition vpc_vpc (e : Environment.t) : infrastructure.IVpc :=
  {| infrastructure.vpcId := "vpc-0" |}.

Definition ecs_outputs (v : infrastructure.IVpc) (r : IRepository)
    (e : Environment.t) : infrastructure.EcsOutputs :=
  {| infrastructure.loadBalancer := {| infrastructure.loadBalancerName := "lb" |};
     infrastructure.service := pipeline_stack.service props;
     infrastructure.cluster := pipeline_stack.cluster props;
     infrastructure.container := pipeline_stack.container props |}.

(** Services in which [docker build] fails. *)
Definition no_build : Run.Services :=
  {| Run.world :=
       {| Sh.program := fun _ argv _ =>
            match argv with
            | prog :: verb :: _ =>
                (negb (String.eqb prog "docker" && String.eqb verb "build"), "")
            | _ => (true, "")
            end |};
     Run.fetch := Run.fetch services;
     Run.secret := Run.secret services;
     Run.parameter := Run.parameter services;
     Run.src_dir := Run.src_dir services;
     Run.rollout := Run.rollout services |}.

(** A host that knows the owner and not the account. *)
Definition no_account : Host :=
  fun q _ =>
    match q with
    | resolveCurrentUserOwnerName => Some "exanubes"
    | getAccountId | getRegion => None
    end.

End Example.

(** ** The artifacts of the pipeline *)

Module Wiring.
Import Chars Cdk.

(** The artifacts an action takes in and puts out. *)
Definition action_inputs (a : Action) : list Artifact.t :=
  match a with
  | SourceAction _ => []
  | BuildAction b => [CodeBuildAction.input b]
  | DeployAction d => [ArtifactPath.artifact (EcsDeployAction.imageFile d)]
  end.

Definition action_outputs (a : Action) : list Artifact.t :=
  match a with
  | SourceAction g => [GitHubSourceAction.output g]
  | BuildAction b => CodeBuildAction.outputs b
  | DeployAction _ => []
  end.

Definition stage_inputs (s : Stage.t) : list string :=
  map Artifact.artifactName (flat_map action_inputs (Stage.actions s)).

Definition stage_outputs (s : Stage.t) : list string :=
  map Artifact.artifactName (flat_map action_outputs (Stage.actions s)).

Definition among (names : list string) (x : string) : bool :=
  existsb (String.eqb x) names.

(** Every artifact a stage takes in was put out by a stage before it;
    [made] holds the artifacts put out so far. *)
Fixpoint wired (made : list string) (stages : list Stage.t) : bool :=
  match stages with
  | [] => true
  | s :: rest =>
      forallb (among made) (stage_inputs s) && wired (made ++ stage_outputs s) rest
  end.

End Wiring.

(** ** The variables the commands use *)

Module Uses.
Import Chars Sh Cdk.

Definition qpart_reads (q : qpart) : list string :=
  match q with
  | QVar x | QVarB x => [x]
  | QText _ | QEsc _ => []
  end.

(** The variables a part expands; [rc] gives those of a substituted
    command. *)
Definition part_reads {C} (rc : C -> list string) (p : part C) : list string :=
  match p with
  | Text _ => []
  | Var x | VarB x | VarDefault x _ => [x]
  | DQuote q => flat_map qpart_reads q
  | Subst c | Tick c => rc c
  end.

Definition word_reads {C} (rc : C -> list string) (w : word C) : list string :=
  flat_map (part_reads rc) w.

Fixpoint reads {C} (rc : C -> list string) (c : command C) : list string :=
  match c with
  | Assign _ w => word_reads rc w
  | Exec ws out =>
      flat_map (word_reads rc) ws
      ++ match out with Some f => word_reads rc f | None => [] end
  | Pipe c1 c2 => reads rc c1 ++ reads rc c2
  end.

Definition no_reads (e : Empty_set) : list string := match e with end.

Definition line_reads (c : line) : list string := reads (reads no_reads) c.

(** The variables a command of a phase leaves set in the shell of the
    build: the one it assigns and those its words give a default to.  The
    sides of a pipe and substituted commands run in subshells and leave
    none. *)
Definition part_sets {C} (p : part C) : list string :=
  match p with
  | VarDefault x _ => [x]
  | _ => []
  end.

Definition line_sets (c : line) : list string :=
  match c with
  | Assign x w => flat_map part_sets w ++ [x]
  | Exec ws out =>
      flat_map (flat_map part_sets) ws
      ++ match out with Some f => flat_map part_sets f | None => [] end
  | Pipe _ _ => []
  end.

(** The variables the commands expand before anything has set them, when
    those of [known] are set at the start. *)
Fixpoint unset_reads (known : gset string) (cs : list line) : list string :=
  match cs with
  | [] => []
  | c :: cs' =>
      List.filter (fun x => bool_decide (x ∉ known)) (line_reads c)
      ++ unset_reads (list_to_set (line_sets c) ∪ known) cs'
  end.

(** The variables the commands of a run expand while the shell does not
    hold them: those a command reads that are not set in the state the
    command starts in.  The commands after one that fails are not run. *)
Fixpoint unset_in_run (w : World) (cs : list line) (st : shell) : list string :=
  match cs with
  | [] => []
  | c :: cs' =>
      List.filter (fun x => bool_decide (vars st !! x = None)) (line_reads c)
      ++ match run_top w c st with
         | Some (true, st') => unset_in_run w cs' st'
         | _ => []
         end
  end.

End Uses.

(** ** How a phase ends *)

Module Outcome.
Import Chars Sh Cdk Js.

(** The programs whose exit status the build specification does not look at:
    [date], which runs inside the arguments of [echo], and
    [aws ecr get-login-password], the left side of a pipe. *)
Definition ignored (argv : list string) : bool :=
  match argv with
  | [prog] => String.eqb prog "date"
  | prog :: a :: b :: _ =>
      String.eqb prog "aws" && String.eqb a "ecr"
      && String.eqb b "get-login-password"
  | _ => false
  end.

(** The programs whose exit status counts. *)
Definition decisive (progs : list (list string)) : list (list string) :=
  List.filter (fun argv => negb (ignored argv)) progs.

(** A program succeeds, or fails, in some call. *)
Definition called_well (w : World) (argv : list string) : Prop :=
  exists l stdin, fst (program w l argv stdin) = true.

Definition called_badly (w : World) (argv : list string) : Prop :=
  exists l stdin, fst (program w l argv stdin) = false.

(** A program that succeeds, or fails, in every call. *)
Definition sound (w : World) (argv : list string) : Prop :=
  forall l stdin, fst (program w l argv stdin) = true.

Definition broken (w : World) (argv : list string) : Prop :=
  forall l stdin, fst (program w l argv stdin) = false.

(** A command that succeeds and ends in a state with [P]. *)
Definition passes (w : World) (c : line) (st : shell) (P : shell -> Prop) : Prop :=
  exists st', run_top w c st = Some (true, st') /\ P st'.

(** A command that ends in a state with [P], with the exit status of a call
    of the program [argv]. *)
Definition lands (w : World) (c : line) (st : shell) (P : shell -> Prop)
    (argv : list string) : Prop :=
  exists ok st',
    run_top w c st = Some (ok, st') /\ P st'
    /\ if (ok : bool) then called_well w argv else called_badly w argv.

(** Commands that end in a state with [Q] when they succeed and in a state
    with [I] when one of them fails. *)
Definition ends (w : World) (cs : list line) (st : shell) (I Q : shell -> Prop)
    : Prop :=
  exists ok st',
    run_commands w cs st = Some (ok, st') /\ if (ok : bool) then Q st' else I st'.

(** The state after the programs [progs] were started and those that count
    succeeded. *)
Definition completed (w : World) (vs fs : gmap string string)
    (sp progs : list (list string)) (st : shell) : Prop :=
  at_state vs fs (sp ++ progs) st /\ Forall (called_well w) (decisive progs).

(** The state of a phase that stopped on its way through the programs
    [progs]: the variables and the files are those the phase started with,
    the program started last is one that counts and failed, and those
    before it that count succeeded. *)
Definition halted (w : World) (vs fs : gmap string string)
    (sp progs : list (list string)) (st : shell) : Prop :=
  exists started argv,
    (started ++ [argv]) `prefix_of` progs
    /\ at_state vs fs (sp ++ started ++ [argv]) st
    /\ ignored argv = false /\ called_badly w argv
    /\ Forall (called_well w) (decisive started).

(** The programs [sp] started by commands that stopped on their way through
    the programs [progs]: the last of [sp] is a program that counts and
    failed, and those before it that count succeeded. *)
Definition stopped_in (w : World) (progs sp : list (list string)) : Prop :=
  exists started argv,
    (started ++ [argv]) `prefix_of` progs
    /\ sp = started ++ [argv]
    /\ ignored argv = false /\ called_badly w argv
    /\ Forall (called_well w) (decisive started).

(** The programs that the commands of [pre_build] and [build], and those
    of [post_build], start in a build of the stack at a revision, in the
    order of the commands. *)
Definition build_programs_of (props : pipeline_stack.Props) (sv : Run.Services)
    (rev : option string) : list (list string) :=
  let uri := repositoryUri (pipeline_stack.repository props) in
  let tag := pipeline_stack.revision_tag (default "" rev) in
  [ ["aws"; "--version"];
    ["aws"; "ecr"; "get-login-password"; "--region"; pipeline_stack.region_of props];
    ["docker"; "login"; "--username"; "AWS"; "--password-stdin";
     pipeline_stack.account_of props +:+ ".dkr.ecr."
     +:+ pipeline_stack.region_of props +:+ ".amazonaws.com"];
    ["date"];
    ["docker"; "build"; "-f"; Run.src_dir sv +:+ "/backend/Dockerfile";
     "-t"; uri +:+ ":latest"; "./backend"];
    ["docker"; "tag"; uri +:+ ":latest"; uri +:+ ":" +:+ tag] ].

Definition push_programs_of (props : pipeline_stack.Props) (rev : option string)
  : list (list string) :=
  let uri := repositoryUri (pipeline_stack.repository props) in
  let tag := pipeline_stack.revision_tag (default "" rev) in
  [ ["date"];
    ["docker"; "push"; uri +:+ ":latest"];
    ["docker"; "push"; uri +:+ ":" +:+ tag] ].

(** A world in which [aws ecr get-login-password] fails, and every other
    program succeeds; [date] prints a date. *)
Definition no_password : World :=
  {| program := fun _ argv _ =>
       match argv with
       | [prog] => (true, if String.eqb prog "date" then "Mon Nov  2 2026" else "")
       | prog :: a :: b :: _ =>
           (negb (String.eqb prog "aws" && String.eqb a "ecr"
                  && String.eqb b "get-login-password"), "")
       | _ => (true, "")
       end |}.

(** A world in which [aws --version] fails, and one in which [docker login]
    fails; every other program succeeds. *)
Definition no_version : World :=
  {| program := fun _ argv _ =>
       match argv with
       | [prog; a] => (negb (String.eqb prog "aws" && String.eqb a "--version"), "")
       | _ => (true, "")
       end |}.

Definition no_login : World :=
  {| program := fun _ argv _ =>
       match argv with
       | prog :: a :: _ =>
           (negb (String.eqb prog "docker" && String.eqb a "login"), "")
       | _ => (true, "")
       end |}.

(** A world in which [date] fails and prints a date all the same, and every
    other program succeeds. *)
Definition no_date : World :=
  {| program := fun _ argv _ =>
       match argv with
       | [prog] =>
           if String.eqb prog "date" then (false, "Mon Nov  2 2026") else (true, "")
       | _ => (true, "")
       end |}.

(** The variables of a build of the example project. *)
Definition example_vars : gmap string string :=
  Run.build_vars Example.services
    (pipeline_stack.built_project Example.props pipeline_stack.secretConfig
       pipeline_stack.githubConfig)
    (Some "abcdef1234567").

(** The state a build of the example project starts in, and the state its
    [pre_build] phase leaves. *)
Definition example_start : shell :=
  {| vars := example_vars; files := ∅; log := [] |}.

Definition example_tagged : shell :=
  {| vars := pipeline_stack.tagged example_vars; files := ∅; log := [] |}.

(** The first question the host leaves without answer, if any, when each is
    asked for the first time. *)
Definition first_unanswered (h : Host) : option Query :=
  match h resolveCurrentUserOwnerName 0, h getAccountId 0, h getRegion 0 with
  | None, _, _ => Some resolveCurrentUserOwnerName
  | Some _, None, _ => Some getAccountId
  | Some _, Some _, None => Some getRegion
  | Some _, Some _, Some _ => None
  end.

(** The questions asked up to and with the question [q]. *)
Definition asked_upto (q : Query) : list Query :=
  match q with
  | resolveCurrentUserOwnerName => [resolveCurrentUserOwnerName]
  | getAccountId => [resolveCurrentUserOwnerName; getAccountId]
  | getRegion => [resolveCurrentUserOwnerName; getAccountId; getRegion]
  end.

End Outcome.

(** * Properties *)

Import Chars Sh Cdk Js.

#[local] Arguments String.append !_ _ /.

(** ** Facts about strings *)

Section StringFacts.

Lemma append_empty_r (s : string) : s +:+ "" = s.
Proof. induction s as [|c s IH]; cbn; [reflexivity | by rewrite IH]. Qed.

Lemma append_assoc (s t u : string) : (s +:+ t) +:+ u = s +:+ (t +:+ u).
Proof. induction s as [|c s IH]; cbn; [reflexivity | by rewrite IH]. Qed.

Lemma is_empty_false (s : string) : s ≠ "" → is_empty s = false.
Proof. by destruct s. Qed.

Lemma is_empty_true (s : string) : is_empty s = true → s = "".
Proof. by destruct s. Qed.

Lemma all_chars_app p (s t : string) :
  all_chars p (s +:+ t) = all_chars p s && all_chars p t.
Proof.
  induction s as [|c s IH]; cbn; [reflexivity|].
  by rewrite IH, andb_assoc.
Qed.

Lemma all_chars_weaken (p q : ascii → bool) (s : string) :
  (∀ c, p c = true → q c = true) → all_chars p s = true → all_chars q s = true.
Proof.
  intros Hpq. induction s as [|c s IH]; cbn; [done|].
  intros [Hc Hs]%andb_true_iff. by rewrite (Hpq c Hc), IH.
Qed.

Lemma has_char_none (p q : ascii → bool) (s : string) :
  (∀ c, p c = true → q c = false) → all_chars p s = true → has_char q s = false.
Proof.
  intros Hpq Hs. unfold has_char.
  rewrite (all_chars_weaken p (λ c, negb (q c))); [done| |done].
  intros c Hc. by rewrite (Hpq c Hc).
Qed.

Lemma all_chars_substring p (n m : nat) (s : string) :
  all_chars p s = true → all_chars p (String.substring n m s) = true.
Proof.
  revert n m. induction s as [|c s IH]; intros n m; cbn.
  - by destruct n, m.
  - intros [Hc Hs]%andb_true_iff. destruct n as [|n].
    + destruct m as [|m]; cbn; [done|]. by rewrite Hc, IH.
    + by apply IH.
Qed.

Lemma all_chars_chomp p (s : string) :
  all_chars p s = true → all_chars p (chomp s) = true.
Proof.
  induction s as [|c s IH]; cbn; [done|].
  intros [Hc Hs]%andb_true_iff.
  destruct (Ascii.eqb c nl && is_empty (chomp s)); cbn; [done|].
  by rewrite Hc, IH.
Qed.

Lemma all_chars_has_glob_chomp (s : string) :
  has_char is_glob s = false → has_char is_glob (chomp s) = false.
Proof.
  unfold has_char. intros H%negb_false_iff.
  by rewrite all_chars_chomp.
Qed.

Lemma has_char_app p (s t : string) :
  has_char p (s +:+ t) = has_char p s || has_char p t.
Proof. unfold has_char. by rewrite all_chars_app, negb_andb. Qed.

Lemma lines_one (s : string) :
  all_chars (λ c, negb (Ascii.eqb c nl)) s = true → lines (s +:+ newline) = [s].
Proof.
  induction s as [|c s IH]; cbn; [done|].
  intros [Hc Hs]%andb_true_iff. apply negb_true_iff in Hc.
  by rewrite Hc, IH.
Qed.

Lemma chomp_line (s : string) :
  all_chars (λ c, negb (Ascii.eqb c nl)) s = true → chomp (s +:+ newline) = s.
Proof.
  induction s as [|c s IH]; cbn; [done|].
  intros [Hc Hs]%andb_true_iff. apply negb_true_iff in Hc.
  by rewrite Hc, IH.
Qed.

Lemma split_exp_tame (s : string) (done : list string) (cur : option string) :
  all_chars (λ c, negb (is_ifs c)) s = true → s ≠ "" →
  split_exp s done cur = (done, Some (default "" cur +:+ s)).
Proof.
  revert cur. induction s as [|c s IH]; intros cur Hs Hne; [done|].
  cbn in Hs. apply andb_true_iff in Hs as [Hc Hs]. apply negb_true_iff in Hc.
  cbn [split_exp]. rewrite Hc.
  destruct s as [|c' s'].
  - reflexivity.
  - rewrite IH by done. f_equal. f_equal. cbn -[String.append]. by rewrite append_assoc.
Qed.

End StringFacts.

(** ** Quiet words expand to the concatenation of their parts *)

Section Quiet.
Context {C : Type}.
Variable sub : C → shell → option (bool * string * shell).

Lemma concat_cons (x : string) (l : list string) :
  Chars.concat (x :: l) = x +:+ Chars.concat l.
Proof. destruct l; cbn [Chars.concat]; [by rewrite append_empty_r | done]. Qed.

Lemma expand_quiet (w : word C) (st : shell) :
  forallb (quiet_part (vars st)) w = true →
  expand_word sub w st = Some (map (quiet_piece (vars st)) w, None, st).
Proof.
  induction w as [|p w IH]; [done|].
  cbn [forallb]. intros [Hp Hw]%andb_true_iff.
  cbn [expand_word map].
  assert (expand_part sub p st = Some (quiet_piece (vars st) p, None, st)) as ->
    by (by destruct p).
  cbn. by rewrite (IH Hw).
Qed.

Lemma tame_value_split (s : string) :
  tame_value s = true →
  has_char is_glob s = false ∧ all_chars (λ c, negb (is_ifs c)) s = true.
Proof.
  intros H. split.
  - apply (has_char_none _ _ _ ltac:(intros c [_ Hc%negb_true_iff]%andb_true_iff; exact Hc) H).
  - apply (all_chars_weaken _ _ _ ltac:(intros c [Hc _]%andb_true_iff; exact Hc) H).
Qed.

Lemma glue (b : bool) (a s t : string) :
  (b = true → t = "") →
  (if b then Some (a +:+ s) else Some (default "" (Some (a +:+ s)) +:+ t))
  = Some (a +:+ (s +:+ t)).
Proof.
  destruct b; cbn -[String.append]; intros H.
  - by rewrite H, append_empty_r.
  - by rewrite append_assoc.
Qed.

Lemma fields_from_quiet (vs : gmap string string) (w : word C)
    (done : list string) (cur : option string) :
  forallb (quiet_part vs) w = true →
  fields_from (map (quiet_piece vs) w) done cur
  = Some (rev (push_field done
                 (if negb (existsb solid w) && is_empty (word_text vs w) then cur
                  else Some (default "" cur +:+ word_text vs w)))).
Proof.
  unfold word_text, unsplit.
  revert cur. induction w as [|p w IH]; intros cur; [done|].
  cbn [forallb]. intros [Hp Hw]%andb_true_iff.
  cbn [map existsb]. rewrite concat_cons.
  set (t := Chars.concat (map piece_text (map (quiet_piece vs) w))) in *.
  assert (Ht : negb (existsb solid w) && is_empty t = true → t = "")
    by (by intros [_ ?%is_empty_true]%andb_true_iff).
  destruct p as [s|x|x|x d|q|c|c]; try discriminate Hp;
    cbn [quiet_piece fields_from solid piece_text orb negb andb].
  - cbn in Hp. apply negb_true_iff in Hp.
    by rewrite Hp, (IH _ Hw), (glue _ _ _ _ Ht).
  - cbn in Hp. destruct (tame_value_split _ Hp) as [Hg Hi]. rewrite Hg.
    destruct (value vs x) as [|c v] eqn:Ev.
    + cbn [split_exp String.append]. by rewrite (IH _ Hw).
    + rewrite split_exp_tame by done. rewrite (IH _ Hw). cbn [is_empty].
      by rewrite andb_false_r, (glue _ _ _ _ Ht).
  - cbn in Hp. destruct (tame_value_split _ Hp) as [Hg Hi]. rewrite Hg.
    destruct (value vs x) as [|c v] eqn:Ev.
    + cbn [split_exp String.append]. by rewrite (IH _ Hw).
    + rewrite split_exp_tame by done. rewrite (IH _ Hw). cbn [is_empty].
      by rewrite andb_false_r, (glue _ _ _ _ Ht).
  - by rewrite (IH _ Hw), (glue _ _ _ _ Ht).
Qed.

Lemma fields_quiet (vs : gmap string string) (w : word C) :
  forallb (quiet_part vs) w = true →
  fields (map (quiet_piece vs) w) = Some (word_fields vs w).
Proof.
  intros H. unfold fields, word_fields. rewrite (fields_from_quiet _ _ _ _ H).
  by destruct (negb (existsb solid w) && is_empty (word_text vs w)).
Qed.

Lemma argv_quiet (ws : list (word C)) (st : shell) :
  quiet_words (vars st) ws = true →
  argv_of sub ws st = Some (flat_map (word_fields (vars st)) ws, st).
Proof.
  unfold quiet_words. induction ws as [|w ws IH]; [done|].
  cbn [forallb]. intros [Hw Hws]%andb_true_iff.
  cbn [argv_of flat_map]. rewrite (expand_quiet _ _ Hw). cbn.
  rewrite (fields_quiet _ _ Hw). cbn. by rewrite (IH Hws).
Qed.
End Quiet.

(** ** The build specification as written

    The printer gives back, command by command, the strings of the object
    that [getBuildSpec] passes to [BuildSpec.fromObject]. *)

Lemma pre_build_as_written :
  map render pipeline_stack.pre_build_commands = pipeline_stack.pre_build_text.
Proof. reflexivity. Qed.

Lemma build_as_written :
  map render pipeline_stack.build_commands = pipeline_stack.build_text.
Proof. reflexivity. Qed.

Lemma post_build_as_written :
  map render pipeline_stack.post_build_commands = pipeline_stack.post_build_text.
Proof. reflexivity. Qed.

Lemma getBuildSpec_as_written :
  (map render <$> BuildSpec.phases pipeline_stack.getBuildSpec)
  = list_to_map [("pre_build", pipeline_stack.pre_build_text);
                 ("build", pipeline_stack.build_text);
                 ("post_build", pipeline_stack.post_build_text)].
Proof. vm_compute. reflexivity. Qed.

(** ** Plain words *)

Lemma plain_char_facts (c : ascii) :
  is_plain_char c = true →
  is_ifs c = false ∧ is_glob c = false ∧ Ascii.eqb c nl = false
  ∧ (Ascii.eqb c "%"%char || Ascii.eqb c backslash) = false
  ∧ (Ascii.eqb c dquote || Ascii.eqb c backslash) = false.
Proof.
  destruct c as [[] [] [] [] [] [] [] []]; vm_compute; intros H;
    try discriminate H; repeat split.
Qed.

Lemma plain_chars (s : string) :
  plain s = true → all_chars is_plain_char s = true.
Proof. by intros [H _]%andb_true_iff. Qed.

Lemma plain_no_dash (s : string) :
  plain s = true → starts_with "-"%char s = false.
Proof. by intros [_ H%negb_true_iff]%andb_true_iff. Qed.

Lemma plain_tame (s : string) : plain s = true → tame_value s = true.
Proof.
  intros H%plain_chars. apply (all_chars_weaken is_plain_char); [|done].
  intros c Hc. destruct (plain_char_facts c Hc) as (-> & -> & _). done.
Qed.

Lemma plain_one_line (s : string) :
  plain s = true → all_chars (λ c, negb (Ascii.eqb c nl)) s = true.
Proof.
  intros H%plain_chars. apply (all_chars_weaken is_plain_char); [|done].
  intros c Hc. destruct (plain_char_facts c Hc) as (_ & _ & -> & _). done.
Qed.

Lemma plain_escape (s : string) :
  all_chars is_plain_char s = true → ImageDefinition.escape s = s.
Proof.
  induction s as [|c s IH]; cbn; [done|].
  intros [Hc Hs]%andb_true_iff.
  destruct (plain_char_facts c Hc) as (_ & _ & _ & _ & ->). by rewrite IH.
Qed.

Lemma plain_no_format (s : string) :
  plain s = true →
  has_char (λ c, Ascii.eqb c "%"%char || Ascii.eqb c backslash) s = false.
Proof.
  intros H%plain_chars. apply (has_char_none is_plain_char); [|done].
  intros c Hc. by destruct (plain_char_facts c Hc) as (_ & _ & _ & -> & _).
Qed.

Lemma plain_substring (n m : nat) (s : string) :
  plain s = true → plain (String.substring 0 (S m) s) = true.
Proof.
  intros [Hc Hd]%andb_true_iff. unfold plain.
  rewrite all_chars_substring by done. by destruct s.
Qed.

Lemma substring_nonempty (m : nat) (s : string) :
  s ≠ "" → String.substring 0 (S m) s ≠ "".
Proof. by destruct s. Qed.

(** ** The commands of a phase, one step at a time *)

Section Steps.
Variable w : World.

Lemma value_insert_eq (vs : gmap string string) (x v : string) :
  value (<[x := v]> vs) x = v.
Proof. unfold value. by rewrite lookup_insert_eq. Qed.

Lemma value_insert_ne (vs : gmap string string) (x y v : string) :
  x ≠ y → value (<[x := v]> vs) y = value vs y.
Proof. intros H. unfold value. by rewrite lookup_insert_ne. Qed.

Lemma spawned_app (l l' : list event) :
  spawned (l ++ l') = spawned l ++ spawned l'.
Proof. unfold spawned. apply omap_app. Qed.

Lemma runs_nil (st : shell) (Q : shell → Prop) : Q st → runs w [] st Q.
Proof. intros H. exists true, st. done. Qed.

Lemma runs_cons (c : line) (cs : list line) (st : shell) (P Q : shell → Prop) :
  steps w c st P → (∀ st1, P st1 → runs w cs st1 Q) → runs w (c :: cs) st Q.
Proof.
  intros (ok1 & st1 & Hrun & HP & Hob) Hrest.
  unfold runs. cbn [run_commands]. rewrite Hrun. cbn.
  destruct ok1.
  - destruct (Hrest st1 (HP eq_refl)) as (ok & st' & -> & HQ & Hob').
    by exists ok, st'.
  - exists false, st1. split_and!; [done|done|]. intros Ho. by apply Hob.
Qed.

Lemma at_state_emit (vs fs : gmap string string) (sp : list (list string))
    (st : shell) (text : string) :
  at_state vs fs sp st → at_state vs fs sp (emit (Stdout text) st).
Proof.
  intros (Hv & Hf & Hs). split_and!; [done|done|].
  cbn. by rewrite spawned_app, Hs, app_nil_r.
Qed.

Lemma at_state_spawn (vs fs : gmap string string) (sp : list (list string))
    (st : shell) (argv : list string) :
  at_state vs fs sp st → at_state vs fs (sp ++ [argv]) (emit (Spawn argv) st).
Proof.
  intros (Hv & Hf & Hs). split_and!; [done|done|].
  cbn. by rewrite spawned_app, Hs.
Qed.

Lemma at_state_output (vs fs : gmap string string) (sp : list (list string))
    (st : shell) (out : string) :
  at_state vs fs sp st →
  at_state vs fs sp (if is_empty out then st else emit (Stdout out) st).
Proof. intros H. destruct (is_empty out); [done | by apply at_state_emit]. Qed.

Lemma run_exec_quiet {C} (sub : C → shell → option (bool * string * shell))
    (ws : list (word C)) (stdin : string) (st : shell) :
  quiet_words (vars st) ws = true →
  run_command w sub (Exec ws None) stdin st
  = run_program w (flat_map (word_fields (vars st)) ws) stdin st.
Proof. intros H. cbn [run_command]. by rewrite (argv_quiet _ _ _ H). Qed.

Lemma run_program_world (prog : string) (args : list string) (stdin : string)
    (st : shell) :
  is_builtin prog = false →
  run_program w (prog :: args) stdin st
  = Some (fst (program w (log st) (prog :: args) stdin),
          snd (program w (log st) (prog :: args) stdin),
          emit (Spawn (prog :: args)) st).
Proof.
  unfold is_builtin. intros [[H1 H2]%orb_false_iff H3]%orb_false_iff.
  cbn [run_program]. rewrite H1, H2, H3.
  by destruct (program w (log st) (prog :: args) stdin).
Qed.

Lemma run_program_echo (args : list string) (stdin : string) (st : shell) :
  echo_plain args = true →
  run_program w ("echo" :: args) stdin st
  = Some (true, join " " args +:+ newline, st).
Proof.
  intros H. cbn [run_program String.eqb Ascii.eqb Bool.eqb].
  destruct args as [|a args]; [done|].
  cbn in H. apply negb_true_iff in H. by rewrite H.
Qed.

(** [echo] with quiet words. *)
Lemma step_echo (vs fs : gmap string string) (sp : list (list string))
    (ws : list line_word) (args : list string) (st : shell) :
  at_state vs fs sp st →
  quiet_words vs ws = true →
  flat_map (word_fields vs) ws = "echo" :: args →
  echo_plain args = true →
  steps w (Exec ws None) st (at_state vs fs sp).
Proof.
  intros Hat Hq Hargv Hdash. pose proof Hat as (Hv & _).
  exists true. eexists. split_and!; [|intros _|done].
  - unfold run_top, run_line. rewrite run_exec_quiet by by rewrite Hv.
    rewrite Hv, Hargv, run_program_echo by done. cbn. reflexivity.
  - by apply at_state_output.
Qed.

(** A program of the world with quiet words. *)
Lemma step_program (vs fs : gmap string string) (sp : list (list string))
    (ws : list line_word) (prog : string) (args : list string) (st : shell) :
  at_state vs fs sp st →
  quiet_words vs ws = true →
  flat_map (word_fields vs) ws = prog :: args →
  is_builtin prog = false →
  steps w (Exec ws None) st (at_state vs fs (sp ++ [prog :: args])).
Proof.
  intros Hat Hq Hargv Hb. pose proof Hat as (Hv & _).
  eexists _, _. split_and!.
  - unfold run_top, run_line. rewrite run_exec_quiet by by rewrite Hv.
    rewrite Hv, Hargv, run_program_world by done. cbn. reflexivity.
  - intros _. by apply at_state_output, at_state_spawn.
  - intros Ho. apply Ho.
Qed.

(** A pipe of two programs of the world with quiet words. *)
Lemma step_pipe (vs fs : gmap string string) (sp : list (list string))
    (ws1 ws2 : list line_word) (prog1 prog2 : string) (args1 args2 : list string)
    (st : shell) :
  at_state vs fs sp st →
  quiet_words vs ws1 = true → quiet_words vs ws2 = true →
  flat_map (word_fields vs) ws1 = prog1 :: args1 →
  flat_map (word_fields vs) ws2 = prog2 :: args2 →
  is_builtin prog1 = false → is_builtin prog2 = false →
  steps w (Pipe (Exec ws1 None) (Exec ws2 None)) st
    (at_state vs fs (sp ++ [prog1 :: args1; prog2 :: args2])).
Proof.
  intros Hat Hq1 Hq2 Ha1 Ha2 Hb1 Hb2. pose proof Hat as (Hv & _).
  eexists _, _. split_and!.
  - unfold run_top, run_line. cbn [run_command].
    rewrite argv_quiet by by rewrite Hv.
    cbn [mbind option_bind]. rewrite Hv, Ha1, run_program_world by done.
    cbn [mbind option_bind]. rewrite argv_quiet by (cbn; by rewrite Hv).
    cbn [mbind option_bind vars subshell]. rewrite Hv, Ha2, run_program_world by done.
    cbn. reflexivity.
  - intros _. apply at_state_output.
    replace (sp ++ [prog1 :: args1; prog2 :: args2])
      with ((sp ++ [prog1 :: args1]) ++ [prog2 :: args2])
      by (by rewrite <- app_assoc).
    destruct Hat as (? & ? & ?). split_and!; [done|done|].
    cbn. rewrite !spawned_app. cbn. by f_equal; f_equal.
  - intros Ho. apply Ho.
Qed.

(** [echo] with quiet words and, last, the output of [date]. *)
Lemma step_echo_date (vs fs : gmap string string) (sp : list (list string))
    (ws : list line_word) (a : string) (args : list string) (st : shell) :
  dated w →
  at_state vs fs sp st →
  quiet_words vs ws = true →
  flat_map (word_fields vs) ws = "echo" :: a :: args →
  starts_with "-"%char a = false →
  steps w (Exec (ws ++ [[Tick (pipeline_stack.plain_cmd ["date"])]]) None) st
    (at_state vs fs (sp ++ [["date"]])).
Proof.
  intros Hd Hat Hq Hargv Hdash. pose proof Hat as (Hv & _).
  assert (Hargs : ∀ ws' : list line_word, ∀ st0 r,
    quiet_words (vars st0) ws' = true →
    argv_of (run_inner w) (ws' ++ [[Tick (pipeline_stack.plain_cmd ["date"])]]) st0 = r →
    ∃ fs', r = Some (flat_map (word_fields (vars st0)) ws' ++ fs',
                     emit (Spawn ["date"]) st0)).
  { induction ws' as [|wd ws' IH]; intros st0 r Hq0 <-.
    - rewrite app_nil_l. cbn [argv_of expand_word expand_part].
      unfold run_inner at 1, pipeline_stack.plain_cmd.
      rewrite run_exec_quiet by done.
      cbn [flat_map map word_fields pipeline_stack.lit existsb solid negb orb
           andb word_text unsplit quiet_piece piece_text Chars.concat List.app].
      rewrite run_program_world by done. cbn [mbind option_bind fields fields_from].
      rewrite all_chars_has_glob_chomp by apply Hd.
      destruct (split_exp _ _ _) as [d c]. cbn. eexists. reflexivity.
    - cbn [quiet_words forallb] in Hq0. apply andb_true_iff in Hq0 as [Hw Hws].
      rewrite <- app_comm_cons. cbn [argv_of flat_map].
      rewrite (expand_quiet _ _ _ Hw). cbn [mbind option_bind].
      rewrite (fields_quiet _ _ Hw). cbn [mbind option_bind].
      destruct (IH st0 _ Hws eq_refl) as (fs' & ->). cbn.
      exists fs'. by rewrite app_assoc. }
  destruct (Hargs ws st _ ltac:(by rewrite Hv) eq_refl) as (fs' & Hrun).
  exists true. eexists. split_and!; [|intros _|done].
  - unfold run_top, run_line. cbn [run_command]. rewrite Hrun. cbn [mbind option_bind].
    rewrite Hv, Hargv. cbn [List.app]. rewrite run_program_echo by (cbn; by rewrite Hdash).
    cbn. reflexivity.
  - by apply at_state_output, at_state_spawn.
Qed.

Lemma echo_one (rev stdin : string) (st : shell) :
  starts_with "-"%char rev = false →
  run_program w ("echo" :: (if is_empty rev then [] else [rev])) stdin st
  = Some (true, rev +:+ newline, st).
Proof.
  intros H. destruct rev as [|c rev]; [done|].
  cbn [is_empty]. rewrite run_program_echo; [done|].
  unfold echo_plain. by rewrite H.
Qed.

Lemma cut_1_7 (s : string) :
  all_chars (λ c, negb (Ascii.eqb c nl)) s = true →
  cut_chars "1-7" (s +:+ newline) = Some (String.substring 0 7 s +:+ newline).
Proof.
  intros H.
  change (cut_chars "1-7" (s +:+ newline))
    with (Some (Chars.concat (map (λ l, cut_line 1 7 l +:+ newline)
                                  (lines (s +:+ newline))))).
  by rewrite lines_one.
Qed.

(** The assignment of the first seven characters of a variable. *)
Lemma step_cut (vs fs : gmap string string) (sp : list (list string))
    (x v : string) (st : shell) :
  at_state vs fs sp st →
  plain (value vs v) = true →
  steps w
    (Assign x
       [Subst (Pipe (Exec [pipeline_stack.lit "echo"; [Var v]] None)
                    (pipeline_stack.plain_cmd ["cut"; "-c"; "1-7"]))])
    st
    (at_state (<[x := String.substring 0 7 (value vs v)]> vs) fs sp).
Proof.
  intros (Hv & Hf & Hs) Hp.
  exists true. eexists. split_and!; [|intros _|done].
  - unfold run_top, run_line. cbn [run_command expand_word expand_part].
    unfold run_inner at 1. cbn [run_command].
    rewrite argv_quiet
      by (cbn; rewrite Hv; by rewrite (plain_tame _ Hp)).
    unfold word_fields, word_text, unsplit.
    cbn [mbind option_bind flat_map map quiet_piece
         piece_text pipeline_stack.lit existsb solid negb orb andb Chars.concat
         List.app is_empty].
    rewrite app_nil_r, Hv, echo_one by by apply plain_no_dash.
    cbn [mbind option_bind]. unfold pipeline_stack.plain_cmd.
    cbn [run_command]. rewrite argv_quiet by done.
    unfold word_fields, word_text, unsplit.
    cbn [mbind option_bind flat_map map quiet_piece
         piece_text pipeline_stack.lit existsb solid negb orb andb Chars.concat
         List.app is_empty run_program String.eqb Ascii.eqb Bool.eqb].
    rewrite cut_1_7 by by apply plain_one_line.
    cbn [mbind option_bind].
    rewrite chomp_line
      by (apply all_chars_substring; by apply plain_one_line).
    cbn. reflexivity.
  - split_and!; cbn; by rewrite ?Hv, ?Hf, ?Hs.
Qed.

(** The assignment of a variable, or of a default that the variable then
    takes as well. *)
Lemma step_default (vs fs : gmap string string) (sp : list (list string))
    (x v d : string) (st : shell) :
  at_state vs fs sp st →
  steps w (Assign x [VarDefault v d]) st
    (at_state (if is_empty (value vs v) then <[x := d]> (<[v := d]> vs)
               else <[x := value vs v]> vs) fs sp).
Proof.
  intros (Hv & Hf & Hs).
  unfold steps, run_top, run_line. cbn [run_command expand_word expand_part].
  rewrite Hv. destruct (is_empty (value vs v)); cbn.
  - eexists true, _. split_and!; [reflexivity| |done].
    intros _. split_and!; cbn; by rewrite ?Hv, ?Hf, ?Hs.
  - eexists true, _. split_and!; [reflexivity| |done].
    intros _. split_and!; cbn; by rewrite ?Hv, ?Hf, ?Hs.
Qed.

(** [printf] of one quoted word into a file. *)
Lemma step_printf (vs fs : gmap string string) (sp : list (list string))
    (q : list qpart) (file : string) (st : shell) :
  at_state vs fs sp st →
  has_char is_meta file = false →
  starts_with "-"%char (Chars.concat (map (expand_qpart vs) q)) = false →
  has_char (λ c, Ascii.eqb c "%"%char || Ascii.eqb c backslash)
    (Chars.concat (map (expand_qpart vs) q)) = false →
  steps w (Exec [pipeline_stack.lit "printf"; [DQuote q]]
                (Some (pipeline_stack.lit file))) st
    (at_state vs (<[file := Chars.concat (map (expand_qpart vs) q)]> fs) sp).
Proof.
  intros (Hv & Hf & Hs) Hfile Hdash Hfmt.
  exists true. eexists. split_and!; [|intros _|done].
  - unfold run_top, run_line. cbn [run_command].
    rewrite argv_quiet by done.
    unfold word_fields, word_text, unsplit, fields.
    cbn [mbind option_bind flat_map map quiet_piece
         piece_text pipeline_stack.lit existsb solid negb orb andb Chars.concat
         List.app is_empty expand_word expand_part fields_from].
    rewrite Hfile. cbn [default String.append rev push_field List.app mbind option_bind
                        run_program String.eqb Ascii.eqb Bool.eqb].
    rewrite Hv, Hdash, Hfmt. cbn. reflexivity.
  - split_and!; cbn; by rewrite ?Hv, ?Hf, ?Hs.
Qed.

End Steps.

(** ** The three phases of the build specification *)

Section Phases.
Import pipeline_stack.
Variable w : World.
Variable vs : gmap string string.
Hypothesis Hready : ready vs = true.

Lemma set_plain_facts (m : gmap string string) (x : string) :
  set_plain m x = true →
  tame_value (value m x) = true ∧ is_empty (value m x) = false
  ∧ starts_with "-"%char (value m x) = false ∧ plain (value m x) = true.
Proof.
  intros [Hp He%negb_true_iff]%andb_true_iff.
  split_and!; [by apply plain_tame | done | by apply plain_no_dash | done].
Qed.

Lemma ready_facts :
  set_plain vs "REPOSITORY_URI" = true ∧ set_plain vs "AWS_ACCOUNT_ID" = true
  ∧ set_plain vs "AWS_STACK_REGION" = true ∧ set_plain vs "CONTAINER_NAME" = true
  ∧ set_plain vs "CODEBUILD_SRC_DIR" = true
  ∧ plain (value vs "CODEBUILD_RESOLVED_SOURCE_VERSION") = true.
Proof.
  pose proof Hready as H. unfold ready in H.
  do 5 (apply andb_true_iff in H as [H ?]). by split_and!.
Qed.

Lemma revision_tag_plain (rev : string) :
  plain rev = true →
  plain (revision_tag rev) = true ∧ is_empty (revision_tag rev) = false.
Proof.
  intros Hp. unfold revision_tag. destruct rev as [|c rev]; [done|].
  split; [by apply (plain_substring 0) | done].
Qed.

Lemma tagged_set_plain (x : string) :
  x ≠ "IMAGE_TAG" → x ≠ "COMMIT_HASH" →
  set_plain (tagged vs) x = set_plain vs x.
Proof.
  intros H1 H2. unfold set_plain, tagged.
  by rewrite !value_insert_ne by done.
Qed.

Lemma tagged_image_tag :
  value (tagged vs) "IMAGE_TAG"
  = revision_tag (value vs "CODEBUILD_RESOLVED_SOURCE_VERSION").
Proof. unfold tagged. by rewrite value_insert_eq. Qed.

Ltac argv_unfold :=
  unfold plain_cmd, word_fields, word_text, unsplit;
  cbn [flat_map map quiet_piece piece_text lit existsb solid negb orb andb
       Chars.concat List.app is_empty expand_qpart].

Lemma pre_build_runs (fs : gmap string string) (sp : list (list string))
    (st : shell) :
  at_state vs fs sp st →
  runs w pre_build_commands st
    (at_state (tagged vs) fs (sp ++ pre_build_programs vs)).
Proof.
  intros Hat.
  destruct ready_facts as (Huri & Hacc & Hreg & Hcn & Hdir & Hrev).
  destruct (set_plain_facts _ _ Hreg) as (Treg & Ereg & Dreg & _).
  destruct (set_plain_facts _ _ Hacc) as (Tacc & Eacc & Dacc & _).
  destruct (set_plain_facts _ _ Hcn) as (Tcn & Ecn & Dcn & _).
  unfold pre_build_commands.
  eapply runs_cons.
  { eapply (step_echo w vs fs sp); [exact Hat | done | reflexivity | done]. }
  intros st1 Hat1. eapply runs_cons.
  { eapply (step_program w vs fs sp); [exact Hat1 | done | reflexivity | done]. }
  intros st2 Hat2. eapply runs_cons.
  { eapply (step_echo w vs); [exact Hat2 | | | ].
    - unfold quiet_words. cbn. by rewrite Treg.
    - argv_unfold. rewrite Ereg. reflexivity.
    - cbn. by rewrite Dreg. }
  intros st3 Hat3. eapply runs_cons.
  { eapply (step_echo w vs); [exact Hat3 | | | ].
    - unfold quiet_words. cbn. by rewrite Tcn.
    - argv_unfold. rewrite Ecn. reflexivity.
    - cbn. by rewrite Dcn. }
  intros st4 Hat4. eapply runs_cons.
  { eapply (step_pipe w vs); [exact Hat4 | | | | | | ].
    - unfold quiet_words. cbn. by rewrite Treg.
    - unfold quiet_words. cbn. by rewrite Tacc, Treg.
    - argv_unfold. rewrite Ereg. reflexivity.
    - argv_unfold. reflexivity.
    - done.
    - done. }
  intros st5 Hat5. eapply runs_cons.
  { eapply (step_cut w vs); [exact Hat5 | exact Hrev]. }
  set (rev := value vs "CODEBUILD_RESOLVED_SOURCE_VERSION") in *.
  set (vs1 := <["COMMIT_HASH" := String.substring 0 7 rev]> vs).
  assert (Hch : value vs1 "COMMIT_HASH" = String.substring 0 7 rev)
    by apply value_insert_eq.
  assert (Hsub : plain (String.substring 0 7 rev) = true)
    by by apply (plain_substring 0).
  intros st6 Hat6. eapply runs_cons.
  { eapply (step_echo w vs1); [exact Hat6 | | | ].
    - unfold quiet_words. cbn. by rewrite Hch, (plain_tame _ Hsub).
    - argv_unfold. rewrite Hch. reflexivity.
    - destruct (is_empty (String.substring 0 7 rev)); [done|].
      cbn. by rewrite (plain_no_dash _ Hsub). }
  intros st7 Hat7. eapply runs_cons.
  { eapply (step_default w vs1); exact Hat7. }
  assert (Hvs2 : (if is_empty (value vs1 "COMMIT_HASH")
                  then <["IMAGE_TAG" := "latest"]> (<["COMMIT_HASH" := "latest"]> vs1)
                  else <["IMAGE_TAG" := value vs1 "COMMIT_HASH"]> vs1) = tagged vs).
  { rewrite Hch. unfold tagged, revision_tag, vs1. fold rev.
    destruct rev as [|c rev']; cbn [String.substring is_empty].
    - by rewrite insert_insert_eq.
    - done. }
  rewrite Hvs2.
  destruct (revision_tag_plain rev Hrev) as (Ptag & Etag).
  intros st8 Hat8. eapply runs_cons.
  { eapply (step_echo w (tagged vs)); [exact Hat8 | | | ].
    - unfold quiet_words. cbn. rewrite tagged_image_tag. fold rev.
      by rewrite (plain_tame _ Ptag).
    - argv_unfold. rewrite tagged_image_tag. fold rev. rewrite Etag. reflexivity.
    - cbn. by rewrite (plain_no_dash _ Ptag). }
  intros st9 Hat9. apply runs_nil.
  unfold pre_build_programs. by rewrite <- !app_assoc in Hat9.
Qed.
End Phases.

Section LaterPhases.
Import pipeline_stack.
Variable w : World.
Hypothesis Hdated : dated w.
Variable m : gmap string string.
Hypothesis Huri : set_plain m "REPOSITORY_URI" = true.
Hypothesis Hdir : set_plain m "CODEBUILD_SRC_DIR" = true.
Hypothesis Hcn : set_plain m "CONTAINER_NAME" = true.
Hypothesis Htag : set_plain m "IMAGE_TAG" = true.

Ltac argv_unfold :=
  unfold plain_cmd, word_fields, word_text, unsplit;
  cbn [flat_map map quiet_piece piece_text lit existsb solid negb orb andb
       Chars.concat List.app is_empty expand_qpart].

Lemma build_runs (fs : gmap string string) (sp : list (list string)) (st : shell) :
  at_state m fs sp st →
  runs w build_commands st (at_state m fs (sp ++ build_programs m)).
Proof.
  intros Hat.
  destruct (set_plain_facts _ _ Huri) as (Turi & Euri & Duri & _).
  destruct (set_plain_facts _ _ Hdir) as (Tdir & Edir & Ddir & _).
  destruct (set_plain_facts _ _ Htag) as (Ttag & Etag & Dtag & _).
  unfold build_commands.
  eapply runs_cons.
  { eapply (step_echo_date w m fs sp
              [lit "echo"; lit "Build"; lit "started"; lit "on"]);
      [exact Hdated | exact Hat | done | reflexivity | done]. }
  intros st1 Hat1. eapply runs_cons.
  { eapply (step_echo w m); [exact Hat1 | done | reflexivity | done]. }
  intros st2 Hat2. eapply runs_cons.
  { eapply (step_program w m); [exact Hat2 | | | ].
    - unfold quiet_words. cbn. by rewrite Tdir, Turi.
    - argv_unfold. reflexivity.
    - done. }
  intros st3 Hat3. eapply runs_cons.
  { eapply (step_echo w m); [exact Hat3 | done | argv_unfold; reflexivity | done]. }
  intros st4 Hat4. eapply runs_cons.
  { eapply (step_program w m); [exact Hat4 | | | ].
    - unfold quiet_words. cbn. by rewrite Turi, Ttag.
    - argv_unfold. reflexivity.
    - done. }
  intros st5 Hat5. apply runs_nil.
  unfold build_programs. by rewrite <- !app_assoc in Hat5.
Qed.

Lemma post_build_runs (fs : gmap string string) (sp : list (list string))
    (st : shell) :
  at_state m fs sp st →
  runs w post_build_commands st
    (at_state m (<["docker_image_definition.json" := image_definition_text m]> fs)
       (sp ++ post_build_programs m)).
Proof.
  intros Hat.
  destruct (set_plain_facts _ _ Huri) as (Turi & Euri & Duri & Puri).
  destruct (set_plain_facts _ _ Hcn) as (Tcn & Ecn & Dcn & Pcn).
  destruct (set_plain_facts _ _ Htag) as (Ttag & Etag & Dtag & Ptag).
  unfold post_build_commands.
  eapply runs_cons.
  { eapply (step_echo_date w m fs sp
              [lit "echo"; lit "Build"; lit "completed"; lit "on"]);
      [exact Hdated | exact Hat | done | reflexivity | done]. }
  intros st1 Hat1. eapply runs_cons.
  { eapply (step_echo w m); [exact Hat1 | done | reflexivity | done]. }
  intros st2 Hat2. eapply runs_cons.
  { eapply (step_program w m); [exact Hat2 | | | ].
    - unfold quiet_words. cbn. by rewrite Turi.
    - argv_unfold. reflexivity.
    - done. }
  intros st3 Hat3. eapply runs_cons.
  { eapply (step_program w m); [exact Hat3 | | | ].
    - unfold quiet_words. cbn. by rewrite Turi, Ttag.
    - argv_unfold. reflexivity.
    - done. }
  intros st4 Hat4. eapply runs_cons.
  { eapply (step_printf w m); [exact Hat4 | done | done | ].
    cbn [map expand_qpart Chars.concat Ascii.eqb Bool.eqb dquote backslash orb].
    rewrite !has_char_app.
    rewrite (plain_no_format _ Pcn), (plain_no_format _ Puri), (plain_no_format _ Ptag).
    reflexivity. }
  intros st5 Hat5. apply runs_nil.
  unfold post_build_programs. rewrite <- !app_assoc in Hat5. exact Hat5.
Qed.
End LaterPhases.

(** ** The constructor of the pipeline stack *)

Section Constructor.
Import pipeline_stack.

(** The constructor does not throw, changes nothing but the app, and leaves
    the stack [built] there under its id. *)
Lemma PipelineStack_run (id : string) (props : Props) (m : Mem) :
  PipelineStack id props m
  = (Some tt,
     {| asked := asked m;
        secretConfig_obj := secretConfig_obj m;
        githubConfig_obj := githubConfig_obj m;
        tags := tags m;
        app := <[id := built props (secretConfig_obj m) (githubConfig_obj m)]> (app m) |}).
Proof.
  unfold PipelineStack, new_stack, new_child, on_project, with_app, read,
    stack_account, stack_region, stack_env.
  unfold mbind, Prog_bind, bind.
  repeat (progress (cbn -[policy project pipeline credentials])
          || rewrite alter_insert_eq || rewrite lookup_insert_eq
          || rewrite insert_insert_eq || rewrite alter_insert_ne by done).
  reflexivity.
Qed.

Lemma constructed_built (props : Props) :
  constructed props = Some (built props secretConfig githubConfig).
Proof.
  unfold constructed. rewrite PipelineStack_run. cbn [snd app].
  by rewrite lookup_insert_eq.
Qed.

Lemma built_project_of (props : Props) sc gh :
  project_of (built props sc gh) = Some (built_project props sc gh).
Proof. reflexivity. Qed.

Lemma built_pipeline_of (props : Props) sc gh :
  pipeline_of (built props sc gh) = Some (pipeline props gh).
Proof. reflexivity. Qed.

Lemma built_credentials_of (props : Props) sc gh :
  credentials_of (built props sc gh) = Some (credentials sc).
Proof. reflexivity. Qed.
End Constructor.

(** ** The variables of a build of the project *)

Section BuildVars.
Import pipeline_stack Run.
Variable sv : Services.
Variable props : Props.
Variable sc : SecretConfig.t.
Variable gh : GithubConfig.t.
Variable rev : option string.

Let bv := build_vars sv (built_project props sc gh) rev.

Lemma build_vars_uri :
  value bv "REPOSITORY_URI" = repositoryUri (repository props).
Proof. unfold bv, value, build_vars. destruct rev; vm_compute; reflexivity. Qed.

Lemma build_vars_account : value bv "AWS_ACCOUNT_ID" = account_of props.
Proof. unfold bv, value, build_vars. destruct rev; vm_compute; reflexivity. Qed.

Lemma build_vars_region : value bv "AWS_STACK_REGION" = region_of props.
Proof. unfold bv, value, build_vars. destruct rev; vm_compute; reflexivity. Qed.

Lemma build_vars_container :
  value bv "CONTAINER_NAME" = containerName (container props).
Proof. unfold bv, value, build_vars. destruct rev; vm_compute; reflexivity. Qed.

Lemma build_vars_src_dir : value bv "CODEBUILD_SRC_DIR" = src_dir sv.
Proof. unfold bv, value, build_vars. destruct rev; vm_compute; reflexivity. Qed.

Lemma build_vars_revision :
  value bv "CODEBUILD_RESOLVED_SOURCE_VERSION" = default "" rev.
Proof. unfold bv, value, build_vars. destruct rev; vm_compute; reflexivity. Qed.

Lemma build_vars_token :
  value bv "GITHUB_AUTH_TOKEN" = secret sv (SecretConfig.arn sc).
Proof. unfold bv, value, build_vars. destruct rev; vm_compute; reflexivity. Qed.

Lemma build_vars_ready : fit props sv rev = true → ready bv = true.
Proof.
  unfold fit, ready, set_plain, word_set.
  by rewrite build_vars_uri, build_vars_account, build_vars_region,
    build_vars_container, build_vars_src_dir, build_vars_revision.
Qed.

Lemma tagged_values :
  value (tagged bv) "REPOSITORY_URI" = repositoryUri (repository props)
  ∧ value (tagged bv) "CONTAINER_NAME" = containerName (container props)
  ∧ value (tagged bv) "CODEBUILD_SRC_DIR" = src_dir sv
  ∧ value (tagged bv) "IMAGE_TAG" = revision_tag (default "" rev).
Proof.
  unfold tagged. rewrite !value_insert_eq, !value_insert_ne by done.
  by rewrite build_vars_uri, build_vars_container, build_vars_src_dir,
    build_vars_revision.
Qed.

Lemma tagged_ready :
  fit props sv rev = true →
  set_plain (tagged bv) "REPOSITORY_URI" = true
  ∧ set_plain (tagged bv) "CODEBUILD_SRC_DIR" = true
  ∧ set_plain (tagged bv) "CONTAINER_NAME" = true
  ∧ set_plain (tagged bv) "IMAGE_TAG" = true.
Proof.
  intros Hfit. pose proof (build_vars_ready Hfit) as Hr.
  destruct (ready_facts _ Hr) as (Huri & _ & _ & Hcn & Hdir & Hrev).
  rewrite !tagged_set_plain by done. split_and!; try done.
  unfold set_plain. rewrite tagged_image_tag.
  destruct (revision_tag_plain _ Hrev) as (-> & ->). done.
Qed.

(** The text the build writes is the JSON text of one image definition. *)
Lemma image_definition_json :
  fit props sv rev = true →
  image_definition_text (tagged bv)
  = ImageDefinition.json (image_definitions props (revision_tag (default "" rev))).
Proof.
  intros Hfit. destruct (tagged_ready Hfit) as (Huri & _ & Hcn & Htag).
  destruct tagged_values as (Euri & Ecn & _ & Etag).
  unfold set_plain in *. rewrite Euri in Huri. rewrite Ecn in Hcn. rewrite Etag in Htag.
  apply andb_true_iff in Huri as [Huri%plain_chars _].
  apply andb_true_iff in Hcn as [Hcn%plain_chars _].
  apply andb_true_iff in Htag as [Htag%plain_chars _].
  unfold image_definition_text, ImageDefinition.json, image_definitions, image_ref,
    ImageDefinition.json_object, ImageDefinition.json_string.
  cbn [map join ImageDefinition.name ImageDefinition.imageUri].
  rewrite Euri, Ecn, Etag.
  rewrite (plain_escape _ Hcn).
  rewrite (plain_escape (_ +:+ ":" +:+ _))
    by (rewrite !all_chars_app, Huri, Htag; reflexivity).
  repeat (progress cbn || rewrite append_assoc). reflexivity.
Qed.
End BuildVars.

(** ** A build of the project *)

Section Build.
Import pipeline_stack Run.
Variable sv : Services.
Variable props : Props.
Variable sc : SecretConfig.t.
Variable gh : GithubConfig.t.
Variable rev : option string.
Hypothesis Hdated : dated (world sv).
Hypothesis Hfit : fit props sv rev = true.

Let p := built_project props sc gh.
Let bv := build_vars sv p rev.
Let text := image_definition_text (tagged bv).

Lemma phase_install : BuildSpec.phases getBuildSpec !! "install" = None.
Proof. vm_compute. reflexivity. Qed.

Lemma phase_pre_build :
  BuildSpec.phases getBuildSpec !! "pre_build" = Some pre_build_commands.
Proof. vm_compute. reflexivity. Qed.

Lemma phase_build :
  BuildSpec.phases getBuildSpec !! "build" = Some build_commands.
Proof. vm_compute. reflexivity. Qed.

Lemma phase_post_build :
  BuildSpec.phases getBuildSpec !! "post_build" = Some post_build_commands.
Proof. vm_compute. reflexivity. Qed.

Lemma run_build_spec (r : RunState) :
  ∃ ok r',
    run_build sv p pipelineActions_build rev r = Some (ok, r')
    ∧ handed r' = handed r
    ∧ (obliging (world sv) → ok = true)
    ∧ (ok = false →
         marks r' = marks r ++ [Started Build; Finished Build false]
         ∨ marks r' = marks r ++ [Started Build; Finished Build true;
                                  Started Push; Finished Push false])
    ∧ (ok = true →
         marks r' = marks r ++ [Started Build; Finished Build true;
                                Started Push; Finished Push true]
         ∧ store r' = <["BuildOutput" := Files (<[image_file := text]> ∅)]> (store r)
         ∧ ∃ st, build_shell r' = Some st
                 ∧ at_state (tagged bv) (<[image_file := text]> ∅)
                     (pre_build_programs bv ++ build_programs (tagged bv)
                      ++ post_build_programs (tagged bv)) st).
Proof.
  pose proof (build_vars_ready sv props sc gh rev Hfit) as Hready.
  destruct (tagged_ready sv props sc gh rev Hfit) as (Huri & Hdir & Hcn & Htag).
  fold p bv in Hready, Huri, Hdir, Hcn, Htag.
  unfold run_build.
  change (Project.buildSpec p) with getBuildSpec.
  cbn [run_phases]. unfold run_phase.
  rewrite phase_install, phase_pre_build, phase_build, phase_post_build.
  cbv beta iota delta [mbind option_bind].
  set (st0 := {| vars := build_vars sv p rev; files := ∅; log := [] |}).
  assert (Hat0 : at_state bv ∅ [] st0) by done.
  destruct (pre_build_runs (world sv) bv Hready ∅ [] st0 Hat0)
    as (ok1 & st1 & -> & HQ1 & Hob1).
  cbv beta iota delta [mbind option_bind].
  destruct ok1; [specialize (HQ1 eq_refl)|].
  2:{ eexists false, _. split_and!; [reflexivity|done|exact Hob1| |done].
      intros _. left. cbn. by rewrite <- !app_assoc. }
  destruct (build_runs (world sv) Hdated (tagged bv) Huri Hdir Htag ∅ _ st1 HQ1)
    as (ok2 & st2 & -> & HQ2 & Hob2).
  cbv beta iota delta [mbind option_bind].
  destruct ok2; [specialize (HQ2 eq_refl)|].
  2:{ eexists false, _. split_and!; [reflexivity|done|exact Hob2| |done].
      intros _. left. cbn. by rewrite <- !app_assoc. }
  destruct (post_build_runs (world sv) Hdated (tagged bv) Huri Hcn Htag ∅ _ st2 HQ2)
    as (ok3 & st3 & -> & HQ3 & Hob3).
  cbv beta iota delta [mbind option_bind].
  destruct ok3; [specialize (HQ3 eq_refl)|].
  2:{ eexists false, _. split_and!; [reflexivity|done|exact Hob3| |done].
      intros _. right. cbn. by rewrite <- !app_assoc. }
  destruct HQ3 as (Hv3 & Hf3 & Hs3).
  change (BuildSpec.artifacts_files getBuildSpec) with [image_file].
  cbn [collect]. rewrite Hf3.
  change "docker_image_definition.json" with image_file.
  rewrite lookup_insert_eq. cbv beta iota delta [mbind option_bind].
  eexists true, _. split_and!; [reflexivity|done|done|done|].
  intros _. split_and!.
  - cbn. by rewrite <- !app_assoc.
  - reflexivity.
  - exists st3. split; [reflexivity|]. split_and!; [done|done|].
    rewrite Hs3. cbn [List.app]. by rewrite <- !app_assoc.
Qed.
End Build.

(** ** A run of the pipeline of the stack *)

Section Runs.
Import pipeline_stack Run.
Variable sv : Services.
Variable props : Props.
Variable sc : SecretConfig.t.
Variable gh : GithubConfig.t.
Variable e : PushEvent.
Hypothesis Hdated : dated (world sv).
Hypothesis Hfit : ∀ rev, fetch sv e = Some rev → fit props sv rev = true.

Lemma run_pipeline_spec :
  ∃ ok r,
    run_pipeline (built props sc gh) "DeployPipeline" sv e = Some (ok, r)
    ∧ ((fetch sv e = None ∧ ok = false ∧ marks r = marks_upto Fetch false
        ∧ handed r = None)
       ∨ ∃ rev, fetch sv e = Some rev
           ∧ (obliging (world sv) → ∃ b, marks r = marks_upto Deploy b)
           ∧ ((ok = false ∧ marks r = marks_upto Build false ∧ handed r = None)
              ∨ (ok = false ∧ marks r = marks_upto Push false ∧ handed r = None)
              ∨ (let bv := build_vars sv (built_project props sc gh) rev in
                 let text := image_definition_text (tagged bv) in
                 marks r = marks_upto Deploy ok
                 ∧ ok = rollout sv (service props) text
                 ∧ handed r = Some (service props, text)
                 ∧ store r !! "BuildOutput" = Some (Files (<[image_file := text]> ∅))
                 ∧ ∃ st, build_shell r = Some st
                         ∧ at_state (tagged bv) (<[image_file := text]> ∅)
                             (pre_build_programs bv ++ build_programs (tagged bv)
                              ++ post_build_programs (tagged bv)) st))).
Proof.
  unfold run_pipeline.
  change (Stack.children (built props sc gh) !! "DeployPipeline")
    with (Some (DeployPipeline (pipeline props gh))).
  cbv beta iota.
  cbn [run_stages run_actions Pipeline.stages pipeline Stage.actions run_action].
  destruct (fetch sv e) as [rev|] eqn:Efetch.
  2:{ cbv beta iota delta [mbind option_bind]. eexists false, _.
      split; [reflexivity|]. left. done. }
  cbv beta iota delta [mbind option_bind].
  change (store _ !! Artifact.artifactName (CodeBuildAction.input pipelineActions_build))
    with (Some (Snapshot rev)).
  change (Stack.children (built props sc gh) !! CodeBuildAction.project pipelineActions_build)
    with (Some (BuildProject (built_project props sc gh))).
  cbv beta iota.
  match goal with |- context [run_build sv _ _ rev ?r0] =>
    destruct (run_build_spec sv props sc gh rev Hdated (Hfit rev eq_refl) r0)
      as (ok1 & r1 & -> & Hh1 & Hob1 & Hfail1 & Hok1) end.
  cbv beta iota.
  destruct ok1.
  2:{ eexists false, _. split; [reflexivity|]. right. exists rev.
      split; [done|]. split; [intros Ho; by specialize (Hob1 Ho)|].
      destruct (Hfail1 eq_refl) as [Hm|Hm]; [left | right; left];
        (split_and!; [done | by rewrite Hm | by rewrite Hh1]). }
  destruct (Hok1 eq_refl) as (Hm1 & Hst1 & st & Hsh1 & Hat1). clear Hfail1 Hok1.
  cbn [EcsDeployAction.imageFile pipelineActions_deploy ArtifactPath.artifact
       ArtifactPath.fileName artifacts_build Artifact.artifactName store mark].
  rewrite Hst1, lookup_insert_eq. cbv beta iota.
  change "docker_image_definition.json" with image_file.
  rewrite lookup_insert_eq.
  cbv beta iota delta [mbind option_bind].
  change (EcsDeployAction.service (pipelineActions_deploy props)) with (service props).
  destruct (rollout sv (service props) _) eqn:Eroll; cbv beta iota.
  all: eexists _, _; (split; [reflexivity|]); right; exists rev.
  all: split; [done|]; split;
    [intros _; eexists; cbn; rewrite Hm1; cbn; reflexivity|].
  all: right; right; cbv zeta; split_and!;
    [ cbn; rewrite Hm1; cbn; reflexivity
    | by rewrite Eroll
    | reflexivity
    | cbn; by rewrite Hst1, lookup_insert_eq
    | exists st; by split ].
Qed.
End Runs.

(** ** The entry point *)

Section Entry.
Import pipeline_stack infrastructure.
Variable ecr_repository : Environment.t → IRepository.
Variable vpc_vpc : Environment.t → IVpc.
Variable ecs_outputs : IVpc → IRepository → Environment.t → EcsOutputs.
Variable host : Host.
Variables owner account region : string.
Hypothesis Howner : host resolveCurrentUserOwnerName 0 = Some owner.
Hypothesis Haccount : host getAccountId 0 = Some account.
Hypothesis Hregion : host getRegion 0 = Some region.

Let env0 : Environment.t :=
  {| Environment.account := Some account; Environment.region := Some region |}.
Let ecs0 : EcsOutputs := ecs_outputs (vpc_vpc env0) (ecr_repository env0) env0.
Let props0 : Props :=
  {| pipeline_stack.env := Some env0;
     pipeline_stack.repository := ecr_repository env0;
     pipeline_stack.service := infrastructure.service ecs0;
     pipeline_stack.cluster := infrastructure.cluster ecs0;
     pipeline_stack.container := infrastructure.container ecs0 |}.

Lemma start_run :
  start ecr_repository vpc_vpc ecs_outputs host loaded
  = (Some tt,
     {| asked := [resolveCurrentUserOwnerName; getAccountId; getRegion];
        secretConfig_obj := secretConfig;
        githubConfig_obj := githubConfig;
        tags := <["owner" := owner]> ∅;
        app :=
          <["PipelineStack" := built props0 secretConfig githubConfig]>
            (<["Route53Stack" := {| Stack.env := Some env0; Stack.children := ∅ |}]>
               (<["ElasticContainerStack" :=
                    {| Stack.env := Some env0; Stack.children := ∅ |}]>
                  (<["VpcStack" := {| Stack.env := Some env0; Stack.children := ∅ |}]>
                     (<["EcrStack" :=
                          {| Stack.env := Some env0; Stack.children := ∅ |}]> ∅)))) |}).
Proof.
  unfold start, EcrStack, VpcStack, ElasticContainerStack, Route53Stack.
  unfold mbind, mret, Prog_bind, Prog_ret, bind, pure.
  unfold ask at 1. change (count_asked resolveCurrentUserOwnerName loaded) with 0.
  rewrite Howner.
  cbv beta iota delta [asked secretConfig_obj githubConfig_obj tags app loaded List.app].
  unfold ask at 1.
  match goal with |- context [count_asked getAccountId ?m] =>
    change (count_asked getAccountId m) with 0 end.
  rewrite Haccount.
  cbv beta iota delta [asked secretConfig_obj githubConfig_obj tags app List.app].
  unfold ask at 1.
  match goal with |- context [count_asked getRegion ?m] =>
    change (count_asked getRegion m) with 0 end.
  rewrite Hregion.
  cbv beta iota delta [asked secretConfig_obj githubConfig_obj tags app List.app
                       new_stack with_app add_tag].
  rewrite PipelineStack_run.
  cbv beta iota delta [asked secretConfig_obj githubConfig_obj tags app].
  reflexivity.
Qed.
End Entry.

(** ** A whole build *)

Section WholeBuild.
Import pipeline_stack Run Audit.
Variable sv : Services.
Variable props : Props.
Variable sc : SecretConfig.t.
Variable gh : GithubConfig.t.
Variable rev : option string.
Hypothesis Hfit : fit props sv rev = true.

Let p := built_project props sc gh.
Let bv := build_vars sv p rev.

Lemma run_commands_app (w : World) (a b : list line) (st : shell) :
  run_commands w (a ++ b) st
  = match run_commands w a st with
    | Some (true, st1) => run_commands w b st1
    | other => other
    end.
Proof.
  revert st. induction a as [|c a IH]; intros st; [done|].
  cbn [List.app run_commands]. destruct (run_top w c st) as [[[] st1]|]; cbn; [|done|done].
  apply IH.
Qed.

Lemma runs_app (w : World) (a b : list line) (st : shell) (P Q : shell → Prop) :
  runs w a st P → (∀ st1, P st1 → runs w b st1 Q) → runs w (a ++ b) st Q.
Proof.
  intros (ok1 & st1 & Hrun & HP & Hob) Hrest. unfold runs.
  rewrite run_commands_app, Hrun. destruct ok1.
  - apply Hrest, HP. reflexivity.
  - exists false, st1. split_and!; [done|done|exact Hob].
Qed.

Lemma pre_build_of_spec :
  phase_commands (Project.buildSpec p) "pre_build" = pre_build_commands.
Proof. vm_compute. reflexivity. Qed.

Lemma build_commands_of_spec :
  build_commands_of (Project.buildSpec p)
  = pre_build_commands ++ build_commands ++ post_build_commands.
Proof. vm_compute. reflexivity. Qed.

Lemma pre_build_of_project :
  runs (world sv) (phase_commands (Project.buildSpec p) "pre_build")
    (build_start sv p rev)
    (at_state (tagged bv) ∅ (pre_build_programs bv)).
Proof.
  rewrite pre_build_of_spec.
  apply (pre_build_runs (world sv) bv
           (build_vars_ready sv props sc gh rev Hfit) ∅ []).
  done.
Qed.

Hypothesis Hdated : dated (world sv).

Lemma whole_build_of_project :
  runs (world sv) (build_commands_of (Project.buildSpec p)) (build_start sv p rev)
    (at_state (tagged bv)
       (<[image_file := image_definition_text (tagged bv)]> ∅)
       (pre_build_programs bv ++ build_programs (tagged bv)
        ++ post_build_programs (tagged bv))).
Proof.
  destruct (tagged_ready sv props sc gh rev Hfit) as (Huri & Hdir & Hcn & Htag).
  rewrite build_commands_of_spec.
  eapply runs_app.
  { apply (pre_build_runs (world sv) bv
             (build_vars_ready sv props sc gh rev Hfit) ∅ []). done. }
  intros st1 Hat1. eapply runs_app.
  { apply (build_runs (world sv) Hdated (tagged bv) Huri Hdir Htag ∅ _ st1 Hat1). }
  intros st2 Hat2.
  pose proof (post_build_runs (world sv) Hdated (tagged bv) Huri Hcn Htag ∅ _ st2 Hat2)
    as H.
  by rewrite <- !app_assoc in H.
Qed.
End WholeBuild.

(** * The claims *)

Section Claims.
Import pipeline_stack Run Audit.

Lemma pushed_of_build (l : list event) (bv m : gmap string string) :
  spawned l = pre_build_programs bv ++ build_programs m ++ post_build_programs m →
  pushed l = [value m "REPOSITORY_URI" +:+ ":latest";
              value m "REPOSITORY_URI" +:+ ":" +:+ value m "IMAGE_TAG"].
Proof. unfold pushed. intros ->. reflexivity. Qed.

(** C1. For every revision identifier the build can be given (a plain word,
    as commit hashes are, or none), the [pre_build] phase of the project's
    build specification runs to its end whenever its programs succeed, and
    then the variable [IMAGE_TAG] holds the first seven characters of the
    revision identifier; for [abcdef1234567] it holds [abcdef1], and for an
    empty or unresolved revision identifier it holds [latest]. *)
Theorem pre_build_image_tag (props : Props) (sv : Services) (rev : option string) :
  fit props sv rev = true →
  ∃ stack p,
    constructed props = Some stack ∧ project_of stack = Some p
    ∧ ∃ ok st',
        run_commands (world sv) (phase_commands (Project.buildSpec p) "pre_build")
          (build_start sv p rev) = Some (ok, st')
        ∧ (obliging (world sv) → ok = true)
        ∧ (ok = true →
             (∀ r, rev = Some r → r ≠ "" →
                   value (vars st') "IMAGE_TAG" = String.substring 0 7 r)
             ∧ (rev = Some "abcdef1234567" → value (vars st') "IMAGE_TAG" = "abcdef1")
             ∧ (rev = Some "" ∨ rev = None → value (vars st') "IMAGE_TAG" = "latest")).
Proof.
  intros Hfit.
  exists (built props secretConfig githubConfig),
    (built_project props secretConfig githubConfig).
  split; [apply constructed_built|]. split; [reflexivity|].
  destruct (pre_build_of_project sv props secretConfig githubConfig rev Hfit)
    as (ok & st' & Hrun & HQ & Hob).
  exists ok, st'. split_and!; [exact Hrun | exact Hob |].
  intros Hok. destruct (HQ Hok) as (Hv & _ & _).
  rewrite Hv, tagged_image_tag, build_vars_revision.
  split_and!.
  - intros r -> Hr. cbn. unfold revision_tag. by rewrite is_empty_false.
  - by intros ->.
  - by intros [-> | ->].
Qed.

(** C4. For every build of the project that succeeds, the programs it
    starts push exactly two image references, in this order: the repository
    under the tag [latest], and the repository under the tag derived from
    the revision; the image pushed is the one built as [latest] and tagged
    with the revision tag.  A build succeeds whenever its programs do. *)
Theorem push_two_tags (props : Props) (sv : Services) (rev : option string) :
  dated (world sv) →
  fit props sv rev = true →
  ∃ stack p,
    constructed props = Some stack ∧ project_of stack = Some p
    ∧ ∃ ok st',
        run_commands (world sv) (build_commands_of (Project.buildSpec p))
          (build_start sv p rev) = Some (ok, st')
        ∧ (obliging (world sv) → ok = true)
        ∧ (ok = true →
             pushed (log st')
             = [image_ref props "latest";
                image_ref props (revision_tag (default "" rev))]
             ∧ In ["docker"; "tag"; image_ref props "latest";
                   image_ref props (revision_tag (default "" rev))]
                  (spawned (log st'))).
Proof.
  intros Hdated Hfit.
  exists (built props secretConfig githubConfig),
    (built_project props secretConfig githubConfig).
  split; [apply constructed_built|]. split; [reflexivity|].
  destruct (whole_build_of_project sv props secretConfig githubConfig rev Hfit Hdated)
    as (ok & st' & Hrun & HQ & Hob).
  exists ok, st'. split_and!; [exact Hrun | exact Hob |].
  intros Hok. destruct (HQ Hok) as (_ & _ & Hsp).
  destruct (tagged_values sv props secretConfig githubConfig rev)
    as (Euri & _ & _ & Etag).
  unfold image_ref. split.
  - rewrite (pushed_of_build _ _ _ Hsp). by rewrite Euri, Etag.
  - rewrite Hsp. unfold build_programs. rewrite Euri, Etag.
    apply in_or_app. right. apply in_or_app. left. cbn. auto.
Qed.

(** C2. The deploy action of the pipeline reads one file of the one output
    artifact of the build action, and that file is the only one the build
    specification declares as an artifact.  In every build of a pipeline
    run that succeeds, this file is the only file written, and it holds the
    JSON text of a one-element list whose element has the container name as
    [name] and the repository URI, a colon and the image tag as
    [imageUri]. *)
Theorem image_definition_contract (props : Props) (sv : Services)
    (rev : option string) :
  dated (world sv) →
  fit props sv rev = true →
  ∃ stack p pl b d,
    constructed props = Some stack ∧ project_of stack = Some p
    ∧ pipeline_of stack = Some pl
    ∧ build_actions pl = [b] ∧ deploy_actions pl = [d]
    ∧ CodeBuildAction.outputs b = [ArtifactPath.artifact (EcsDeployAction.imageFile d)]
    ∧ BuildSpec.artifacts_files (Project.buildSpec p)
      = [ArtifactPath.fileName (EcsDeployAction.imageFile d)]
    ∧ ∃ ok st',
        run_commands (world sv) (build_commands_of (Project.buildSpec p))
          (build_start sv p rev) = Some (ok, st')
        ∧ (obliging (world sv) → ok = true)
        ∧ (ok = true →
             files st'
             = {[ ArtifactPath.fileName (EcsDeployAction.imageFile d) :=
                    ImageDefinition.json
                      [ {| ImageDefinition.name := containerName (container props);
                           ImageDefinition.imageUri :=
                             repositoryUri (repository props) +:+ ":"
                             +:+ revision_tag (default "" rev) |} ] ]}).
Proof.
  intros Hdated Hfit.
  exists (built props secretConfig githubConfig),
    (built_project props secretConfig githubConfig),
    (pipeline props githubConfig), pipelineActions_build,
    (pipelineActions_deploy props).
  split; [apply constructed_built|]. do 6 (split; [reflexivity|]).
  destruct (whole_build_of_project sv props secretConfig githubConfig rev Hfit Hdated)
    as (ok & st' & Hrun & HQ & Hob).
  exists ok, st'. split_and!; [exact Hrun | exact Hob |].
  intros Hok. destruct (HQ Hok) as (_ & Hf & _).
  rewrite Hf, (image_definition_json sv props secretConfig githubConfig rev Hfit).
  by rewrite insert_empty.
Qed.

(** C5. A push event starts a run of the pipeline if and only if its branch
    is the branch of the source action, which is [master]; the webhook of
    the build project lets a push event through under the same condition. *)
Theorem push_on_branch (props : Props) :
  ∃ stack p pl,
    constructed props = Some stack ∧ project_of stack = Some p
    ∧ pipeline_of stack = Some pl
    ∧ ∀ e : PushEvent,
        (triggered pl e = true ↔ branch e = "master")
        ∧ (webhook_builds (Project.source p) e = true ↔ branch e = "master").
Proof.
  exists (built props secretConfig githubConfig),
    (built_project props secretConfig githubConfig), (pipeline props githubConfig).
  split; [apply constructed_built|]. do 2 (split; [reflexivity|]).
  intros e. split.
  - cbn. rewrite orb_false_r. apply String.eqb_eq.
  - cbn. rewrite orb_false_r, andb_true_r. apply String.eqb_eq.
Qed.

(** C6. The access token of the build project's source credentials and the
    OAuth token of the pipeline's source action are secrets of the secret
    store given by name, the variable [GITHUB_AUTH_TOKEN] of the build is of
    the secret-store type and holds an ARN, every secret value in the stack
    is a reference, and the variables given as plain text are the repository
    URI, the account, the region and the container name. *)
Theorem credentials_by_reference (props : Props) :
  ∃ stack c p pl a v,
    constructed props = Some stack ∧ credentials_of stack = Some c
    ∧ project_of stack = Some p ∧ pipeline_of stack = Some pl
    ∧ source_actions pl = [a]
    ∧ GitHubSourceCredentials.accessToken c = SecretValue.secretsManager "github/token"
    ∧ Project.environmentVariables p !! "GITHUB_AUTH_TOKEN" = Some v
    ∧ BuildEnvironmentVariable.type v = Some SECRETS_MANAGER
    ∧ BuildEnvironmentVariable.value v
      = "arn:aws:secretsmanager:eu-central-1:123456789012:secret:github/token"
    ∧ GitHubSourceAction.oauthToken a = SecretValue.secretsManager "github/cdk-pipeline"
    ∧ forallb is_reference (secret_values stack) = true
    ∧ plaintext_names p
      = {[ "REPOSITORY_URI"; "AWS_ACCOUNT_ID"; "AWS_STACK_REGION"; "CONTAINER_NAME" ]}
    ∧ BuildEnvironmentVariable.value <$> Project.environmentVariables p !! "REPOSITORY_URI"
      = Some (repositoryUri (repository props))
    ∧ BuildEnvironmentVariable.value <$> Project.environmentVariables p !! "AWS_ACCOUNT_ID"
      = Some (account_of props)
    ∧ BuildEnvironmentVariable.value <$> Project.environmentVariables p !! "AWS_STACK_REGION"
      = Some (region_of props)
    ∧ BuildEnvironmentVariable.value <$> Project.environmentVariables p !! "CONTAINER_NAME"
      = Some (containerName (container props)).
Proof.
  exists (built props secretConfig githubConfig), (credentials secretConfig),
    (built_project props secretConfig githubConfig), (pipeline props githubConfig),
    (pipelineActions_source githubConfig),
    {| BuildEnvironmentVariable.type := Some SECRETS_MANAGER;
       BuildEnvironmentVariable.value := SecretConfig.arn secretConfig |}.
  split; [apply constructed_built|].
  split_and!; try reflexivity; vm_compute; reflexivity.
Qed.

(** C8. The one statement added to the policy of the build project's role
    allows the action [secretsmanager:GetSecretValue] on one resource, the
    ARN that the variable [GITHUB_AUTH_TOKEN] of the build holds, which is
    [secretConfig.arn]. *)
Theorem policy_on_token_secret (props : Props) :
  ∃ stack p v,
    constructed props = Some stack ∧ project_of stack = Some p
    ∧ Project.environmentVariables p !! "GITHUB_AUTH_TOKEN" = Some v
    ∧ BuildEnvironmentVariable.type v = Some SECRETS_MANAGER
    ∧ BuildEnvironmentVariable.value v = SecretConfig.arn secretConfig
    ∧ Project.rolePolicy p
      = [ {| PolicyStatement.actions := ["secretsmanager:GetSecretValue"];
             PolicyStatement.resources := [BuildEnvironmentVariable.value v] |} ].
Proof.
  exists (built props secretConfig githubConfig),
    (built_project props secretConfig githubConfig),
    {| BuildEnvironmentVariable.type := Some SECRETS_MANAGER;
       BuildEnvironmentVariable.value := SecretConfig.arn secretConfig |}.
  split; [apply constructed_built|].
  split_and!; try reflexivity; vm_compute; reflexivity.
Qed.

(** C9. The one file the commands of the build specification redirect
    output to, written in the [post_build] phase, the one file in the
    artifacts of the build specification, and the file of the path the
    deploy action reads its image definitions from are all named
    [docker_image_definition.json]. *)
Theorem one_file_name (props : Props) :
  ∃ stack p pl d,
    constructed props = Some stack ∧ project_of stack = Some p
    ∧ pipeline_of stack = Some pl ∧ deploy_actions pl = [d]
    ∧ redirect_targets (phase_commands (Project.buildSpec p) "post_build")
      = ["docker_image_definition.json"]
    ∧ redirect_targets (build_commands_of (Project.buildSpec p))
      = ["docker_image_definition.json"]
    ∧ BuildSpec.artifacts_files (Project.buildSpec p) = ["docker_image_definition.json"]
    ∧ ArtifactPath.fileName (EcsDeployAction.imageFile d)
      = "docker_image_definition.json".
Proof.
  exists (built props secretConfig githubConfig),
    (built_project props secretConfig githubConfig), (pipeline props githubConfig),
    (pipelineActions_deploy props).
  split; [apply constructed_built|].
  split_and!; try reflexivity; vm_compute; reflexivity.
Qed.

(** C10. The source of the build project and the source action of the
    pipeline have the owner, the repository and the branch of
    [githubConfig], the branch of the project's source being that of its
    webhook filter; the project's source credentials and the source action
    name two different secrets, [github/token] and [github/cdk-pipeline]. *)
Theorem same_repository_two_secrets (props : Props) :
  ∃ stack c p pl a,
    constructed props = Some stack ∧ credentials_of stack = Some c
    ∧ project_of stack = Some p ∧ pipeline_of stack = Some pl
    ∧ source_actions pl = [a]
    ∧ Source.owner (Project.source p) = GithubConfig.owner githubConfig
    ∧ GitHubSourceAction.owner a = GithubConfig.owner githubConfig
    ∧ Source.repo (Project.source p) = GithubConfig.repo githubConfig
    ∧ GitHubSourceAction.repo a = GithubConfig.repo githubConfig
    ∧ Source.webhookFilters (Project.source p)
      = [FilterGroup.andBranchIs (GithubConfig.branch githubConfig)
           (FilterGroup.inEventOf PUSH)]
    ∧ GitHubSourceAction.branch a = GithubConfig.branch githubConfig
    ∧ GitHubSourceCredentials.accessToken c = SecretValue.secretsManager "github/token"
    ∧ GitHubSourceAction.oauthToken a = SecretValue.secretsManager "github/cdk-pipeline"
    ∧ GitHubSourceCredentials.accessToken c ≠ GitHubSourceAction.oauthToken a.
Proof.
  exists (built props secretConfig githubConfig), (credentials secretConfig),
    (built_project props secretConfig githubConfig), (pipeline props githubConfig),
    (pipelineActions_source githubConfig).
  split; [apply constructed_built|].
  split_and!; try reflexivity. discriminate.
Qed.

(** C7. When the host answers, [start] asks it for the owner, the account
    and the region once each, and ends with the two objects of
    [pipeline.stack.ts] in the memory as they were loaded.  Every stack of
    the app has the account and the region of these answers as its
    environment; the build project holds them, and the container name, in
    its variables; the source of the project and the source action of the
    pipeline hold the owner, repository and branch of [githubConfig]. *)
Theorem settings_read_once
    (ecr_repository : Environment.t → IRepository)
    (vpc_vpc : Environment.t → infrastructure.IVpc)
    (ecs_outputs : infrastructure.IVpc → IRepository → Environment.t
                   → infrastructure.EcsOutputs)
    (host : Host) (owner account region : string) :
  host resolveCurrentUserOwnerName 0 = Some owner →
  host getAccountId 0 = Some account →
  host getRegion 0 = Some region →
  let env := {| Environment.account := Some account;
                Environment.region := Some region |} in
  let ecs := ecs_outputs (vpc_vpc env) (ecr_repository env) env in
  ∃ m stack p pl a,
    infrastructure.start ecr_repository vpc_vpc ecs_outputs host loaded = (Some tt, m)
    ∧ asked m = [resolveCurrentUserOwnerName; getAccountId; getRegion]
    ∧ (∀ q, count_asked q m = 1)
    ∧ secretConfig_obj m = secretConfig ∧ githubConfig_obj m = githubConfig
    ∧ tags m !! "owner" = Some owner
    ∧ (∀ id s, app m !! id = Some s → Stack.env s = Some env)
    ∧ app m !! "PipelineStack" = Some stack
    ∧ project_of stack = Some p ∧ pipeline_of stack = Some pl
    ∧ source_actions pl = [a]
    ∧ BuildEnvironmentVariable.value <$> Project.environmentVariables p !! "AWS_ACCOUNT_ID"
      = Some account
    ∧ BuildEnvironmentVariable.value <$> Project.environmentVariables p !! "AWS_STACK_REGION"
      = Some region
    ∧ BuildEnvironmentVariable.value <$> Project.environmentVariables p !! "CONTAINER_NAME"
      = Some (containerName (infrastructure.container ecs))
    ∧ Source.owner (Project.source p) = "exanubes"
    ∧ Source.repo (Project.source p) = "ecs-fargate-ci-cd-pipeline"
    ∧ Source.webhookFilters (Project.source p)
      = [FilterGroup.andBranchIs "master" (FilterGroup.inEventOf PUSH)]
    ∧ GitHubSourceAction.owner a = "exanubes"
    ∧ GitHubSourceAction.repo a = "ecs-fargate-ci-cd-pipeline"
    ∧ GitHubSourceAction.branch a = "master".
Proof.
  intros Howner Haccount Hregion env ecs.
  pose proof (start_run ecr_repository vpc_vpc ecs_outputs host owner account region
                Howner Haccount Hregion) as Hrun.
  cbv zeta in Hrun. fold env in Hrun. fold ecs in Hrun.
  eexists _, _, _, _, _. split; [exact Hrun|].
  cbn [asked secretConfig_obj githubConfig_obj tags app].
  split; [reflexivity|]. split; [by intros []|].
  do 2 (split; [reflexivity|]).
  split; [by rewrite lookup_insert_eq|].
  split.
  { intros id s H.
    repeat (apply lookup_insert_Some in H as [[_ <-]|[_ H]]; [reflexivity|]).
    by rewrite lookup_empty in H. }
  split; [by rewrite lookup_insert_eq|].
  split_and!; try reflexivity; vm_compute; reflexivity.
Qed.
End Claims.

(** * The claims at an instance *)

Section Witnesses.
Import pipeline_stack Run Audit.

Lemma pre_build_image_tag_witness :
  fit Example.props Example.services (Some "abcdef1234567") = true
  ∧ ∃ stack p,
      constructed Example.props = Some stack ∧ project_of stack = Some p
      ∧ ∃ ok st',
          run_commands (world Example.services)
            (phase_commands (Project.buildSpec p) "pre_build")
            (build_start Example.services p (Some "abcdef1234567")) = Some (ok, st')
          ∧ (obliging (world Example.services) → ok = true)
          ∧ (ok = true →
               (∀ r, Some "abcdef1234567" = Some r → r ≠ "" →
                     value (vars st') "IMAGE_TAG" = String.substring 0 7 r)
               ∧ (Some "abcdef1234567" = Some "abcdef1234567" →
                  value (vars st') "IMAGE_TAG" = "abcdef1")
               ∧ (Some "abcdef1234567" = Some "" ∨ Some "abcdef1234567" = None →
                  value (vars st') "IMAGE_TAG" = "latest")).
Proof.
  split; [reflexivity|].
  apply (pre_build_image_tag Example.props Example.services (Some "abcdef1234567")).
  reflexivity.
Defined.

Lemma push_two_tags_witness :
  fit Example.props Example.services (Some "abcdef1234567") = true
  ∧ ∃ stack p,
      constructed Example.props = Some stack ∧ project_of stack = Some p
      ∧ ∃ ok st',
          run_commands (world Example.services)
            (build_commands_of (Project.buildSpec p))
            (build_start Example.services p (Some "abcdef1234567")) = Some (ok, st')
          ∧ (obliging (world Example.services) → ok = true)
          ∧ (ok = true →
               pushed (log st')
               = [image_ref Example.props "latest";
                  image_ref Example.props
                    (revision_tag (default "" (Some "abcdef1234567")))]
               ∧ In ["docker"; "tag"; image_ref Example.props "latest";
                     image_ref Example.props
                       (revision_tag (default "" (Some "abcdef1234567")))]
                    (spawned (log st'))).
Proof.
  split; [reflexivity|].
  apply (push_two_tags Example.props Example.services (Some "abcdef1234567")).
  - intros l stdin. reflexivity.
  - reflexivity.
Defined.

Lemma image_definition_contract_witness :
  fit Example.props Example.services (Some "abcdef1234567") = true
  ∧ ∃ stack p pl b d,
      constructed Example.props = Some stack ∧ project_of stack = Some p
      ∧ pipeline_of stack = Some pl
      ∧ build_actions pl = [b] ∧ deploy_actions pl = [d]
      ∧ CodeBuildAction.outputs b = [ArtifactPath.artifact (EcsDeployAction.imageFile d)]
      ∧ BuildSpec.artifacts_files (Project.buildSpec p)
        = [ArtifactPath.fileName (EcsDeployAction.imageFile d)]
      ∧ ∃ ok st',
          run_commands (world Example.services)
            (build_commands_of (Project.buildSpec p))
            (build_start Example.services p (Some "abcdef1234567")) = Some (ok, st')
          ∧ (obliging (world Example.services) → ok = true)
          ∧ (ok = true →
               files st'
               = {[ ArtifactPath.fileName (EcsDeployAction.imageFile d) :=
                      ImageDefinition.json
                        [ {| ImageDefinition.name :=
                               containerName (container Example.props);
                             ImageDefinition.imageUri :=
                               repositoryUri (repository Example.props) +:+ ":"
                               +:+ revision_tag (default "" (Some "abcdef1234567")) |} ] ]}).
Proof.
  split; [reflexivity|].
  apply (image_definition_contract Example.props Example.services
           (Some "abcdef1234567")).
  - intros l stdin. reflexivity.
  - reflexivity.
Defined.

Lemma settings_read_once_witness :
  let env := Example.env in
  let ecs := Example.ecs_outputs (Example.vpc_vpc env) (Example.ecr_repository env) env in
  ∃ m stack p pl a,
    infrastructure.start Example.ecr_repository Example.vpc_vpc Example.ecs_outputs
      Example.host loaded = (Some tt, m)
    ∧ asked m = [resolveCurrentUserOwnerName; getAccountId; getRegion]
    ∧ (∀ q, count_asked q m = 1)
    ∧ secretConfig_obj m = secretConfig ∧ githubConfig_obj m = githubConfig
    ∧ tags m !! "owner" = Some "exanubes"
    ∧ (∀ id s, app m !! id = Some s → Stack.env s = Some env)
    ∧ app m !! "PipelineStack" = Some stack
    ∧ project_of stack = Some p ∧ pipeline_of stack = Some pl
    ∧ source_actions pl = [a]
    ∧ BuildEnvironmentVariable.value <$> Project.environmentVariables p !! "AWS_ACCOUNT_ID"
      = Some "123456789012"
    ∧ BuildEnvironmentVariable.value <$> Project.environmentVariables p !! "AWS_STACK_REGION"
      = Some "eu-central-1"
    ∧ BuildEnvironmentVariable.value <$> Project.environmentVariables p !! "CONTAINER_NAME"
      = Some (containerName (infrastructure.container ecs))
    ∧ Source.owner (Project.source p) = "exanubes"
    ∧ Source.repo (Project.source p) = "ecs-fargate-ci-cd-pipeline"
    ∧ Source.webhookFilters (Project.source p)
      = [FilterGroup.andBranchIs "master" (FilterGroup.inEventOf PUSH)]
    ∧ GitHubSourceAction.owner a = "exanubes"
    ∧ GitHubSourceAction.repo a = "ecs-fargate-ci-cd-pipeline"
    ∧ GitHubSourceAction.branch a = "master".
Proof.
  apply (settings_read_once Example.ecr_repository Example.vpc_vpc Example.ecs_outputs
           Example.host "exanubes" "123456789012" "eu-central-1");
    reflexivity.
Defined.

(** The run of the pipeline at the instance, computed. *)
Example example_run :
  (s ← constructed Example.props;
   '(ok, r) ← run_pipeline s "DeployPipeline" Example.services Example.push;
   Some (ok, marks r, handed r))
  = Some (true, marks_upto Deploy true,
          Some (service Example.props,
                ImageDefinition.json (image_definitions Example.props "abcdef1"))).
Proof. vm_compute. reflexivity. Qed.

(** A push to another branch does not start a run. *)
Example example_other_branch :
  (pl ← constructed Example.props ≫= pipeline_of;
   Some (triggered pl {| branch := "develop"; revisionId := "abcdef1234567" |}))
  = Some false.
Proof. vm_compute. reflexivity. Qed.
(** When [docker build] fails the run stops in the build step: nothing is
    pushed and nothing is handed to the deploy step. *)
Example example_failed_build :
  (s ← constructed Example.props;
   '(ok, r) ← run_pipeline s "DeployPipeline" Example.no_build Example.push;
   Some (ok, marks r, handed r, pushed <$> (log <$> build_shell r)))
  = Some (false, marks_upto Build false, None, Some []).
Proof. vm_compute. reflexivity. Qed.

(** When the host does not tell the account, the program exits with status 1
    after two questions and with no stack made. *)
Example example_no_account :
  (let '(status, m) :=
     infrastructure.main Example.ecr_repository Example.vpc_vpc Example.ecs_outputs
       Example.no_account loaded in
   (status, asked m, map_to_list (app m)))
  = (Some 1, [resolveCurrentUserOwnerName; getAccountId], []).
Proof. vm_compute. reflexivity. Qed.
End Witnesses.

(** * Beyond the claims *)

(** ** How a command ends, whatever its programs do *)

Section Outcomes.
Import Outcome.
Variable w : World.

Lemma ends_nil (st : shell) (I Q : shell → Prop) : Q st → ends w [] st I Q.
Proof. intros H. by exists true, st. Qed.

Lemma ends_pass (c : line) (cs : list line) (st : shell) (P I Q : shell → Prop) :
  passes w c st P → (∀ st1, P st1 → ends w cs st1 I Q) → ends w (c :: cs) st I Q.
Proof.
  intros (st1 & Hrun & HP) Hrest. unfold ends. cbn [run_commands].
  rewrite Hrun. cbn. by apply Hrest.
Qed.

Lemma ends_land (c : line) (cs : list line) (st : shell) (P I Q : shell → Prop)
    (argv : list string) :
  lands w c st P argv →
  (∀ st1, P st1 → called_badly w argv → I st1) →
  (∀ st1, P st1 → called_well w argv → ends w cs st1 I Q) →
  ends w (c :: cs) st I Q.
Proof.
  intros (ok & st1 & Hrun & HP & Hcall) Hbad Hrest. unfold ends. cbn [run_commands].
  rewrite Hrun. cbn. destruct ok.
  - by apply Hrest.
  - exists false, st1. split; [done|]. by apply Hbad.
Qed.

(** [echo] with quiet words succeeds. *)
Lemma pass_echo (vs fs : gmap string string) (sp : list (list string))
    (ws : list line_word) (args : list string) (st : shell) :
  at_state vs fs sp st →
  quiet_words vs ws = true →
  flat_map (word_fields vs) ws = "echo" :: args →
  echo_plain args = true →
  passes w (Exec ws None) st (at_state vs fs sp).
Proof.
  intros Hat Hq Hargv Hdash. pose proof Hat as (Hv & _).
  eexists. split.
  - unfold run_top, run_line. rewrite run_exec_quiet by by rewrite Hv.
    rewrite Hv, Hargv, run_program_echo by done. cbn. reflexivity.
  - by apply at_state_output.
Qed.

(** A program of the world with quiet words: its exit status is that of
    the command. *)
Lemma land_program (vs fs : gmap string string) (sp : list (list string))
    (ws : list line_word) (prog : string) (args : list string) (st : shell) :
  at_state vs fs sp st →
  quiet_words vs ws = true →
  flat_map (word_fields vs) ws = prog :: args →
  is_builtin prog = false →
  lands w (Exec ws None) st (at_state vs fs (sp ++ [prog :: args])) (prog :: args).
Proof.
  intros Hat Hq Hargv Hb. pose proof Hat as (Hv & _).
  exists (fst (program w (log st) (prog :: args) "")). eexists. split_and!.
  - unfold run_top, run_line. rewrite run_exec_quiet by by rewrite Hv.
    rewrite Hv, Hargv, run_program_world by done. cbn. reflexivity.
  - by apply at_state_output, at_state_spawn.
  - destruct (fst (program w (log st) (prog :: args) "")) eqn:E;
      by exists (log st), "".
Qed.

(** A pipe of two programs of the world with quiet words: its exit status is
    that of the program on the right. *)
Lemma land_pipe (vs fs : gmap string string) (sp : list (list string))
    (ws1 ws2 : list line_word) (prog1 prog2 : string) (args1 args2 : list string)
    (st : shell) :
  at_state vs fs sp st →
  quiet_words vs ws1 = true → quiet_words vs ws2 = true →
  flat_map (word_fields vs) ws1 = prog1 :: args1 →
  flat_map (word_fields vs) ws2 = prog2 :: args2 →
  is_builtin prog1 = false → is_builtin prog2 = false →
  lands w (Pipe (Exec ws1 None) (Exec ws2 None)) st
    (at_state vs fs (sp ++ [prog1 :: args1; prog2 :: args2])) (prog2 :: args2).
Proof.
  intros Hat Hq1 Hq2 Ha1 Ha2 Hb1 Hb2. pose proof Hat as (Hv & _).
  set (out1 := snd (program w (log st) (prog1 :: args1) "")).
  set (l1 := log st ++ [Spawn (prog1 :: args1)]).
  exists (fst (program w l1 (prog2 :: args2) out1)). eexists. split_and!.
  - unfold run_top, run_line. cbn [run_command].
    rewrite argv_quiet by by rewrite Hv.
    cbn [mbind option_bind]. rewrite Hv, Ha1, run_program_world by done.
    cbn [mbind option_bind]. rewrite argv_quiet by (cbn; by rewrite Hv).
    cbn [mbind option_bind vars subshell]. rewrite Hv, Ha2, run_program_world by done.
    cbn. reflexivity.
  - apply at_state_output.
    replace (sp ++ [prog1 :: args1; prog2 :: args2])
      with ((sp ++ [prog1 :: args1]) ++ [prog2 :: args2])
      by (by rewrite <- app_assoc).
    destruct Hat as (? & ? & ?). split_and!; [done|done|].
    cbn. rewrite !spawned_app. cbn. by f_equal; f_equal.
  - destruct (fst (program w l1 (prog2 :: args2) out1)) eqn:E;
      by exists l1, out1.
Qed.

(** [echo] with quiet words and, last, the output of [date]: it succeeds
    whatever the exit status of [date]. *)
Lemma pass_echo_date (vs fs : gmap string string) (sp : list (list string))
    (ws : list line_word) (a : string) (args : list string) (st : shell) :
  dated w →
  at_state vs fs sp st →
  quiet_words vs ws = true →
  flat_map (word_fields vs) ws = "echo" :: a :: args →
  starts_with "-"%char a = false →
  passes w (Exec (ws ++ [[Tick (pipeline_stack.plain_cmd ["date"])]]) None) st
    (at_state vs fs (sp ++ [["date"]])).
Proof.
  intros Hd Hat Hq Hargv Hdash. pose proof Hat as (Hv & _).
  assert (Hargs : ∀ ws' : list line_word, ∀ st0 r,
    quiet_words (vars st0) ws' = true →
    argv_of (run_inner w) (ws' ++ [[Tick (pipeline_stack.plain_cmd ["date"])]]) st0 = r →
    ∃ fs', r = Some (flat_map (word_fields (vars st0)) ws' ++ fs',
                     emit (Spawn ["date"]) st0)).
  { induction ws' as [|wd ws' IH]; intros st0 r Hq0 <-.
    - rewrite app_nil_l. cbn [argv_of expand_word expand_part].
      unfold run_inner at 1, pipeline_stack.plain_cmd.
      rewrite run_exec_quiet by done.
      cbn [flat_map map word_fields pipeline_stack.lit existsb solid negb orb
           andb word_text unsplit quiet_piece piece_text Chars.concat List.app].
      rewrite run_program_world by done. cbn [mbind option_bind fields fields_from].
      rewrite all_chars_has_glob_chomp by apply Hd.
      destruct (split_exp _ _ _) as [d c]. cbn. eexists. reflexivity.
    - cbn [quiet_words forallb] in Hq0. apply andb_true_iff in Hq0 as [Hw Hws].
      rewrite <- app_comm_cons. cbn [argv_of flat_map].
      rewrite (expand_quiet _ _ _ Hw). cbn [mbind option_bind].
      rewrite (fields_quiet _ _ Hw). cbn [mbind option_bind].
      destruct (IH st0 _ Hws eq_refl) as (fs' & ->). cbn.
      exists fs'. by rewrite app_assoc. }
  destruct (Hargs ws st _ ltac:(by rewrite Hv) eq_refl) as (fs' & Hrun).
  eexists. split.
  - unfold run_top, run_line. cbn [run_command]. rewrite Hrun. cbn [mbind option_bind].
    rewrite Hv, Hargv. cbn [List.app]. rewrite run_program_echo by (cbn; by rewrite Hdash).
    cbn. reflexivity.
  - by apply at_state_output, at_state_spawn.
Qed.

(** The assignment of the first seven characters of a variable succeeds. *)
Lemma pass_cut (vs fs : gmap string string) (sp : list (list string))
    (x v : string) (st : shell) :
  at_state vs fs sp st →
  plain (value vs v) = true →
  passes w
    (Assign x
       [Subst (Pipe (Exec [pipeline_stack.lit "echo"; [Var v]] None)
                    (pipeline_stack.plain_cmd ["cut"; "-c"; "1-7"]))])
    st
    (at_state (<[x := String.substring 0 7 (value vs v)]> vs) fs sp).
Proof.
  intros (Hv & Hf & Hs) Hp.
  eexists. split.
  - unfold run_top, run_line. cbn [run_command expand_word expand_part].
    unfold run_inner at 1. cbn [run_command].
    rewrite argv_quiet
      by (cbn; rewrite Hv; by rewrite (plain_tame _ Hp)).
    unfold word_fields, word_text, unsplit.
    cbn [mbind option_bind flat_map map quiet_piece
         piece_text pipeline_stack.lit existsb solid negb orb andb Chars.concat
         List.app is_empty].
    rewrite app_nil_r, Hv, echo_one by by apply plain_no_dash.
    cbn [mbind option_bind]. unfold pipeline_stack.plain_cmd.
    cbn [run_command]. rewrite argv_quiet by done.
    unfold word_fields, word_text, unsplit.
    cbn [mbind option_bind flat_map map quiet_piece
         piece_text pipeline_stack.lit existsb solid negb orb andb Chars.concat
         List.app is_empty run_program String.eqb Ascii.eqb Bool.eqb].
    rewrite cut_1_7 by by apply plain_one_line.
    cbn [mbind option_bind].
    rewrite chomp_line
      by (apply all_chars_substring; by apply plain_one_line).
    cbn. reflexivity.
  - split_and!; cbn; by rewrite ?Hv, ?Hf, ?Hs.
Qed.

(** The assignment of a variable, or of a default that the variable then
    takes as well, succeeds. *)
Lemma pass_default (vs fs : gmap string string) (sp : list (list string))
    (x v d : string) (st : shell) :
  at_state vs fs sp st →
  passes w (Assign x [VarDefault v d]) st
    (at_state (if is_empty (value vs v) then <[x := d]> (<[v := d]> vs)
               else <[x := value vs v]> vs) fs sp).
Proof.
  intros (Hv & Hf & Hs).
  unfold passes, run_top, run_line. cbn [run_command expand_word expand_part].
  rewrite Hv. destruct (is_empty (value vs v)); cbn.
  - eexists. split; [reflexivity|]. split_and!; cbn; by rewrite ?Hv, ?Hf, ?Hs.
  - eexists. split; [reflexivity|]. split_and!; cbn; by rewrite ?Hv, ?Hf, ?Hs.
Qed.

(** [printf] of one quoted word into a file succeeds. *)
Lemma pass_printf (vs fs : gmap string string) (sp : list (list string))
    (q : list qpart) (file : string) (st : shell) :
  at_state vs fs sp st →
  has_char is_meta file = false →
  starts_with "-"%char (Chars.concat (map (expand_qpart vs) q)) = false →
  has_char (λ c, Ascii.eqb c "%"%char || Ascii.eqb c backslash)
    (Chars.concat (map (expand_qpart vs) q)) = false →
  passes w (Exec [pipeline_stack.lit "printf"; [DQuote q]]
                 (Some (pipeline_stack.lit file))) st
    (at_state vs (<[file := Chars.concat (map (expand_qpart vs) q)]> fs) sp).
Proof.
  intros (Hv & Hf & Hs) Hfile Hdash Hfmt.
  eexists. split.
  - unfold run_top, run_line. cbn [run_command].
    rewrite argv_quiet by done.
    unfold word_fields, word_text, unsplit, fields.
    cbn [mbind option_bind flat_map map quiet_piece
         piece_text pipeline_stack.lit existsb solid negb orb andb Chars.concat
         List.app is_empty expand_word expand_part fields_from].
    rewrite Hfile. cbn [default String.append rev push_field List.app mbind option_bind
                        run_program String.eqb Ascii.eqb Bool.eqb].
    rewrite Hv, Hdash, Hfmt. cbn. reflexivity.
  - split_and!; cbn; by rewrite ?Hv, ?Hf, ?Hs.
Qed.

(** A phase that stopped did so at a program that counts and fails in some
    call, so it cannot have stopped when all of them always succeed. *)
Lemma halted_sound (vs fs : gmap string string) (sp progs : list (list string))
    (st : shell) :
  halted w vs fs sp progs st →
  Forall (sound w) (decisive progs) → False.
Proof.
  intros (started & argv & [rest Hpre] & _ & Hign & (l & i & Hbad) & _) Hall.
  rewrite Forall_forall in Hall.
  assert (Hin : argv ∈ decisive progs).
  { unfold decisive. apply list_elem_of_In, filter_In. split.
    - rewrite Hpre. apply in_or_app. left. apply in_or_app. right. by left.
    - by rewrite Hign. }
  specialize (Hall _ Hin l i). congruence.
Qed.

End Outcomes.

(** ** How the three phases end, whatever their programs do *)

Section PhaseOutcomes.
Import pipeline_stack Outcome.
Variable w : World.

Ltac argv_unfold :=
  unfold plain_cmd, word_fields, word_text, unsplit;
  cbn [flat_map map quiet_piece piece_text lit existsb solid negb orb andb
       Chars.concat List.app is_empty expand_qpart].

Ltac flatten H := rewrite <- ?app_assoc in H; cbn [List.app] in H.

Lemma pre_build_ends (vs fs : gmap string string) (sp : list (list string))
    (st : shell) :
  ready vs = true →
  at_state vs fs sp st →
  ends w pre_build_commands st
    (halted w vs fs sp (pre_build_programs vs))
    (completed w (tagged vs) fs sp (pre_build_programs vs)).
Proof.
  intros Hready Hat.
  destruct (ready_facts vs Hready) as (Huri & Hacc & Hreg & Hcn & Hdir & Hrev).
  destruct (set_plain_facts _ _ Hreg) as (Treg & Ereg & Dreg & _).
  destruct (set_plain_facts _ _ Hacc) as (Tacc & Eacc & Dacc & _).
  destruct (set_plain_facts _ _ Hcn) as (Tcn & Ecn & Dcn & _).
  unfold pre_build_commands.
  eapply ends_pass.
  { eapply (pass_echo w vs fs sp); [exact Hat | done | reflexivity | done]. }
  intros st1 Hat1. eapply ends_land.
  { eapply (land_program w vs fs sp); [exact Hat1 | done | reflexivity | done]. }
  { intros st2 Hat2 Hbad. exists [], ["aws"; "--version"].
    split_and!; [by eexists | exact Hat2 | done | exact Hbad | constructor]. }
  intros st2 Hat2 Hversion. eapply ends_pass.
  { eapply (pass_echo w vs); [exact Hat2 | | | ].
    - unfold quiet_words. cbn. by rewrite Treg.
    - argv_unfold. rewrite Ereg. reflexivity.
    - cbn. by rewrite Dreg. }
  intros st3 Hat3. eapply ends_pass.
  { eapply (pass_echo w vs); [exact Hat3 | | | ].
    - unfold quiet_words. cbn. by rewrite Tcn.
    - argv_unfold. rewrite Ecn. reflexivity.
    - cbn. by rewrite Dcn. }
  intros st4 Hat4. eapply ends_land.
  { eapply (land_pipe w vs); [exact Hat4 | | | | | | ].
    - unfold quiet_words. cbn. by rewrite Treg.
    - unfold quiet_words. cbn. by rewrite Tacc, Treg.
    - argv_unfold. rewrite Ereg. reflexivity.
    - argv_unfold. reflexivity.
    - done.
    - done. }
  { intros st5 Hat5 Hbad. flatten Hat5.
    eexists [_; _], _. split_and!; [by eexists | exact Hat5 | done | exact Hbad |].
    by repeat constructor. }
  intros st5 Hat5 Hlogin. eapply ends_pass.
  { eapply (pass_cut w vs); [exact Hat5 | exact Hrev]. }
  set (rev := value vs "CODEBUILD_RESOLVED_SOURCE_VERSION") in *.
  set (vs1 := <["COMMIT_HASH" := String.substring 0 7 rev]> vs).
  assert (Hch : value vs1 "COMMIT_HASH" = String.substring 0 7 rev)
    by apply value_insert_eq.
  assert (Hsub : plain (String.substring 0 7 rev) = true)
    by by apply (plain_substring 0).
  intros st6 Hat6. eapply ends_pass.
  { eapply (pass_echo w vs1); [exact Hat6 | | | ].
    - unfold quiet_words. cbn. by rewrite Hch, (plain_tame _ Hsub).
    - argv_unfold. rewrite Hch. reflexivity.
    - destruct (is_empty (String.substring 0 7 rev)); [done|].
      cbn. by rewrite (plain_no_dash _ Hsub). }
  intros st7 Hat7. eapply ends_pass.
  { eapply (pass_default w vs1); exact Hat7. }
  assert (Hvs2 : (if is_empty (value vs1 "COMMIT_HASH")
                  then <["IMAGE_TAG" := "latest"]> (<["COMMIT_HASH" := "latest"]> vs1)
                  else <["IMAGE_TAG" := value vs1 "COMMIT_HASH"]> vs1) = tagged vs).
  { rewrite Hch. unfold tagged, revision_tag, vs1. fold rev.
    destruct rev as [|c rev']; cbn [String.substring is_empty].
    - by rewrite insert_insert_eq.
    - done. }
  rewrite Hvs2.
  destruct (revision_tag_plain rev Hrev) as (Ptag & Etag).
  intros st8 Hat8. eapply ends_pass.
  { eapply (pass_echo w (tagged vs)); [exact Hat8 | | | ].
    - unfold quiet_words. cbn. rewrite tagged_image_tag. fold rev.
      by rewrite (plain_tame _ Ptag).
    - argv_unfold. rewrite tagged_image_tag. fold rev. rewrite Etag. reflexivity.
    - cbn. by rewrite (plain_no_dash _ Ptag). }
  intros st9 Hat9. apply ends_nil. flatten Hat9.
  split; [exact Hat9|]. by repeat constructor.
Qed.

Lemma build_ends (m fs : gmap string string) (sp : list (list string)) (st : shell) :
  dated w →
  set_plain m "REPOSITORY_URI" = true →
  set_plain m "CODEBUILD_SRC_DIR" = true →
  set_plain m "IMAGE_TAG" = true →
  at_state m fs sp st →
  ends w build_commands st
    (halted w m fs sp (build_programs m))
    (completed w m fs sp (build_programs m)).
Proof.
  intros Hdated Huri Hdir Htag Hat.
  destruct (set_plain_facts _ _ Huri) as (Turi & Euri & Duri & _).
  destruct (set_plain_facts _ _ Hdir) as (Tdir & Edir & Ddir & _).
  destruct (set_plain_facts _ _ Htag) as (Ttag & Etag & Dtag & _).
  unfold build_commands.
  eapply ends_pass.
  { eapply (pass_echo_date w m fs sp
              [lit "echo"; lit "Build"; lit "started"; lit "on"]);
      [exact Hdated | exact Hat | done | reflexivity | done]. }
  intros st1 Hat1. eapply ends_pass.
  { eapply (pass_echo w m); [exact Hat1 | done | reflexivity | done]. }
  intros st2 Hat2. eapply ends_land.
  { eapply (land_program w m); [exact Hat2 | | | ].
    - unfold quiet_words. cbn. by rewrite Tdir, Turi.
    - argv_unfold. reflexivity.
    - done. }
  { intros st3 Hat3 Hbad. flatten Hat3.
    eexists [_], _. split_and!; [by eexists | exact Hat3 | done | exact Hbad |].
    by repeat constructor. }
  intros st3 Hat3 Hbuild. eapply ends_pass.
  { eapply (pass_echo w m); [exact Hat3 | done | argv_unfold; reflexivity | done]. }
  intros st4 Hat4. eapply ends_land.
  { eapply (land_program w m); [exact Hat4 | | | ].
    - unfold quiet_words. cbn. by rewrite Turi, Ttag.
    - argv_unfold. reflexivity.
    - done. }
  { intros st5 Hat5 Hbad. flatten Hat5.
    eexists [_; _], _. split_and!; [by eexists | exact Hat5 | done | exact Hbad |].
    by repeat constructor. }
  intros st5 Hat5 Htagged. apply ends_nil. flatten Hat5.
  split; [exact Hat5|]. by repeat constructor.
Qed.

Lemma post_build_ends (m fs : gmap string string) (sp : list (list string))
    (st : shell) :
  dated w →
  set_plain m "REPOSITORY_URI" = true →
  set_plain m "CONTAINER_NAME" = true →
  set_plain m "IMAGE_TAG" = true →
  at_state m fs sp st →
  ends w post_build_commands st
    (halted w m fs sp (post_build_programs m))
    (completed w m (<["docker_image_definition.json" := image_definition_text m]> fs)
       sp (post_build_programs m)).
Proof.
  intros Hdated Huri Hcn Htag Hat.
  destruct (set_plain_facts _ _ Huri) as (Turi & Euri & Duri & Puri).
  destruct (set_plain_facts _ _ Hcn) as (Tcn & Ecn & Dcn & Pcn).
  destruct (set_plain_facts _ _ Htag) as (Ttag & Etag & Dtag & Ptag).
  unfold post_build_commands.
  eapply ends_pass.
  { eapply (pass_echo_date w m fs sp
              [lit "echo"; lit "Build"; lit "completed"; lit "on"]);
      [exact Hdated | exact Hat | done | reflexivity | done]. }
  intros st1 Hat1. eapply ends_pass.
  { eapply (pass_echo w m); [exact Hat1 | done | reflexivity | done]. }
  intros st2 Hat2. eapply ends_land.
  { eapply (land_program w m); [exact Hat2 | | | ].
    - unfold quiet_words. cbn. by rewrite Turi.
    - argv_unfold. reflexivity.
    - done. }
  { intros st3 Hat3 Hbad. flatten Hat3.
    eexists [_], _. split_and!; [by eexists | exact Hat3 | done | exact Hbad |].
    by repeat constructor. }
  intros st3 Hat3 Hlatest. eapply ends_land.
  { eapply (land_program w m); [exact Hat3 | | | ].
    - unfold quiet_words. cbn. by rewrite Turi, Ttag.
    - argv_unfold. reflexivity.
    - done. }
  { intros st4 Hat4 Hbad. flatten Hat4.
    eexists [_; _], _. split_and!; [by eexists | exact Hat4 | done | exact Hbad |].
    by repeat constructor. }
  intros st4 Hat4 Htagged. eapply ends_pass.
  { eapply (pass_printf w m); [exact Hat4 | done | done | ].
    cbn [map expand_qpart Chars.concat Ascii.eqb Bool.eqb dquote backslash orb].
    rewrite !has_char_app.
    rewrite (plain_no_format _ Pcn), (plain_no_format _ Puri), (plain_no_format _ Ptag).
    reflexivity. }
  intros st5 Hat5. apply ends_nil. flatten Hat5.
  split; [exact Hat5|]. by repeat constructor.
Qed.

End PhaseOutcomes.

(** ** Where a phase stops *)

Section StopPoint.
Import Outcome.
Variable w : World.

Lemma sound_not_badly (argv : list string) :
  sound w argv → called_badly w argv → False.
Proof. intros Hs (l & i & Hb). specialize (Hs l i). congruence. Qed.

Lemma broken_not_well (argv : list string) :
  broken w argv → called_well w argv → False.
Proof. intros Hb (l & i & Hw). specialize (Hb l i). congruence. Qed.

Lemma decisive_cons (a : list string) (l : list (list string)) :
  decisive (a :: l) = if ignored a then decisive l else a :: decisive l.
Proof. unfold decisive. cbn [List.filter]. by destruct (ignored a). Qed.

(** The program a phase stopped at is the first that counts and fails. *)
Lemma stop_point (started pre post rest : list (list string)) (argv a : list string) :
  (started ++ [argv]) ++ rest = pre ++ a :: post →
  ignored argv = false → called_badly w argv →
  Forall (called_well w) (decisive started) →
  ignored a = false → broken w a →
  Forall (sound w) (decisive pre) →
  started = pre ∧ argv = a.
Proof.
  intros Heq Hign Hbad Hwell Ha Hbroken Hsound.
  revert started Heq Hwell. induction pre as [|p pre IH]; intros started Heq Hwell.
  - destruct started as [|s started]; cbn in Heq.
    + by injection Heq as -> _.
    + injection Heq as -> _. rewrite decisive_cons, Ha in Hwell.
      apply Forall_cons in Hwell as [Hwell _].
      destruct (broken_not_well _ Hbroken Hwell).
  - rewrite decisive_cons in Hsound.
    destruct started as [|s started]; cbn in Heq.
    + injection Heq as -> _. rewrite Hign in Hsound.
      apply Forall_cons in Hsound as [Hsound _].
      destruct (sound_not_badly _ Hsound Hbad).
    + injection Heq as -> Heq. rewrite decisive_cons in Hwell.
      destruct (IH ltac:(destruct (ignored p);
                         [done | by apply Forall_cons in Hsound as [_ ?]])
                  started Heq
                  ltac:(destruct (ignored p);
                        [done | by apply Forall_cons in Hwell as [_ ?]]))
        as [-> ->].
      done.
Qed.

Lemma halted_broken (vs fs : gmap string string) (sp pre post : list (list string))
    (a : list string) (st : shell) :
  halted w vs fs sp (pre ++ a :: post) st →
  ignored a = false → broken w a → Forall (sound w) (decisive pre) →
  at_state vs fs (sp ++ pre ++ [a]) st.
Proof.
  intros (started & argv & [rest Hpre] & Hat & Hign & Hbad & Hwell) Ha Hb Hs.
  destruct (stop_point started pre post rest argv a) as [E1 E2];
    [by symmetry | done | done | done | done | done | done |].
  by rewrite <- E1, <- E2.
Qed.

Lemma completed_broken (vs fs : gmap string string) (sp progs : list (list string))
    (a : list string) (st : shell) :
  completed w vs fs sp progs st → a ∈ decisive progs → broken w a → False.
Proof.
  intros [_ Hwell] Hin Hb. rewrite Forall_forall in Hwell.
  exact (broken_not_well _ Hb (Hwell _ Hin)).
Qed.

Lemma halted_unchanged (vs fs : gmap string string) (sp progs : list (list string))
    (st : shell) :
  halted w vs fs sp progs st → vars st = vs ∧ files st = fs.
Proof. by intros (started & argv & _ & (Hv & Hf & _) & _). Qed.

End StopPoint.

(** ** The phases of the build specification, whatever their programs do *)

Section PhaseProperties.
Import pipeline_stack Outcome.

Lemma substring_length_le (n : nat) (s : string) :
  String.length (String.substring 0 n s) ≤ n.
Proof.
  revert s. induction n as [|n IH]; intros [|c s]; cbn; try lia.
  specialize (IH s). lia.
Qed.

Lemma substring_prefix (n : nat) (s : string) :
  ∃ rest, s = String.substring 0 n s +:+ rest.
Proof.
  revert s. induction n as [|n IH]; intros [|c s]; cbn.
  - by exists "".
  - by eexists.
  - by exists "".
  - destruct (IH s) as [rest H]. exists rest. by rewrite <- H.
Qed.

Lemma substring_all (n : nat) (s : string) :
  String.length s ≤ n → String.substring 0 n s = s.
Proof.
  revert s. induction n as [|n IH]; intros [|c s]; cbn; try done; try lia.
  intros H. rewrite IH by lia. done.
Qed.

(** X4. The [pre_build] phase succeeds whenever [aws --version] and
    [docker login] succeed, whatever the exit status of
    [aws ecr get-login-password], whose output is piped to [docker login]:
    the three programs are then started in this order, and no file is
    written. *)
Theorem pre_build_login_decides (w : World) (vs fs : gmap string string)
    (sp : list (list string)) (st : shell) :
  ready vs = true →
  at_state vs fs sp st →
  sound w ["aws"; "--version"] →
  sound w ["docker"; "login"; "--username"; "AWS"; "--password-stdin";
           value vs "AWS_ACCOUNT_ID" +:+ ".dkr.ecr." +:+ value vs "AWS_STACK_REGION"
           +:+ ".amazonaws.com"] →
  ∃ st',
    run_commands w pre_build_commands st = Some (true, st')
    ∧ spawned (log st')
      = sp ++ [ ["aws"; "--version"];
                ["aws"; "ecr"; "get-login-password"; "--region";
                 value vs "AWS_STACK_REGION"];
                ["docker"; "login"; "--username"; "AWS"; "--password-stdin";
                 value vs "AWS_ACCOUNT_ID" +:+ ".dkr.ecr."
                 +:+ value vs "AWS_STACK_REGION" +:+ ".amazonaws.com"] ]
    ∧ files st' = fs.
Proof.
  intros Hready Hat Hversion Hlogin.
  destruct (pre_build_ends w vs fs sp st Hready Hat) as ([] & st' & Hrun & H).
  - exists st'. by destruct H as [(? & ? & ?) _].
  - exfalso. apply (halted_sound w _ _ _ _ _ H).
    unfold pre_build_programs. rewrite !decisive_cons. cbn.
    by repeat constructor.
Qed.

(** X5. The [pre_build] phase stops at the first of [aws --version] and
    [docker login] that fails: when [aws --version] fails it is the only
    program started, and when [docker login] fails the phase fails though
    all three programs were started.  A [pre_build] phase that fails has
    changed no variable and written no file. *)
Theorem pre_build_stops_at_failure (w : World) (vs fs : gmap string string)
    (sp : list (list string)) (st : shell) :
  ready vs = true →
  at_state vs fs sp st →
  ∃ ok st',
    run_commands w pre_build_commands st = Some (ok, st')
    ∧ (ok = false → vars st' = vs ∧ files st' = fs)
    ∧ (broken w ["aws"; "--version"] →
       ok = false ∧ spawned (log st') = sp ++ [["aws"; "--version"]])
    ∧ (sound w ["aws"; "--version"] →
       broken w ["docker"; "login"; "--username"; "AWS"; "--password-stdin";
                 value vs "AWS_ACCOUNT_ID" +:+ ".dkr.ecr."
                 +:+ value vs "AWS_STACK_REGION" +:+ ".amazonaws.com"] →
       ok = false ∧ spawned (log st') = sp ++ pre_build_programs vs).
Proof.
  intros Hready Hat.
  destruct (pre_build_ends w vs fs sp st Hready Hat) as (ok & st' & Hrun & H).
  exists ok, st'. split; [exact Hrun|]. destruct ok.
  - split; [done|]. split.
    + intros Hb. exfalso. refine (completed_broken w _ _ _ _ _ _ H _ Hb).
      by left.
    + intros _ Hb. exfalso. refine (completed_broken w _ _ _ _ _ _ H _ Hb).
      unfold pre_build_programs. rewrite !decisive_cons. cbn.
      right. by left.
  - split; [intros _; by apply (halted_unchanged w _ _ _ _ _ H)|]. split.
    + intros Hb. split; [done|].
      apply (halted_broken w vs fs sp [] [_; _] ["aws"; "--version"]) in H as (_ & _ & Hs);
        [exact Hs | done | done | constructor].
    + intros Hs Hb. split; [done|].
      unfold pre_build_programs in H.
      apply (halted_broken w vs fs sp [_; _] [] _) in H as (_ & _ & Hsp);
        [exact Hsp | done | done |].
      rewrite !decisive_cons. cbn. by repeat constructor.
Qed.

(** X6. After a [pre_build] phase that succeeds, [COMMIT_HASH] and
    [IMAGE_TAG] hold the same tag, also for an empty revision identifier,
    where the default [latest] is assigned to both; the tag is never empty,
    has at most seven characters and, for a revision identifier that is
    not empty, the revision identifier starts with it; a revision
    identifier of at most seven characters is the tag as it is.  No other
    variable is changed, whether the phase succeeds or not. *)
Theorem pre_build_tag_variables (w : World) (vs fs : gmap string string)
    (sp : list (list string)) (st : shell) :
  ready vs = true →
  at_state vs fs sp st →
  ∃ ok st',
    run_commands w pre_build_commands st = Some (ok, st')
    ∧ (∀ x, x ≠ "COMMIT_HASH" → x ≠ "IMAGE_TAG" → vars st' !! x = vs !! x)
    ∧ (ok = true →
       value (vars st') "COMMIT_HASH" = value (vars st') "IMAGE_TAG"
       ∧ value (vars st') "IMAGE_TAG" ≠ ""
       ∧ String.length (value (vars st') "IMAGE_TAG") ≤ 7
       ∧ if is_empty (value vs "CODEBUILD_RESOLVED_SOURCE_VERSION")
         then value (vars st') "IMAGE_TAG" = "latest"
         else (∃ rest, value vs "CODEBUILD_RESOLVED_SOURCE_VERSION"
                       = value (vars st') "IMAGE_TAG" +:+ rest)
              ∧ (String.length (value vs "CODEBUILD_RESOLVED_SOURCE_VERSION") ≤ 7 →
                 value (vars st') "IMAGE_TAG"
                 = value vs "CODEBUILD_RESOLVED_SOURCE_VERSION")).
Proof.
  intros Hready Hat.
  destruct (pre_build_ends w vs fs sp st Hready Hat) as (ok & st' & Hrun & H).
  exists ok, st'. split; [exact Hrun|]. destruct ok.
  - destruct H as [(Hv & _ & _) _]. rewrite Hv. split.
    + intros x H1 H2. unfold tagged. by rewrite !lookup_insert_ne.
    + intros _. unfold tagged.
      rewrite value_insert_eq, value_insert_ne, value_insert_eq by done.
      unfold revision_tag.
      destruct (value vs "CODEBUILD_RESOLVED_SOURCE_VERSION") as [|c rev] eqn:E.
      * cbn. split_and!; [done | done | lia | done].
      * cbn [is_empty].
        split_and!; [done | done | apply substring_length_le
                    | apply substring_prefix | apply substring_all].
  - destruct (halted_unchanged w _ _ _ _ _ H) as [-> _]. split; [done|done].
Qed.

(** X7. The [build] phase succeeds whenever [docker build] and [docker tag]
    succeed, whatever the exit status of [date]; when [docker build] fails
    the phase fails and [docker tag] is not started.  The phase changes no
    variable and writes no file. *)
Theorem build_phase_outcome (w : World) (m fs : gmap string string)
    (sp : list (list string)) (st : shell) :
  dated w →
  set_plain m "REPOSITORY_URI" = true →
  set_plain m "CODEBUILD_SRC_DIR" = true →
  set_plain m "IMAGE_TAG" = true →
  at_state m fs sp st →
  let docker_build :=
    ["docker"; "build"; "-f"; value m "CODEBUILD_SRC_DIR" +:+ "/backend/Dockerfile";
     "-t"; value m "REPOSITORY_URI" +:+ ":latest"; "./backend"] in
  let docker_tag :=
    ["docker"; "tag"; value m "REPOSITORY_URI" +:+ ":latest";
     value m "REPOSITORY_URI" +:+ ":" +:+ value m "IMAGE_TAG"] in
  ∃ ok st',
    run_commands w build_commands st = Some (ok, st')
    ∧ vars st' = m ∧ files st' = fs
    ∧ (sound w docker_build → sound w docker_tag →
       ok = true ∧ spawned (log st') = sp ++ [["date"]; docker_build; docker_tag])
    ∧ (broken w docker_build →
       ok = false ∧ spawned (log st') = sp ++ [["date"]; docker_build])
    ∧ (sound w docker_build → broken w docker_tag →
       ok = false ∧ spawned (log st') = sp ++ [["date"]; docker_build; docker_tag]).
Proof.
  intros Hdated Huri Hdir Htag Hat docker_build docker_tag.
  destruct (build_ends w m fs sp st Hdated Huri Hdir Htag Hat) as (ok & st' & Hrun & H).
  exists ok, st'. split; [exact Hrun|]. destruct ok.
  - pose proof H as [(Hv & Hf & Hs) _]. split_and!; [done | done | done | |].
    + intros Hb. destruct (completed_broken w _ _ _ _ docker_build _ H); [|done].
      unfold build_programs. rewrite !decisive_cons. cbn. by left.
    + intros _ Hb. destruct (completed_broken w _ _ _ _ docker_tag _ H); [|done].
      unfold build_programs. rewrite !decisive_cons. cbn. right. by left.
  - destruct (halted_unchanged w _ _ _ _ _ H) as [Hv Hf].
    split_and!; [done | done | | |].
    + intros Hb Ht. exfalso. apply (halted_sound w _ _ _ _ _ H).
      unfold build_programs. rewrite !decisive_cons. cbn. by repeat constructor.
    + intros Hb. split; [done|]. unfold build_programs in H.
      apply (halted_broken w m fs sp [_] [_] docker_build) in H as (_ & _ & Hs);
        [exact Hs | done | done |].
      rewrite !decisive_cons. cbn. constructor.
    + intros Hb Ht. split; [done|]. unfold build_programs in H.
      apply (halted_broken w m fs sp [_; _] [] docker_tag) in H as (_ & _ & Hs);
        [exact Hs | done | done |].
      rewrite !decisive_cons. cbn. by repeat constructor.
Qed.

(** X8. The [post_build] phase writes the image definition file when both
    pushes succeeded and no file otherwise: when the push of [latest]
    fails, the tag of the revision is not pushed and the files are those
    from before the phase.  It succeeds whenever both pushes do, whatever
    the exit status of [date], and changes no variable. *)
Theorem post_build_file_after_pushes (w : World) (m fs : gmap string string)
    (sp : list (list string)) (st : shell) :
  dated w →
  set_plain m "REPOSITORY_URI" = true →
  set_plain m "CONTAINER_NAME" = true →
  set_plain m "IMAGE_TAG" = true →
  at_state m fs sp st →
  let push_latest := ["docker"; "push"; value m "REPOSITORY_URI" +:+ ":latest"] in
  let push_tag :=
    ["docker"; "push"; value m "REPOSITORY_URI" +:+ ":" +:+ value m "IMAGE_TAG"] in
  ∃ ok st',
    run_commands w post_build_commands st = Some (ok, st')
    ∧ vars st' = m
    ∧ files st'
      = (if ok then <["docker_image_definition.json" := image_definition_text m]> fs
         else fs)
    ∧ (sound w push_latest → sound w push_tag → ok = true)
    ∧ (ok = true → spawned (log st') = sp ++ [["date"]; push_latest; push_tag])
    ∧ (broken w push_latest →
       ok = false ∧ spawned (log st') = sp ++ [["date"]; push_latest])
    ∧ (sound w push_latest → broken w push_tag → ok = false).
Proof.
  intros Hdated Huri Hcn Htag Hat push_latest push_tag.
  destruct (post_build_ends w m fs sp st Hdated Huri Hcn Htag Hat)
    as (ok & st' & Hrun & H).
  exists ok, st'. split; [exact Hrun|]. destruct ok.
  - pose proof H as [(Hv & Hf & Hs) _]. split_and!; [done | done | done | done | |].
    + intros Hb. destruct (completed_broken w _ _ _ _ push_latest _ H); [|done].
      unfold post_build_programs. rewrite !decisive_cons. cbn. by left.
    + intros _ Hb. destruct (completed_broken w _ _ _ _ push_tag _ H); [|done].
      unfold post_build_programs. rewrite !decisive_cons. cbn. right. by left.
  - destruct (halted_unchanged w _ _ _ _ _ H) as [Hv Hf].
    split_and!; [done | done | | done | | done].
    + intros Hb Ht. exfalso. apply (halted_sound w _ _ _ _ _ H).
      unfold post_build_programs. rewrite !decisive_cons. cbn. by repeat constructor.
    + intros Hb. split; [done|]. unfold post_build_programs in H.
      apply (halted_broken w m fs sp [_] [_] push_latest) in H as (_ & _ & Hs);
        [exact Hs | done | done |].
      rewrite !decisive_cons. cbn. constructor.
Qed.

End PhaseProperties.

(** ** The phases at an instance *)

Section PhaseWitnesses.
Import pipeline_stack Outcome.

Lemma pre_build_login_decides_witness :
  ready example_vars = true
  ∧ at_state example_vars ∅ [] example_start
  ∧ sound no_password ["aws"; "--version"]
  ∧ sound no_password
      ["docker"; "login"; "--username"; "AWS"; "--password-stdin";
       value example_vars "AWS_ACCOUNT_ID" +:+ ".dkr.ecr."
       +:+ value example_vars "AWS_STACK_REGION" +:+ ".amazonaws.com"]
  ∧ ∃ st',
      run_commands no_password pre_build_commands example_start = Some (true, st')
      ∧ spawned (log st')
        = [] ++ [ ["aws"; "--version"];
                  ["aws"; "ecr"; "get-login-password"; "--region";
                   value example_vars "AWS_STACK_REGION"];
                  ["docker"; "login"; "--username"; "AWS"; "--password-stdin";
                   value example_vars "AWS_ACCOUNT_ID" +:+ ".dkr.ecr."
                   +:+ value example_vars "AWS_STACK_REGION" +:+ ".amazonaws.com"] ]
      ∧ files st' = ∅.
Proof.
  assert (H1 : ready example_vars = true) by (vm_compute; reflexivity).
  assert (H2 : at_state example_vars ∅ [] example_start) by (split_and!; reflexivity).
  assert (H3 : sound no_password ["aws"; "--version"]) by (intros l i; reflexivity).
  assert (H4 : sound no_password
                 ["docker"; "login"; "--username"; "AWS"; "--password-stdin";
                  value example_vars "AWS_ACCOUNT_ID" +:+ ".dkr.ecr."
                  +:+ value example_vars "AWS_STACK_REGION" +:+ ".amazonaws.com"])
    by (intros l i; reflexivity).
  split_and!; [exact H1 | exact H2 | exact H3 | exact H4 |].
  exact (pre_build_login_decides no_password example_vars ∅ [] example_start H1 H2 H3 H4).
Defined.

Lemma pre_build_stops_at_failure_witness :
  ready example_vars = true
  ∧ at_state example_vars ∅ [] example_start
  ∧ broken no_version ["aws"; "--version"]
  ∧ (∃ st',
       run_commands no_version pre_build_commands example_start = Some (false, st')
       ∧ vars st' = example_vars ∧ files st' = ∅
       ∧ spawned (log st') = [] ++ [["aws"; "--version"]])
  ∧ sound no_login ["aws"; "--version"]
  ∧ broken no_login
      ["docker"; "login"; "--username"; "AWS"; "--password-stdin";
       value example_vars "AWS_ACCOUNT_ID" +:+ ".dkr.ecr."
       +:+ value example_vars "AWS_STACK_REGION" +:+ ".amazonaws.com"]
  ∧ (∃ st',
       run_commands no_login pre_build_commands example_start = Some (false, st')
       ∧ vars st' = example_vars ∧ files st' = ∅
       ∧ spawned (log st') = [] ++ pre_build_programs example_vars).
Proof.
  assert (H1 : ready example_vars = true) by (vm_compute; reflexivity).
  assert (H2 : at_state example_vars ∅ [] example_start) by (split_and!; reflexivity).
  assert (H3 : broken no_version ["aws"; "--version"]) by (intros l i; reflexivity).
  assert (H4 : sound no_login ["aws"; "--version"]) by (intros l i; reflexivity).
  assert (H5 : broken no_login
                 ["docker"; "login"; "--username"; "AWS"; "--password-stdin";
                  value example_vars "AWS_ACCOUNT_ID" +:+ ".dkr.ecr."
                  +:+ value example_vars "AWS_STACK_REGION" +:+ ".amazonaws.com"])
    by (intros l i; reflexivity).
  split_and!; [exact H1 | exact H2 | exact H3 | | exact H4 | exact H5 |].
  - destruct (pre_build_stops_at_failure no_version example_vars ∅ [] example_start
                H1 H2) as (ok & st' & Hrun & Hfail & Hversion & _).
    destruct (Hversion H3) as [Hok Hs]. destruct (Hfail Hok) as [Hv Hf].
    subst ok. exists st'. by split_and!.
  - destruct (pre_build_stops_at_failure no_login example_vars ∅ [] example_start
                H1 H2) as (ok & st' & Hrun & Hfail & _ & Hlogin).
    destruct (Hlogin H4 H5) as [Hok Hs]. destruct (Hfail Hok) as [Hv Hf].
    subst ok. exists st'. by split_and!.
Defined.

Lemma pre_build_tag_variables_witness :
  ready example_vars = true
  ∧ at_state example_vars ∅ [] example_start
  ∧ ∃ ok st',
      run_commands no_password pre_build_commands example_start = Some (ok, st')
      ∧ (∀ x, x ≠ "COMMIT_HASH" → x ≠ "IMAGE_TAG" → vars st' !! x = example_vars !! x)
      ∧ (ok = true →
         value (vars st') "COMMIT_HASH" = value (vars st') "IMAGE_TAG"
         ∧ value (vars st') "IMAGE_TAG" ≠ ""
         ∧ String.length (value (vars st') "IMAGE_TAG") ≤ 7
         ∧ if is_empty (value example_vars "CODEBUILD_RESOLVED_SOURCE_VERSION")
           then value (vars st') "IMAGE_TAG" = "latest"
           else (∃ rest, value example_vars "CODEBUILD_RESOLVED_SOURCE_VERSION"
                         = value (vars st') "IMAGE_TAG" +:+ rest)
                ∧ (String.length (value example_vars "CODEBUILD_RESOLVED_SOURCE_VERSION")
                   ≤ 7 →
                   value (vars st') "IMAGE_TAG"
                   = value example_vars "CODEBUILD_RESOLVED_SOURCE_VERSION")).
Proof.
  assert (H1 : ready example_vars = true) by (vm_compute; reflexivity).
  assert (H2 : at_state example_vars ∅ [] example_start) by (split_and!; reflexivity).
  split_and!; [exact H1 | exact H2 |].
  exact (pre_build_tag_variables no_password example_vars ∅ [] example_start H1 H2).
Defined.

Lemma build_phase_outcome_witness :
  dated no_date
  ∧ set_plain (tagged example_vars) "REPOSITORY_URI" = true
  ∧ set_plain (tagged example_vars) "CODEBUILD_SRC_DIR" = true
  ∧ set_plain (tagged example_vars) "IMAGE_TAG" = true
  ∧ at_state (tagged example_vars) ∅ [] example_tagged
  ∧ let m := tagged example_vars in
    let docker_build :=
      ["docker"; "build"; "-f"; value m "CODEBUILD_SRC_DIR" +:+ "/backend/Dockerfile";
       "-t"; value m "REPOSITORY_URI" +:+ ":latest"; "./backend"] in
    let docker_tag :=
      ["docker"; "tag"; value m "REPOSITORY_URI" +:+ ":latest";
       value m "REPOSITORY_URI" +:+ ":" +:+ value m "IMAGE_TAG"] in
    ∃ ok st',
      run_commands no_date build_commands example_tagged = Some (ok, st')
      ∧ vars st' = m ∧ files st' = ∅
      ∧ (sound no_date docker_build → sound no_date docker_tag →
         ok = true ∧ spawned (log st') = [] ++ [["date"]; docker_build; docker_tag])
      ∧ (broken no_date docker_build →
         ok = false ∧ spawned (log st') = [] ++ [["date"]; docker_build])
      ∧ (sound no_date docker_build → broken no_date docker_tag →
         ok = false ∧ spawned (log st') = [] ++ [["date"]; docker_build; docker_tag]).
Proof.
  assert (H0 : dated no_date) by (intros l i; reflexivity).
  assert (H1 : set_plain (tagged example_vars) "REPOSITORY_URI" = true)
    by (vm_compute; reflexivity).
  assert (H2 : set_plain (tagged example_vars) "CODEBUILD_SRC_DIR" = true)
    by (vm_compute; reflexivity).
  assert (H3 : set_plain (tagged example_vars) "IMAGE_TAG" = true)
    by (vm_compute; reflexivity).
  assert (H4 : at_state (tagged example_vars) ∅ [] example_tagged)
    by (split_and!; reflexivity).
  split_and!; [exact H0 | exact H1 | exact H2 | exact H3 | exact H4 |].
  exact (build_phase_outcome no_date (tagged example_vars) ∅ [] example_tagged
           H0 H1 H2 H3 H4).
Defined.

Lemma post_build_file_after_pushes_witness :
  dated no_date
  ∧ set_plain (tagged example_vars) "REPOSITORY_URI" = true
  ∧ set_plain (tagged example_vars) "CONTAINER_NAME" = true
  ∧ set_plain (tagged example_vars) "IMAGE_TAG" = true
  ∧ at_state (tagged example_vars) ∅ [] example_tagged
  ∧ let m := tagged example_vars in
    let push_latest := ["docker"; "push"; value m "REPOSITORY_URI" +:+ ":latest"] in
    let push_tag :=
      ["docker"; "push"; value m "REPOSITORY_URI" +:+ ":" +:+ value m "IMAGE_TAG"] in
    ∃ ok st',
      run_commands no_date post_build_commands example_tagged = Some (ok, st')
      ∧ vars st' = m
      ∧ files st'
        = (if ok then <["docker_image_definition.json" := image_definition_text m]> ∅
           else ∅)
      ∧ (sound no_date push_latest → sound no_date push_tag → ok = true)
      ∧ (ok = true → spawned (log st') = [] ++ [["date"]; push_latest; push_tag])
      ∧ (broken no_date push_latest →
         ok = false ∧ spawned (log st') = [] ++ [["date"]; push_latest])
      ∧ (sound no_date push_latest → broken no_date push_tag → ok = false).
Proof.
  assert (H0 : dated no_date) by (intros l i; reflexivity).
  assert (H1 : set_plain (tagged example_vars) "REPOSITORY_URI" = true)
    by (vm_compute; reflexivity).
  assert (H2 : set_plain (tagged example_vars) "CONTAINER_NAME" = true)
    by (vm_compute; reflexivity).
  assert (H3 : set_plain (tagged example_vars) "IMAGE_TAG" = true)
    by (vm_compute; reflexivity).
  assert (H4 : at_state (tagged example_vars) ∅ [] example_tagged)
    by (split_and!; reflexivity).
  split_and!; [exact H0 | exact H1 | exact H2 | exact H3 | exact H4 |].
  exact (post_build_file_after_pushes no_date (tagged example_vars) ∅ []
           example_tagged H0 H1 H2 H3 H4).
Defined.

End PhaseWitnesses.

(** ** The entry point and the constructor, beyond the claims *)

Section EntryProperties.
Import pipeline_stack infrastructure Outcome Audit.

(** X1. When the host leaves one of the three questions without answer,
    [start] throws at that question and the program exits with status 1
    through the handler of [catch]: no later question is asked, no stack is
    created and no tag is set. *)
Theorem main_exit_status
    (ecr_repository : Environment.t → IRepository)
    (vpc_vpc : Environment.t → IVpc)
    (ecs_outputs : IVpc → IRepository → Environment.t → EcsOutputs)
    (host : Host) (q : Query) :
  first_unanswered host = Some q →
  ∃ m,
    main ecr_repository vpc_vpc ecs_outputs host loaded = (Some 1, m)
    ∧ asked m = asked_upto q ∧ app m = ∅ ∧ tags m = ∅.
Proof.
  unfold first_unanswered, main.
  destruct (host resolveCurrentUserOwnerName 0) as [owner|] eqn:Howner;
    [destruct (host getAccountId 0) as [account|] eqn:Haccount;
       [destruct (host getRegion 0) as [region|] eqn:Hregion|]|];
    intros Hq; [discriminate Hq | | |]; injection Hq as <-.
  - unfold start. unfold mbind, mret, Prog_bind, Prog_ret, bind, pure.
    unfold ask at 1. change (count_asked resolveCurrentUserOwnerName loaded) with 0.
    rewrite Howner.
    cbv beta iota delta [asked secretConfig_obj githubConfig_obj tags app loaded List.app].
    unfold ask at 1.
    match goal with |- context [count_asked getAccountId ?m] =>
      change (count_asked getAccountId m) with 0 end.
    rewrite Haccount.
    cbv beta iota delta [asked secretConfig_obj githubConfig_obj tags app List.app].
    unfold ask at 1.
    match goal with |- context [count_asked getRegion ?m] =>
      change (count_asked getRegion m) with 0 end.
    rewrite Hregion.
    eexists. split; [reflexivity|]. by cbn.
  - unfold start. unfold mbind, mret, Prog_bind, Prog_ret, bind, pure.
    unfold ask at 1. change (count_asked resolveCurrentUserOwnerName loaded) with 0.
    rewrite Howner.
    cbv beta iota delta [asked secretConfig_obj githubConfig_obj tags app loaded List.app].
    unfold ask at 1.
    match goal with |- context [count_asked getAccountId ?m] =>
      change (count_asked getAccountId m) with 0 end.
    rewrite Haccount.
    eexists. split; [reflexivity|]. by cbn.
  - unfold start. unfold mbind, mret, Prog_bind, Prog_ret, bind, pure.
    unfold ask at 1. change (count_asked resolveCurrentUserOwnerName loaded) with 0.
    rewrite Howner.
    eexists. split; [reflexivity|]. by cbn.
Qed.

(** X2. When the host answers, the container stack is given the network of
    the network stack and the repository of the repository stack, and the
    pipeline stack is given that same repository and what the container
    stack made: the build project names the address of this repository in
    [REPOSITORY_URI] and is granted pull and push on it and on no other, and
    the deploy action deploys to the service of the container stack. *)
Theorem start_wiring
    (ecr_repository : Environment.t → IRepository)
    (vpc_vpc : Environment.t → IVpc)
    (ecs_outputs : IVpc → IRepository → Environment.t → EcsOutputs)
    (host : Host) (owner account region : string) :
  host resolveCurrentUserOwnerName 0 = Some owner →
  host getAccountId 0 = Some account →
  host getRegion 0 = Some region →
  let env := {| Environment.account := Some account;
                Environment.region := Some region |} in
  let ecr := ecr_repository env in
  let ecs := ecs_outputs (vpc_vpc env) ecr env in
  ∃ m stack p pl d,
    start ecr_repository vpc_vpc ecs_outputs host loaded = (Some tt, m)
    ∧ app m !! "PipelineStack" = Some stack
    ∧ project_of stack = Some p ∧ pipeline_of stack = Some pl
    ∧ deploy_actions pl = [d]
    ∧ BuildEnvironmentVariable.value <$> Project.environmentVariables p !! "REPOSITORY_URI"
      = Some (repositoryUri ecr)
    ∧ Project.pullPush p = [ecr]
    ∧ EcsDeployAction.service d = infrastructure.service ecs
    ∧ BuildEnvironmentVariable.value <$> Project.environmentVariables p !! "CONTAINER_NAME"
      = Some (containerName (infrastructure.container ecs)).
Proof.
  intros Howner Haccount Hregion env ecr ecs.
  pose proof (start_run ecr_repository vpc_vpc ecs_outputs host owner account region
                Howner Haccount Hregion) as Hrun.
  cbv zeta in Hrun. fold env in Hrun. fold ecr in Hrun. fold ecs in Hrun.
  eexists _, _, _, _, _. split; [exact Hrun|].
  cbn [app]. split; [by rewrite lookup_insert_eq|].
  split_and!; try reflexivity; vm_compute; reflexivity.
Qed.

(** X3. Whenever the constructor of the pipeline stack, called with an id
    that is free in the app, returns, it has asked the host nothing and has
    left the tags, the two objects of the module and every other stack of
    the app as they were, and its stack holds exactly the credentials, the
    project and the pipeline.  It reads the two objects when it is called:
    the credentials and the resource of the policy statement come from the
    secret object, and the two sources from the repository object, as the
    memory holds them then. *)
Theorem constructor_frame (id : string) (props : Props) (m m' : Mem) :
  app m !! id = None →
  PipelineStack id props m = (Some tt, m') →
  ∃ stack c p pl a,
    asked m' = asked m ∧ tags m' = tags m
    ∧ secretConfig_obj m' = secretConfig_obj m
    ∧ githubConfig_obj m' = githubConfig_obj m
    ∧ (∀ id', id' ≠ id → app m' !! id' = app m !! id')
    ∧ app m' !! id = Some stack
    ∧ Stack.env stack = env props
    ∧ dom (Stack.children stack)
      = {[ "code-build-credentials"; "project"; "DeployPipeline" ]}
    ∧ credentials_of stack = Some c ∧ project_of stack = Some p
    ∧ pipeline_of stack = Some pl ∧ source_actions pl = [a]
    ∧ GitHubSourceCredentials.accessToken c
      = SecretValue.secretsManager (SecretConfig.id (secretConfig_obj m))
    ∧ map PolicyStatement.resources (Project.rolePolicy p)
      = [[SecretConfig.arn (secretConfig_obj m)]]
    ∧ Source.repo (Project.source p) = GithubConfig.repo (githubConfig_obj m)
    ∧ Source.owner (Project.source p) = GithubConfig.owner (githubConfig_obj m)
    ∧ GitHubSourceAction.repo a = GithubConfig.repo (githubConfig_obj m)
    ∧ GitHubSourceAction.owner a = GithubConfig.owner (githubConfig_obj m)
    ∧ GitHubSourceAction.branch a = GithubConfig.branch (githubConfig_obj m).
Proof.
  intros Hfree Hrun. rewrite PipelineStack_run in Hrun. injection Hrun as <-.
  eexists (built props (secretConfig_obj m) (githubConfig_obj m)), _, _, _, _.
  cbn [asked tags secretConfig_obj githubConfig_obj app].
  split_and!; try reflexivity.
  - intros id' Hne. by rewrite lookup_insert_ne.
  - by rewrite lookup_insert_eq.
Qed.

End EntryProperties.

(** ** The variables of the build specification *)

Section Variables.
Import pipeline_stack Audit Uses.

(** What the commands do to the variables: expansions and programs set
    none but those given a default, and subshells forget theirs. *)
Lemma value_set (vs : gmap string string) (x : string) :
  is_empty (value vs x) = false → x ∈ dom vs.
Proof.
  unfold value. destruct (vs !! x) as [v|] eqn:E; [|done].
  intros _. apply elem_of_dom. by exists v.
Qed.

Lemma expand_part_vars {C} (sub : C → shell → option (bool * string * shell))
    (p : part C) (st : shell) pc s st' :
  expand_part sub p st = Some (pc, s, st') →
  dom (vars st) ⊆ dom (vars st') ∧ ∀ x, x ∈ part_sets p → x ∈ dom (vars st').
Proof.
  destruct p as [t|x|x|x d|q|c|c]; cbn [expand_part part_sets].
  1-3, 5: intros [= <- <- <-]; split; [done | by intros x' ?%elem_of_nil].
  - destruct (is_empty (value (vars st) x)) eqn:E; intros [= <- <- <-].
    + cbn [setvar vars]. rewrite dom_insert. split; [set_solver|].
      intros x' ->%list_elem_of_singleton. set_solver.
    + split; [done|]. intros x' ->%list_elem_of_singleton. by apply value_set.
  - destruct (sub c st) as [[[ok out] st1]|]; [|done]. cbn.
    intros [= <- <- <-]. split; [done | by intros x' ?%elem_of_nil].
  - destruct (sub c st) as [[[ok out] st1]|]; [|done]. cbn.
    intros [= <- <- <-]. split; [done | by intros x' ?%elem_of_nil].
Qed.

Lemma expand_word_vars {C} (sub : C → shell → option (bool * string * shell))
    (wd : word C) (st : shell) pcs s st' :
  expand_word sub wd st = Some (pcs, s, st') →
  dom (vars st) ⊆ dom (vars st')
  ∧ ∀ x, x ∈ flat_map part_sets wd → x ∈ dom (vars st').
Proof.
  revert st pcs s st'. induction wd as [|p wd IH]; intros st pcs s st'.
  - cbn. intros [= <- <- <-]. split; [done | by intros x ?%elem_of_nil].
  - cbn [expand_word flat_map].
    destruct (expand_part sub p st) as [[[pc s1] st1]|] eqn:E1; [|done].
    cbv beta iota delta [mbind option_bind].
    destruct (expand_word sub wd st1) as [[[pcs' s2] st2]|] eqn:E2; [|done].
    cbv beta iota. intros [= <- <- <-].
    destruct (expand_part_vars _ _ _ _ _ _ E1) as [H1 H1'].
    destruct (IH _ _ _ _ E2) as [H2 H2'].
    split; [by etrans|].
    intros x [Hx|Hx]%elem_of_app; [apply H2, H1', Hx | apply H2', Hx].
Qed.

Lemma argv_of_vars {C} (sub : C → shell → option (bool * string * shell))
    (ws : list (word C)) (st : shell) argv st' :
  argv_of sub ws st = Some (argv, st') →
  dom (vars st) ⊆ dom (vars st')
  ∧ ∀ x, x ∈ flat_map (flat_map part_sets) ws → x ∈ dom (vars st').
Proof.
  revert st argv st'. induction ws as [|wd ws IH]; intros st argv st'.
  - cbn. intros [= <- <-]. split; [done | by intros x ?%elem_of_nil].
  - cbn [argv_of flat_map].
    destruct (expand_word sub wd st) as [[[pcs s1] st1]|] eqn:E1; [|done].
    cbv beta iota delta [mbind option_bind].
    destruct (fields pcs) as [fs|]; [|done]. cbv beta iota.
    destruct (argv_of sub ws st1) as [[rest st2]|] eqn:E2; [|done].
    cbv beta iota. intros [= <- <-].
    destruct (expand_word_vars _ _ _ _ _ _ E1) as [H1 H1'].
    destruct (IH _ _ _ E2) as [H2 H2'].
    split; [by etrans|].
    intros x [Hx|Hx]%elem_of_app; [apply H2, H1', Hx | apply H2', Hx].
Qed.

Lemma run_program_vars (w : World) (argv : list string) (stdin : string)
    (st : shell) ok out st' :
  run_program w argv stdin st = Some (ok, out, st') → vars st' = vars st.
Proof.
  unfold run_program. destruct argv as [|prog args]; [by intros [= <- <- <-]|].
  destruct (String.eqb prog "echo").
  { destruct args as [|a args]; [by intros [= <- <- <-]|].
    destruct (starts_with _ _); [done | by intros [= <- <- <-]]. }
  destruct (String.eqb prog "printf").
  { destruct args as [|fmt [|? ?]]; [done | | done].
    destruct (_ || _); [done | by intros [= <- <- <-]]. }
  destruct (String.eqb prog "cut").
  { destruct args as [|opt [|range [|? ?]]]; [done | done | | done].
    destruct (String.eqb opt "-c"); [|done].
    destruct (cut_chars range stdin); [|done]. cbn. by intros [= <- <- <-]. }
  destruct (program w (log st) (prog :: args) stdin). by intros [= <- <- <-].
Qed.

Lemma run_top_vars (w : World) (c : line) (st : shell) ok st' :
  run_top w c st = Some (ok, st') →
  dom (vars st) ⊆ dom (vars st') ∧ ∀ x, x ∈ line_sets c → x ∈ dom (vars st').
Proof.
  unfold run_top, run_line.
  destruct (run_command w (run_inner w) c "" st) as [[[ok1 out] st1]|] eqn:E; [|done].
  cbv beta iota delta [mbind option_bind]. intros [= <- <-].
  assert (H : dom (vars st) ⊆ dom (vars st1) ∧ ∀ x, x ∈ line_sets c → x ∈ dom (vars st1)).
  { destruct c as [x wd|ws [f|]|c1 c2]; cbn [run_command line_sets] in *.
    - destruct (expand_word (run_inner w) wd st) as [[[pcs s] st2]|] eqn:E1; [|done].
      cbv beta iota delta [mbind option_bind] in E. injection E as <- <- <-.
      destruct (expand_word_vars _ _ _ _ _ _ E1) as [H1 H1'].
      cbn [setvar vars]. rewrite dom_insert. split; [set_solver|].
      intros x' [Hx| ->%list_elem_of_singleton]%elem_of_app; [|set_solver].
      rewrite dom_insert. apply elem_of_union. right. by apply H1'.
    - destruct (argv_of (run_inner w) ws st) as [[argv st2]|] eqn:E1; [|done].
      cbv beta iota delta [mbind option_bind] in E.
      destruct (expand_word (run_inner w) f st2) as [[[pcs s] st3]|] eqn:E2; [|done].
      cbv beta iota in E. destruct (fields pcs) as [[|name [|? ?]]|]; try done.
      cbv beta iota in E.
      destruct (run_program w argv "" st3) as [[[ok2 out2] st4]|] eqn:E3; [|done].
      cbv beta iota in E. injection E as <- <- <-.
      apply run_program_vars in E3.
      destruct (argv_of_vars _ _ _ _ _ E1) as [H1 H1'].
      destruct (expand_word_vars _ _ _ _ _ _ E2) as [H2 H2'].
      cbn [write_file vars]. rewrite E3. split; [set_solver|].
      intros x [Hx|Hx]%elem_of_app; [apply H2, H1', Hx | apply H2', Hx].
    - destruct (argv_of (run_inner w) ws st) as [[argv st2]|] eqn:E1; [|done].
      cbv beta iota delta [mbind option_bind] in E.
      apply run_program_vars in E.
      destruct (argv_of_vars _ _ _ _ _ E1) as [H1 H1'].
      rewrite E. split; [done|].
      intros x Hx. rewrite app_nil_r in Hx. by apply H1'.
    - destruct (run_command w (run_inner w) c1 "" st) as [[[ok2 out2] st2]|]; [|done].
      cbv beta iota delta [mbind option_bind] in E.
      destruct (run_command w (run_inner w) c2 out2 (subshell st st2))
        as [[[ok3 out3] st3]|]; [|done].
      cbv beta iota in E. injection E as <- <- <-.
      split; [done | by intros x ?%elem_of_nil]. }
  by destruct (is_empty out).
Qed.

(** The variables read before they are set are fewer when more are set at
    the start. *)
Lemma unset_reads_mono (K K' : gset string) (cs : list line) :
  K ⊆ K' → unset_reads K' cs ⊆ unset_reads K cs.
Proof.
  revert K K'. induction cs as [|c cs IH]; intros K K' HK; [done|].
  cbn [unset_reads]. intros x [Hx|Hx]%elem_of_app; apply elem_of_app.
  - left. apply list_elem_of_In, filter_In in Hx as [Hin Hd].
    apply list_elem_of_In, filter_In. split; [done|].
    apply bool_decide_eq_true in Hd. apply bool_decide_eq_true. set_solver.
  - right. revert Hx. apply IH. by apply union_mono_l.
Qed.

(** What a run expands while unset is among what the commands, read in
    order, expand before anything has set it. *)
Lemma unset_in_run_reads (w : World) (cs : list line) (st : shell) :
  unset_in_run w cs st ⊆ unset_reads (dom (vars st)) cs.
Proof.
  revert st. induction cs as [|c cs IH]; intros st; [done|].
  cbn [unset_in_run unset_reads]. intros x [Hx|Hx]%elem_of_app; apply elem_of_app.
  - left. apply list_elem_of_In, filter_In in Hx as [Hin Hd].
    apply list_elem_of_In, filter_In. split; [done|].
    apply bool_decide_eq_true in Hd. apply bool_decide_eq_true.
    by apply not_elem_of_dom.
  - right. destruct (run_top w c st) as [[[] st']|] eqn:E;
      [|by apply elem_of_nil in Hx|by apply elem_of_nil in Hx].
    destruct (run_top_vars _ _ _ _ _ E) as [H1 H2].
    apply IH in Hx. revert Hx. apply unset_reads_mono.
    intros y [Hy|Hy]%elem_of_union; [|by apply H1].
    apply H2. by apply elem_of_list_to_set in Hy.
Qed.

Lemma expanded_names (props : Props) (sc : SecretConfig.t) (gh : GithubConfig.t) :
  list_to_set
    (flat_map line_reads
       (build_commands_of (Project.buildSpec (built_project props sc gh))))
  = ({[ "REPOSITORY_URI"; "AWS_ACCOUNT_ID"; "AWS_STACK_REGION"; "CONTAINER_NAME";
        "COMMIT_HASH"; "IMAGE_TAG"; "CODEBUILD_RESOLVED_SOURCE_VERSION";
        "CODEBUILD_SRC_DIR" ]} : gset string).
Proof. apply (bool_decide_unpack _). vm_compute. exact I. Qed.

Lemma plaintext_names_built (props : Props) (sc : SecretConfig.t)
    (gh : GithubConfig.t) :
  plaintext_names (built_project props sc gh)
  = {[ "REPOSITORY_URI"; "AWS_ACCOUNT_ID"; "AWS_STACK_REGION"; "CONTAINER_NAME" ]}.
Proof. apply (bool_decide_unpack _). vm_compute. exact I. Qed.

Lemma unset_reads_of_build (props : Props) (sc : SecretConfig.t) (gh : GithubConfig.t)
    (sv : Run.Services) (rev : option string) :
  unset_reads (dom (Run.build_vars sv (built_project props sc gh) rev))
    (build_commands_of (Project.buildSpec (built_project props sc gh)))
  = match rev with
    | Some _ => []
    | None => ["CODEBUILD_RESOLVED_SOURCE_VERSION"]
    end.
Proof. destruct rev; vm_compute; reflexivity. Qed.

(** X9. In every build of the project, whatever its programs do, every
    variable that a command expands is set in the shell when the command
    starts, but for one case: when the revision is unresolved,
    [CODEBUILD_RESOLVED_SOURCE_VERSION] is not set, and the command that
    computes [COMMIT_HASH] expands it.  The variable that holds the access
    token is set in every build and no command expands it; the commands
    expand every variable that the project declares as plain text. *)
Theorem variables_set_before_use (props : Props) (sc : SecretConfig.t)
    (gh : GithubConfig.t) (sv : Run.Services) (rev : option string) :
  let p := built_project props sc gh in
  let cs := build_commands_of (Project.buildSpec p) in
  let st0 := build_start sv p rev in
  (∀ x, x ∈ unset_in_run (Run.world sv) cs st0 →
        rev = None ∧ x = "CODEBUILD_RESOLVED_SOURCE_VERSION")
  ∧ (vars st0 !! "CODEBUILD_RESOLVED_SOURCE_VERSION" = rev)
  ∧ is_Some (vars st0 !! "GITHUB_AUTH_TOKEN")
  ∧ ("GITHUB_AUTH_TOKEN" ∉ flat_map line_reads cs)
  ∧ plaintext_names p ⊆ list_to_set (flat_map line_reads cs).
Proof.
  cbv zeta. split_and!.
  - intros x Hx. apply unset_in_run_reads in Hx.
    cbn [build_start vars] in Hx. rewrite unset_reads_of_build in Hx.
    destruct rev; [by apply elem_of_nil in Hx|].
    by apply list_elem_of_singleton in Hx.
  - cbn [build_start vars]. destruct rev; vm_compute; reflexivity.
  - cbn [build_start vars]. destruct rev; vm_compute; by eexists.
  - intros Hin. apply (elem_of_list_to_set (C := gset string)) in Hin.
    rewrite expanded_names in Hin. revert Hin.
    apply (bool_decide_unpack _). vm_compute. exact I.
  - rewrite plaintext_names_built, expanded_names.
    apply (bool_decide_unpack _). vm_compute. exact I.
Qed.

(** With an unresolved revision and programs that succeed, the build of the
    example expands the one variable that is not set, once. *)
Example example_unset_revision :
  unset_in_run (Run.world Example.services)
    (build_commands_of
       (Project.buildSpec (built_project Example.props secretConfig githubConfig)))
    (build_start Example.services
       (built_project Example.props secretConfig githubConfig) None)
  = ["CODEBUILD_RESOLVED_SOURCE_VERSION"].
Proof. vm_compute. reflexivity. Qed.

End Variables.

(** ** The entry point and the constructor at an instance *)

Section EntryWitnesses.
Import pipeline_stack infrastructure Outcome Audit.

Lemma start_wiring_witness :
  Example.host resolveCurrentUserOwnerName 0 = Some "exanubes"
  ∧ Example.host getAccountId 0 = Some "123456789012"
  ∧ Example.host getRegion 0 = Some "eu-central-1"
  ∧ let env := {| Environment.account := Some "123456789012";
                  Environment.region := Some "eu-central-1" |} in
    let ecr := Example.ecr_repository env in
    let ecs := Example.ecs_outputs (Example.vpc_vpc env) ecr env in
    ∃ m stack p pl d,
      start Example.ecr_repository Example.vpc_vpc Example.ecs_outputs Example.host
        loaded = (Some tt, m)
      ∧ app m !! "PipelineStack" = Some stack
      ∧ project_of stack = Some p ∧ pipeline_of stack = Some pl
      ∧ deploy_actions pl = [d]
      ∧ BuildEnvironmentVariable.value
          <$> Project.environmentVariables p !! "REPOSITORY_URI"
        = Some (repositoryUri ecr)
      ∧ Project.pullPush p = [ecr]
      ∧ EcsDeployAction.service d = infrastructure.service ecs
      ∧ BuildEnvironmentVariable.value
          <$> Project.environmentVariables p !! "CONTAINER_NAME"
        = Some (containerName (infrastructure.container ecs)).
Proof.
  split_and!; [reflexivity | reflexivity | reflexivity |].
  apply (start_wiring Example.ecr_repository Example.vpc_vpc Example.ecs_outputs
           Example.host "exanubes" "123456789012" "eu-central-1");
    reflexivity.
Defined.

Lemma constructor_frame_witness :
  let m' := snd (PipelineStack "PipelineStack" Example.props loaded) in
  app loaded !! "PipelineStack" = None
  ∧ PipelineStack "PipelineStack" Example.props loaded = (Some tt, m')
  ∧ ∃ stack c p pl a,
      asked m' = asked loaded ∧ tags m' = tags loaded
      ∧ secretConfig_obj m' = secretConfig_obj loaded
      ∧ githubConfig_obj m' = githubConfig_obj loaded
      ∧ (∀ id', id' ≠ "PipelineStack" → app m' !! id' = app loaded !! id')
      ∧ app m' !! "PipelineStack" = Some stack
      ∧ Stack.env stack = env Example.props
      ∧ dom (Stack.children stack)
        = {[ "code-build-credentials"; "project"; "DeployPipeline" ]}
      ∧ credentials_of stack = Some c ∧ project_of stack = Some p
      ∧ pipeline_of stack = Some pl ∧ source_actions pl = [a]
      ∧ GitHubSourceCredentials.accessToken c
        = SecretValue.secretsManager (SecretConfig.id (secretConfig_obj loaded))
      ∧ map PolicyStatement.resources (Project.rolePolicy p)
        = [[SecretConfig.arn (secretConfig_obj loaded)]]
      ∧ Source.repo (Project.source p) = GithubConfig.repo (githubConfig_obj loaded)
      ∧ Source.owner (Project.source p) = GithubConfig.owner (githubConfig_obj loaded)
      ∧ GitHubSourceAction.repo a = GithubConfig.repo (githubConfig_obj loaded)
      ∧ GitHubSourceAction.owner a = GithubConfig.owner (githubConfig_obj loaded)
      ∧ GitHubSourceAction.branch a = GithubConfig.branch (githubConfig_obj loaded).
Proof.
  intros m'.
  assert (H1 : app loaded !! "PipelineStack" = None) by reflexivity.
  assert (H2 : PipelineStack "PipelineStack" Example.props loaded = (Some tt, m'))
    by (unfold m'; rewrite PipelineStack_run; reflexivity).
  split_and!; [exact H1 | exact H2 |].
  exact (constructor_frame "PipelineStack" Example.props loaded m' H1 H2).
Defined.

Lemma main_exit_status_witness :
  first_unanswered Example.no_account = Some getAccountId
  ∧ ∃ m,
      main Example.ecr_repository Example.vpc_vpc Example.ecs_outputs
        Example.no_account loaded = (Some 1, m)
      ∧ asked m = asked_upto getAccountId ∧ app m = ∅ ∧ tags m = ∅.
Proof.
  split; [reflexivity|].
  apply (main_exit_status Example.ecr_repository Example.vpc_vpc Example.ecs_outputs
           Example.no_account getAccountId).
  reflexivity.
Defined.

End EntryWitnesses.

(** ** The artifacts of the pipeline of the stack *)

Section Artifacts.
Import pipeline_stack Wiring.

(** X10. In the pipeline of the stack every artifact that a stage takes in
    is put out by a stage before it: the build action takes in what the
    source action puts out, and the deploy action reads its file from what
    the build action puts out.  No two actions put out the same artifact,
    and every artifact put out is taken in by a later action. *)
Theorem pipeline_artifacts_wired (props : Props) (gh : GithubConfig.t) :
  let stages := Pipeline.stages (pipeline props gh) in
  wired [] stages = true
  ∧ NoDup (flat_map stage_outputs stages)
  ∧ flat_map stage_inputs stages = flat_map stage_outputs stages
  ∧ map Stage.stageName stages = ["Source"; "Build"; "Deploy"]
  ∧ map stage_outputs stages = [["Source"]; ["BuildOutput"]; []]
  ∧ map stage_inputs stages = [[]; ["Source"]; ["BuildOutput"]].
Proof.
  cbv zeta. split_and!; try reflexivity.
  cbn. apply NoDup_cons. split; [|apply NoDup_singleton].
  by intros H%list_elem_of_singleton.
Qed.

End Artifacts.

(** * The run of the pipeline *)

(** ** What the programs started say about a phase that stopped *)

Section Stopped.
Import Outcome.
Variable w : World.

Lemma decisive_app (a b : list (list string)) :
  decisive (a ++ b) = decisive a ++ decisive b.
Proof.
  induction a as [|x a IH]; [done|].
  rewrite <- app_comm_cons, !decisive_cons, IH. by destruct (ignored x).
Qed.

Lemma halted_stopped_in (vs fs : gmap string string) (sp progs : list (list string))
    (st : shell) :
  halted w vs fs sp progs st →
  vars st = vs ∧ files st = fs
  ∧ ∃ sp', spawned (log st) = sp ++ sp' ∧ stopped_in w progs sp'.
Proof.
  intros (started & argv & Hpre & (Hv & Hf & Hs) & Hign & Hbad & Hwell).
  split_and!; [done | done |].
  exists (started ++ [argv]). split; [done|]. by exists started, argv.
Qed.

Lemma stopped_in_after (pre progs sp : list (list string)) :
  Forall (called_well w) (decisive pre) →
  stopped_in w progs sp → stopped_in w (pre ++ progs) (pre ++ sp).
Proof.
  intros Hpre (started & argv & [rest Hp] & -> & Hign & Hbad & Hwell).
  exists (pre ++ started), argv. split_and!; [| |done|done|].
  - exists rest. by rewrite Hp, <- !app_assoc.
  - by rewrite <- app_assoc.
  - rewrite decisive_app. by apply Forall_app.
Qed.

Lemma stopped_in_before (progs more sp : list (list string)) :
  stopped_in w progs sp → stopped_in w (progs ++ more) sp.
Proof.
  intros (started & argv & [rest Hp] & -> & Hign & Hbad & Hwell).
  exists started, argv. split_and!; [|done|done|done|done].
  exists (rest ++ more). by rewrite Hp, <- !app_assoc.
Qed.

(** The commands that stopped pushed nothing when their programs hold no
    push. *)
Lemma stopped_in_pushed (progs : list (list string)) (l : list event) :
  stopped_in w progs (spawned l) →
  omap (λ argv, match argv with
                | [prog; verb; ref] =>
                    if String.eqb prog "docker" && String.eqb verb "push"
                    then Some ref else None
                | _ => None
                end) progs = [] →
  pushed l = [].
Proof.
  intros (started & argv & [rest Hp] & Hs & _) Hnone. unfold pushed.
  rewrite Hs. rewrite Hp, omap_app in Hnone. by apply app_eq_nil in Hnone as [? _].
Qed.

End Stopped.

(** ** The build of the project, step by step *)

Section BuildTrace.
Import pipeline_stack Run Outcome.
Variable sv : Services.
Variable props : Props.
Variable sc : SecretConfig.t.
Variable gh : GithubConfig.t.
Variable rev : option string.
Hypothesis Hdated : dated (world sv).
Hypothesis Hfit : fit props sv rev = true.

Let p := built_project props sc gh.
Let bv := build_vars sv p rev.
Let text := image_definition_text (tagged bv).
Let bp := build_programs_of props sv rev.
Let pp := push_programs_of props rev.

Lemma build_programs_of_vars :
  pre_build_programs bv ++ build_programs (tagged bv) = bp.
Proof.
  destruct (tagged_values sv props sc gh rev) as (Euri & _ & Edir & Etag).
  unfold pre_build_programs, build_programs, bp, build_programs_of, bv, p.
  by rewrite build_vars_account, build_vars_region, Euri, Edir, Etag.
Qed.

Lemma push_programs_of_vars : post_build_programs (tagged bv) = pp.
Proof.
  destruct (tagged_values sv props sc gh rev) as (Euri & _ & _ & Etag).
  unfold post_build_programs, pp, push_programs_of.
  fold p bv in Euri, Etag. by rewrite Euri, Etag.
Qed.

Lemma tagged_revision :
  value (tagged bv) "CODEBUILD_RESOLVED_SOURCE_VERSION" = default "" rev.
Proof.
  unfold tagged. rewrite !value_insert_ne by done. apply build_vars_revision.
Qed.

Lemma run_build_trace (r : RunState) :
  ∃ ok r' st,
    run_build sv p pipelineActions_build rev r = Some (ok, r')
    ∧ build_shell r' = Some st
    ∧ value (vars st) "CODEBUILD_RESOLVED_SOURCE_VERSION" = default "" rev
    ∧ ((ok = false
        ∧ marks r' = marks r ++ [Started Build; Finished Build false]
        ∧ files st = ∅
        ∧ stopped_in (world sv) bp (spawned (log st)))
       ∨ (ok = false
          ∧ marks r' = marks r ++ [Started Build; Finished Build true;
                                   Started Push; Finished Push false]
          ∧ files st = ∅
          ∧ Forall (called_well (world sv)) (decisive bp)
          ∧ ∃ sp, spawned (log st) = bp ++ sp ∧ stopped_in (world sv) pp sp)
       ∨ (ok = true
          ∧ marks r' = marks r ++ [Started Build; Finished Build true;
                                   Started Push; Finished Push true]
          ∧ Forall (called_well (world sv)) (decisive (bp ++ pp))
          ∧ spawned (log st) = bp ++ pp
          ∧ value (vars st) "IMAGE_TAG" = revision_tag (default "" rev))).
Proof.
  pose proof (build_vars_ready sv props sc gh rev Hfit) as Hready.
  destruct (tagged_ready sv props sc gh rev Hfit) as (Huri & Hdir & Hcn & Htag).
  destruct (tagged_values sv props sc gh rev) as (_ & _ & _ & Etag).
  fold p bv in Hready, Huri, Hdir, Hcn, Htag, Etag.
  unfold run_build.
  change (Project.buildSpec p) with getBuildSpec.
  cbn [run_phases]. unfold run_phase.
  rewrite phase_install, phase_pre_build, phase_build, phase_post_build.
  cbv beta iota delta [mbind option_bind].
  set (st0 := {| vars := build_vars sv p rev; files := ∅; log := [] |}).
  assert (Hat0 : at_state bv ∅ [] st0) by done.
  destruct (pre_build_ends (world sv) bv ∅ [] st0 Hready Hat0)
    as (ok1 & st1 & -> & H1).
  cbv beta iota delta [mbind option_bind].
  destruct ok1.
  2:{ destruct (halted_stopped_in _ _ _ _ _ _ H1) as (Hv & Hf & sp' & Hs & Hst).
      eexists false, _, st1. split_and!; [reflexivity | reflexivity | |].
      - rewrite Hv. apply build_vars_revision.
      - left. split_and!; [done | cbn; by rewrite <- !app_assoc | done |].
        rewrite Hs, app_nil_l, <- build_programs_of_vars.
        by apply stopped_in_before. }
  destruct H1 as [Hat1 Hw1].
  destruct (build_ends (world sv) (tagged bv) ∅ _ st1 Hdated Huri Hdir Htag Hat1)
    as (ok2 & st2 & -> & H2).
  cbv beta iota delta [mbind option_bind].
  destruct ok2.
  2:{ destruct (halted_stopped_in _ _ _ _ _ _ H2) as (Hv & Hf & sp' & Hs & Hst).
      eexists false, _, st2. split_and!; [reflexivity | reflexivity | |].
      - rewrite Hv. apply tagged_revision.
      - left. split_and!; [done | cbn; by rewrite <- !app_assoc | done |].
        rewrite Hs, app_nil_l, <- build_programs_of_vars.
        by apply stopped_in_after. }
  destruct H2 as [Hat2 Hw2].
  assert (Hwb : Forall (called_well (world sv)) (decisive bp)).
  { rewrite <- build_programs_of_vars, decisive_app. by apply Forall_app. }
  destruct (post_build_ends (world sv) (tagged bv) ∅ _ st2 Hdated Huri Hcn Htag Hat2)
    as (ok3 & st3 & -> & H3).
  cbv beta iota delta [mbind option_bind].
  destruct ok3.
  2:{ destruct (halted_stopped_in _ _ _ _ _ _ H3) as (Hv & Hf & sp' & Hs & Hst).
      eexists false, _, st3. split_and!; [reflexivity | reflexivity | |].
      - rewrite Hv. apply tagged_revision.
      - right. left. split_and!; [done | cbn; by rewrite <- !app_assoc | done | done |].
        exists sp'. rewrite Hs, app_nil_l, build_programs_of_vars.
        split; [done|]. by rewrite <- push_programs_of_vars. }
  destruct H3 as [(Hv3 & Hf3 & Hs3) Hw3].
  change (BuildSpec.artifacts_files getBuildSpec) with [image_file].
  cbn [collect]. rewrite Hf3.
  change "docker_image_definition.json" with image_file.
  rewrite lookup_insert_eq. cbv beta iota delta [mbind option_bind].
  eexists true, _, st3. split_and!; [reflexivity | reflexivity | |].
  - rewrite Hv3. apply tagged_revision.
  - right. right. split_and!; [done | cbn; by rewrite <- !app_assoc | | |].
    + rewrite decisive_app. apply Forall_app. split; [done|].
      by rewrite <- push_programs_of_vars.
    + rewrite Hs3, app_nil_l, build_programs_of_vars. by rewrite push_programs_of_vars.
    + by rewrite Hv3.
Qed.
End BuildTrace.

(** ** The run of the pipeline, step by step *)

Section RunTrace.
Import pipeline_stack Run Outcome.
Variable sv : Services.
Variable props : Props.
Variable sc : SecretConfig.t.
Variable gh : GithubConfig.t.
Variable e : PushEvent.
Hypothesis Hdated : dated (world sv).
Hypothesis Hfit : ∀ rev, fetch sv e = Some rev → fit props sv rev = true.

Lemma run_pipeline_trace :
  ∃ ok r,
    run_pipeline (built props sc gh) "DeployPipeline" sv e = Some (ok, r)
    ∧ match fetch sv e with
      | None => build_shell r = None
      | Some rev =>
          let bp := build_programs_of props sv rev in
          let pp := push_programs_of props rev in
          ∃ st,
            build_shell r = Some st
            ∧ value (vars st) "CODEBUILD_RESOLVED_SOURCE_VERSION" = default "" rev
            ∧ ((marks r = marks_upto Build false
                ∧ files st = ∅
                ∧ stopped_in (world sv) bp (spawned (log st)))
               ∨ (marks r = marks_upto Push false
                  ∧ files st = ∅
                  ∧ Forall (called_well (world sv)) (decisive bp)
                  ∧ ∃ sp, spawned (log st) = bp ++ sp
                          ∧ stopped_in (world sv) pp sp)
               ∨ (∃ b, marks r = marks_upto Deploy b
                       ∧ Forall (called_well (world sv)) (decisive (bp ++ pp))
                       ∧ spawned (log st) = bp ++ pp
                       ∧ value (vars st) "IMAGE_TAG"
                         = revision_tag (default "" rev)))
      end.
Proof.
  unfold run_pipeline.
  change (Stack.children (built props sc gh) !! "DeployPipeline")
    with (Some (DeployPipeline (pipeline props gh))).
  cbv beta iota.
  cbn [run_stages run_actions Pipeline.stages pipeline Stage.actions run_action].
  destruct (fetch sv e) as [rev|] eqn:Efetch.
  2:{ cbv beta iota delta [mbind option_bind]. eexists false, _.
      split; [reflexivity|]. reflexivity. }
  cbv beta iota delta [mbind option_bind].
  change (store _ !! Artifact.artifactName (CodeBuildAction.input pipelineActions_build))
    with (Some (Snapshot rev)).
  change (Stack.children (built props sc gh) !! CodeBuildAction.project pipelineActions_build)
    with (Some (BuildProject (built_project props sc gh))).
  cbv beta iota.
  match goal with |- context [run_build sv _ _ rev ?r0] =>
    destruct (run_build_spec sv props sc gh rev Hdated (Hfit rev eq_refl) r0)
      as (ok1 & r1 & Hrun & Hh1 & Hob1 & Hfail1 & Hok1);
    destruct (run_build_trace sv props sc gh rev Hdated (Hfit rev eq_refl) r0)
      as (ok1' & r1' & st & Hrun' & Hsh & Hrev & Htrace) end.
  rewrite Hrun in Hrun'. injection Hrun' as <- <-. rewrite Hrun.
  cbv beta iota.
  destruct ok1.
  2:{ eexists false, _. split; [reflexivity|]. cbv zeta. exists st.
      split_and!; [done | done |].
      destruct Htrace as [(_ & Hm & Hf & Hst)|[(_ & Hm & Hf & Hw & Hst)|(Hok & _)]];
        [left | right; left | discriminate Hok].
      - split_and!; [by rewrite Hm | done | done].
      - split_and!; [by rewrite Hm | done | done | done]. }
  destruct (Hok1 eq_refl) as (Hm1 & Hst1 & st' & Hsh1 & Hat1). clear Hfail1 Hok1.
  destruct Htrace as [(Hok & _)|[(Hok & _)|(_ & _ & Hw & Hs & Htag)]];
    [discriminate Hok | discriminate Hok |].
  cbn [EcsDeployAction.imageFile pipelineActions_deploy ArtifactPath.artifact
       ArtifactPath.fileName artifacts_build Artifact.artifactName store mark].
  rewrite Hst1, lookup_insert_eq. cbv beta iota.
  change "docker_image_definition.json" with image_file.
  rewrite lookup_insert_eq.
  cbv beta iota delta [mbind option_bind].
  destruct (rollout sv _ _) eqn:Eroll; cbv beta iota.
  all: eexists _, _; (split; [reflexivity|]); cbv zeta; exists st.
  all: split_and!; [cbn; exact Hsh | done |].
  all: right; right; eexists; split_and!;
    [cbn; rewrite Hm1; cbn; reflexivity | done | done | done].
Qed.
End RunTrace.

(** ** The steps of a run *)

Section RunClaim.
Import pipeline_stack Run Audit Outcome.

(** C3. Every run of the pipeline goes through the steps fetch, build, push
    and deploy in this order and stops at the first step that fails: the
    marks of a run are those of some step reached, with every step before it
    started and finished well, and the run succeeds exactly when the deploy
    step is reached and finishes well.  When every program of the build
    succeeds and the source is fetched, the deploy step is reached.  What
    the deploy step is handed names the image under the tag that the build
    left in [IMAGE_TAG], and the build pushed the image under that tag.

    The steps are those of the commands.  No command runs when the source
    is not fetched, and the commands run on the revision fetched.  The
    programs started are a start of those of [pre_build] and [build]
    followed by those of [post_build], in the order of the commands.  A run
    that fails in the build step stopped at a program of [pre_build] or
    [build] that failed, and has pushed nothing and written no file; the
    push step is reached only after [docker build] and [docker tag] were
    started and succeeded, and a run that fails there stopped at a push
    that failed; the deploy step is reached only after both pushes
    succeeded, and the tag in [IMAGE_TAG], under which the image was built,
    tagged and pushed, is the one of the revision fetched. *)
Theorem run_in_order (props : Props) (sv : Services) (e : PushEvent) :
  dated (world sv) →
  fit_event props sv e = true →
  ∃ stack ok r,
    constructed props = Some stack
    ∧ run_pipeline stack "DeployPipeline" sv e = Some (ok, r)
    ∧ (∃ s b, marks r = marks_upto s b ∧ (ok = true ↔ s = Deploy ∧ b = true))
    ∧ (obliging (world sv) → is_Some (fetch sv e) →
       ∃ b, marks r = marks_upto Deploy b)
    ∧ (In (Started Deploy) (marks r) ↔ is_Some (handed r))
    ∧ (∀ svc text, handed r = Some (svc, text) →
         ∃ st, build_shell r = Some st
               ∧ svc = service props
               ∧ text = ImageDefinition.json
                          (image_definitions props (value (vars st) "IMAGE_TAG"))
               ∧ In (image_ref props (value (vars st) "IMAGE_TAG"))
                    (pushed (log st)))
    ∧ match fetch sv e with
      | None => marks r = marks_upto Fetch false ∧ build_shell r = None
      | Some rev =>
          let bp := build_programs_of props sv rev in
          let pp := push_programs_of props rev in
          let tag := revision_tag (default "" rev) in
          ∃ st,
            build_shell r = Some st
            ∧ value (vars st) "CODEBUILD_RESOLVED_SOURCE_VERSION" = default "" rev
            ∧ ((marks r = marks_upto Build false
                ∧ stopped_in (world sv) bp (spawned (log st))
                ∧ pushed (log st) = [] ∧ files st = ∅)
               ∨ (marks r = marks_upto Push false
                  ∧ Forall (called_well (world sv)) (decisive bp)
                  ∧ (∃ sp, spawned (log st) = bp ++ sp
                           ∧ stopped_in (world sv) pp sp)
                  ∧ files st = ∅)
               ∨ (∃ b, marks r = marks_upto Deploy b
                       ∧ Forall (called_well (world sv)) (decisive (bp ++ pp))
                       ∧ spawned (log st) = bp ++ pp
                       ∧ value (vars st) "IMAGE_TAG" = tag
                       ∧ pushed (log st)
                         = [image_ref props "latest"; image_ref props tag]
                       ∧ handed r
                         = Some (service props,
                                 ImageDefinition.json (image_definitions props tag))))
      end.
Proof.
  intros Hdated Hfit.
  assert (Hfit' : ∀ rev, fetch sv e = Some rev → fit props sv rev = true).
  { intros rev Hrev. unfold fit_event in Hfit. by rewrite Hrev in Hfit. }
  destruct (run_pipeline_spec sv props secretConfig githubConfig e Hdated Hfit')
    as (ok & r & Hrun & Hcases).
  destruct (run_pipeline_trace sv props secretConfig githubConfig e Hdated Hfit')
    as (ok' & r' & Hrun' & Htrace).
  rewrite Hrun in Hrun'. injection Hrun' as <- <-.
  exists (built props secretConfig githubConfig), ok, r.
  split; [apply constructed_built|]. split; [exact Hrun|].
  destruct Hcases as [(Hf & -> & Hm & Hh)
                     |(rev & Hf & Hob & [(-> & Hm & Hh)|[(-> & Hm & Hh)|Hdeploy]])].
  - split_and!.
    + exists Fetch, false. split; [done|]. split; [done | by intros [? _]].
    + rewrite Hf. by intros _ [? ?].
    + rewrite Hm, Hh. cbn. split; [intros [?|[?|[]]]; done | by intros [? ?]].
    + rewrite Hh. done.
    + rewrite Hf in Htrace |- *. done.
  - split_and!.
    + exists Build, false. split; [done|]. split; [done | by intros [? _]].
    + intros Ho _. exact (Hob Ho).
    + rewrite Hm, Hh. cbn. split; [|by intros [? ?]].
      intros H. repeat (destruct H as [H|H]; [discriminate H|]). destruct H.
    + rewrite Hh. done.
    + rewrite Hf in Htrace |- *. cbv zeta in Htrace |- *.
      destruct Htrace as (st & Hsh & Hrev & Hst). exists st.
      split_and!; [done | done |].
      destruct Hst as [(_ & Hfs & Hst)|[(Hm' & _)|(b & Hm' & _)]];
        [| rewrite Hm in Hm'; discriminate Hm' | rewrite Hm in Hm'; discriminate Hm'].
      left. split_and!; [done | done | | done].
      by apply (stopped_in_pushed _ _ _ Hst).
  - split_and!.
    + exists Push, false. split; [done|]. split; [done | by intros [? _]].
    + intros Ho _. exact (Hob Ho).
    + rewrite Hm, Hh. cbn. split; [|by intros [? ?]].
      intros H. repeat (destruct H as [H|H]; [discriminate H|]). destruct H.
    + rewrite Hh. done.
    + rewrite Hf in Htrace |- *. cbv zeta in Htrace |- *.
      destruct Htrace as (st & Hsh & Hrev & Hst). exists st.
      split_and!; [done | done |].
      destruct Hst as [(Hm' & _)|[(_ & Hfs & Hw & Hst)|(b & Hm' & _)]];
        [rewrite Hm in Hm'; discriminate Hm' | | rewrite Hm in Hm'; discriminate Hm'].
      right. left. by split_and!.
  - cbv zeta in Hdeploy.
    destruct Hdeploy as (Hm & Hok & Hh & Hstore & st & Hsh & Hv & Hfs & Hsp).
    destruct (tagged_values sv props secretConfig githubConfig rev)
      as (Euri & _ & _ & Etag).
    split_and!.
    + exists Deploy, ok. split; [done|]. split; [by intros -> | by intros [_ ->]].
    + intros Ho _. exact (Hob Ho).
    + rewrite Hm, Hh. cbn. split; [by intros _ | intros _; tauto].
    + intros svc text Heq. rewrite Hh in Heq. injection Heq as <- <-.
      exists st. split_and!; [done|done| |].
      * rewrite (image_definition_json sv props secretConfig githubConfig rev
                   (Hfit' rev Hf)).
        by rewrite Hv, Etag.
      * rewrite (pushed_of_build _ _ _ Hsp). unfold image_ref.
        rewrite Hv, Euri. cbn. auto.
    + rewrite Hf in Htrace |- *. cbv zeta in Htrace |- *.
      destruct Htrace as (st' & Hsh' & Hrev & Hst).
      rewrite Hsh in Hsh'. injection Hsh' as <-. exists st.
      split_and!; [done | done |].
      destruct Hst as [(Hm' & _)|[(Hm' & _)|(b & Hm' & Hw & Hs & Htag)]];
        [rewrite Hm in Hm'; discriminate Hm' | rewrite Hm in Hm'; discriminate Hm' |].
      right. right. exists b. split_and!; [done | done | done | done | |].
      * rewrite (pushed_of_build _ _ _ Hsp). unfold image_ref.
        by rewrite Euri, Etag.
      * rewrite Hh. f_equal. f_equal.
        apply (image_definition_json sv props secretConfig githubConfig rev
                 (Hfit' rev Hf)).
Qed.

Lemma run_in_order_witness :
  dated (world Example.services)
  ∧ fit_event Example.props Example.services Example.push = true
  ∧ ∃ stack ok r,
      constructed Example.props = Some stack
      ∧ run_pipeline stack "DeployPipeline" Example.services Example.push = Some (ok, r)
      ∧ (∃ s b, marks r = marks_upto s b ∧ (ok = true ↔ s = Deploy ∧ b = true))
      ∧ (obliging (world Example.services) → is_Some (fetch Example.services Example.push) →
         ∃ b, marks r = marks_upto Deploy b)
      ∧ (In (Started Deploy) (marks r) ↔ is_Some (handed r))
      ∧ (∀ svc text, handed r = Some (svc, text) →
           ∃ st, build_shell r = Some st
                 ∧ svc = service Example.props
                 ∧ text = ImageDefinition.json
                            (image_definitions Example.props (value (vars st) "IMAGE_TAG"))
                 ∧ In (image_ref Example.props (value (vars st) "IMAGE_TAG"))
                      (pushed (log st)))
      ∧ match fetch Example.services Example.push with
        | None => marks r = marks_upto Fetch false ∧ build_shell r = None
        | Some rev =>
            let bp := build_programs_of Example.props Example.services rev in
            let pp := push_programs_of Example.props rev in
            let tag := revision_tag (default "" rev) in
            ∃ st,
              build_shell r = Some st
              ∧ value (vars st) "CODEBUILD_RESOLVED_SOURCE_VERSION" = default "" rev
              ∧ ((marks r = marks_upto Build false
                  ∧ stopped_in (world Example.services) bp (spawned (log st))
                  ∧ pushed (log st) = [] ∧ files st = ∅)
                 ∨ (marks r = marks_upto Push false
                    ∧ Forall (called_well (world Example.services)) (decisive bp)
                    ∧ (∃ sp, spawned (log st) = bp ++ sp
                             ∧ stopped_in (world Example.services) pp sp)
                    ∧ files st = ∅)
                 ∨ (∃ b, marks r = marks_upto Deploy b
                         ∧ Forall (called_well (world Example.services))
                             (decisive (bp ++ pp))
                         ∧ spawned (log st) = bp ++ pp
                         ∧ value (vars st) "IMAGE_TAG" = tag
                         ∧ pushed (log st)
                           = [image_ref Example.props "latest";
                              image_ref Example.props tag]
                         ∧ handed r
                           = Some (service Example.props,
                                   ImageDefinition.json
                                     (image_definitions Example.props tag))))
        end.
Proof.
  assert (H1 : dated (world Example.services)) by (intros l stdin; reflexivity).
  assert (H2 : fit_event Example.props Example.services Example.push = true)
    by reflexivity.
  split_and!; [exact H1 | exact H2 |].
  exact (run_in_order Example.props Example.services Example.push H1 H2).
Defined.

(** When [docker build] fails the run stops in the build step, at
    [docker build]: [docker tag] is not started and nothing is pushed. *)
Example example_failed_build_programs :
  (s ← constructed Example.props;
   '(ok, r) ← run_pipeline s "DeployPipeline" Example.no_build Example.push;
   st ← build_shell r;
   Some (marks r, spawned (log st)))
  = Some (marks_upto Build false,
          [ ["aws"; "--version"];
            ["aws"; "ecr"; "get-login-password"; "--region"; "eu-central-1"];
            ["docker"; "login"; "--username"; "AWS"; "--password-stdin";
             "123456789012.dkr.ecr.eu-central-1.amazonaws.com"];
            ["date"];
            ["docker"; "build"; "-f"; "/codebuild/output/src/backend/Dockerfile";
             "-t"; "123456789012.dkr.ecr.eu-central-1.amazonaws.com/backend:latest";
             "./backend"] ]).
Proof. vm_compute. reflexivity. Qed.

End RunClaim.
